(** * serial_monitor.py: the serial data logger

    A shallow embedding of [python/serial_monitor.py] (class
    [SerialDataLogger]) and the properties of its line parser, its clock
    anchor, its two CSV logs and its two loops.

    Modelling conventions.
    - Text is [string]: a sequence of code points below 256.  On that
      range Python's [str.isspace] / [\s] is exactly 9-13, 28-32, 0x85 and
      0xA0, and [\d] / the digits of [int()] are exactly '0'..'9'.
    - [int()] raises [ValueError] on a decimal string of more than 4300
      digits, the default of [sys.set_int_max_str_digits].
    - [time.time()] readings are an abstract type [time]; the expression
      [int((now - anchor) * 1000)] of the source is the parameter
      [elapsed_ms now anchor].  Nothing is assumed about it.
    - [datetime.now().strftime(...)] is an input string at each call.
    - A CSV file is the list of rows handed to [csv.writer.writerow];
      every write is followed by [flush] in the source, so a row is in the
      file as soon as it is written.
    - The disk is a finite map from paths to files.  Directories are not
      modelled: the [mkdir] of [open_csv] is part of opening the sensor
      log, and its failure is the [IOError] of that [open].
    - A handle attribute [Some p] stands for an open file object on [p].
      [cleanup] records the closing as an event and leaves the attributes
      as the source does; what a closed file object does on a later
      write is not modelled, so whatever is stated about a write is
      stated for sequences of operations without [cleanup].
    - [print] and [time.sleep] are recorded in a trace of events. *)

From Stdlib Require Import ZArith QArith Ascii String Lia.
From stdpp Require Import base option list strings gmap.

Local Open Scope Z_scope.

(** ** Python text primitives *)

Module PyStr.

(** [str.isspace] on one code point below 256. *)
Definition is_space (c : ascii) : bool :=
  let n := N_of_ascii c in
  ((9 <=? n) && (n <=? 13) || (28 <=? n) && (n <=? 32)
   || (n =? 133) || (n =? 160))%N.

(** [\d] on one code point below 256. *)
Definition is_digit (c : ascii) : bool :=
  let n := N_of_ascii c in ((48 <=? n) && (n <=? 57))%N.

Definition digit_val (c : ascii) : Z := Z.of_N (N_of_ascii c) - 48.

Definition is_empty (s : string) : bool :=
  match s with EmptyString => true | String _ _ => false end.

Fixpoint lstrip (s : string) : string :=
  match s with
  | String c r => if is_space c then lstrip r else s
  | EmptyString => EmptyString
  end.

Fixpoint rstrip (s : string) : string :=
  match s with
  | String c r =>
      let r' := rstrip r in
      if is_space c && is_empty r' then EmptyString else String c r'
  | EmptyString => EmptyString
  end.

(** [s.strip()] *)
Definition strip (s : string) : string := rstrip (lstrip s).

(** The scan of one field of [s.split()]: the characters up to the next
    white space, and what follows them. *)
Fixpoint span_word (s : string) : string * string :=
  match s with
  | String c r =>
      if is_space c then (EmptyString, s)
      else let '(w, rest) := span_word r in (String c w, rest)
  | EmptyString => (EmptyString, EmptyString)
  end.

(** [s.split(maxsplit=n)] with the default separator: at most [n] fields
    are cut off at runs of white space; what is left after the [n]-th
    field, without its leading white space, is the last element. *)
Fixpoint split (maxsplit : nat) (s : string) : list string :=
  let s' := lstrip s in
  match maxsplit with
  | O => if is_empty s' then [] else [s']
  | S m =>
      if is_empty s' then []
      else let '(w, rest) := span_word s' in w :: split m rest
  end.

(** The digits of [int(s)] after the sign: a digit, then digits with
    single underscores between them. *)
Fixpoint int_body (s : string) (acc : Z) (after_us : bool) : option Z :=
  match s with
  | EmptyString => if after_us then None else Some acc
  | String c r =>
      if is_digit c then int_body r (10 * acc + digit_val c) false
      else if Ascii.eqb c "_" then
             if after_us then None else int_body r acc true
           else None
  end.

(** The limit [int()] puts on the number of digits of a decimal string:
    [sys.int_info.default_max_str_digits]. *)
Definition max_str_digits : N := 4300.

(** The digits of [s]; underscores and the sign do not count. *)
Fixpoint digit_count (s : string) : N :=
  match s with
  | EmptyString => 0%N
  | String c r => ((if is_digit c then 1 else 0) + digit_count r)%N
  end.

Definition within_limit (s : string) : bool :=
  (digit_count s <=? max_str_digits)%N.

Definition int_unsigned (s : string) : option Z :=
  if within_limit s then
    match s with
    | String c r =>
        if is_digit c then int_body r (digit_val c) false else None
    | EmptyString => None
    end
  else None.

(** [int(s)] for a string without surrounding white space: [None] is
    [ValueError], for a malformed string and for one with too many
    digits. *)
Definition int (s : string) : option Z :=
  match s with
  | String "+" r => int_unsigned r
  | String "-" r => Z.opp <$> int_unsigned r
  | _ => int_unsigned s
  end.

(** The value of a run of decimal digits. *)
Definition decimal (s : string) : Z :=
  fold_left (fun acc c => 10 * acc + digit_val c) (list_ascii_of_string s) 0.

Fixpoint all_chars (p : ascii -> bool) (s : string) : bool :=
  match s with
  | EmptyString => true
  | String c r => p c && all_chars p r
  end.

(** [c * n] *)
Fixpoint repeat_char (n : nat) (c : ascii) : string :=
  match n with
  | O => EmptyString
  | S m => String c (repeat_char m c)
  end.

(** The first character of [s] does not satisfy [p] (also when [s] is
    empty). *)
Definition head_not (p : ascii -> bool) (s : string) : bool :=
  match s with
  | EmptyString => true
  | String c _ => negb (p c)
  end.

End PyStr.

(** ** The two regular expressions *)

Module Re.

Import PyStr.

(** The pieces the two patterns are made of. *)
Inductive item : Type :=
  | Lit (s : string)     (* literal text *)
  | Spaces               (* [\s*] *)
  | Digits.              (* [(\d+)], a capture group *)

Fixpoint strip_prefix (l s : string) : option string :=
  match l with
  | EmptyString => Some s
  | String c l' =>
      match s with
      | String d s' => if Ascii.eqb c d then strip_prefix l' s' else None
      | EmptyString => None
      end
  end.

(** Greedy [\s*] with backtracking: the longest run first, then shorter
    ones, until the rest [k] of the pattern matches. *)
Fixpoint star_spaces {A} (k : string -> option A) (s : string) : option A :=
  match s with
  | String c r =>
      if is_space c then
        match star_spaces k r with
        | Some x => Some x
        | None => k s
        end
      else k s
  | EmptyString => k EmptyString
  end.

(** Greedy [(\d+)] after its first digit; [acc] is the group so far. *)
Fixpoint more_digits (k : string -> option (list string)) (acc : string)
    (s : string) : option (list string) :=
  match s with
  | String c r =>
      if is_digit c then
        match more_digits k (acc +:+ String c EmptyString) r with
        | Some x => Some x
        | None => cons acc <$> k s
        end
      else cons acc <$> k s
  | EmptyString => cons acc <$> k EmptyString
  end.

Definition plus_digits (k : string -> option (list string)) (s : string)
    : option (list string) :=
  match s with
  | String c r =>
      if is_digit c then more_digits k (String c EmptyString) r else None
  | EmptyString => None
  end.

(** A match of the pattern at the start of [s]: the captured groups. *)
Fixpoint match_here (p : list item) (s : string) : option (list string) :=
  match p with
  | [] => Some []
  | Lit l :: p' =>
      match strip_prefix l s with
      | Some r => match_here p' r
      | None => None
      end
  | Spaces :: p' => star_spaces (match_here p') s
  | Digits :: p' => plus_digits (match_here p') s
  end.

(** [pattern.search(s)]: the match at the leftmost start position. *)
Fixpoint search (p : list item) (s : string) : option (list string) :=
  match match_here p s with
  | Some g => Some g
  | None =>
      match s with
      | EmptyString => None
      | String _ r => search p r
      end
  end.

End Re.

(** [r'TIMESTAMP_MS:\s*(\d+)\s*\|\s*HR:\s*(\d+)\s*\|\s*SpO2:\s*(\d+)'] *)
Definition combined_pattern : list Re.item :=
  [Re.Lit "TIMESTAMP_MS:"; Re.Spaces; Re.Digits; Re.Spaces; Re.Lit "|";
   Re.Spaces; Re.Lit "HR:"; Re.Spaces; Re.Digits; Re.Spaces; Re.Lit "|";
   Re.Spaces; Re.Lit "SpO2:"; Re.Spaces; Re.Digits].

(** [r'Connection timestamp set at millis:\s*(\d+)'] *)
Definition connection_pattern : list Re.item :=
  [Re.Lit "Connection timestamp set at millis:"; Re.Spaces; Re.Digits].

(** A run of digits: what a group of either pattern holds. *)
Definition digit_run (s : string) : Prop :=
  s <> "" /\ PyStr.all_chars PyStr.is_digit s = true.

(** The number of groups of a pattern. *)
Fixpoint groups (p : list Re.item) : nat :=
  match p with
  | [] => 0
  | Re.Digits :: p' => S (groups p')
  | _ :: p' => groups p'
  end.

(** A telemetry line body: the three tagged fields in order, with white
    space [w1] .. [w7] around the tags and the delimiters. *)
Definition telemetry_text (w1 d1 w2 w3 w4 d2 w5 w6 w7 d3 : string) : string :=
  "TIMESTAMP_MS:" +:+ w1 +:+ d1 +:+ w2 +:+ "|" +:+ w3 +:+ "HR:" +:+ w4
  +:+ d2 +:+ w5 +:+ "|" +:+ w6 +:+ "SpO2:" +:+ w7 +:+ d3.

(** What the operator may type, once stripped: one, two or three fields
    with white space between them; the third field is the rest of the
    line. *)
Inductive Entry : Type :=
  | OneField (hr : string)
  | TwoFields (hr gap1 device : string)
  | ThreeFields (hr gap1 device gap2 notes : string).

Definition entry_text (e : Entry) : string :=
  match e with
  | OneField hr => hr
  | TwoFields hr gap1 device => hr +:+ gap1 +:+ device
  | ThreeFields hr gap1 device gap2 notes =>
      hr +:+ gap1 +:+ device +:+ gap2 +:+ notes
  end.

Definition entry_hr (e : Entry) : string :=
  match e with
  | OneField hr | TwoFields hr _ _ | ThreeFields hr _ _ _ _ => hr
  end.

Definition entry_device (e : Entry) : string :=
  match e with
  | OneField _ => "External"
  | TwoFields _ _ device | ThreeFields _ _ device _ _ => device
  end.

Definition entry_notes (e : Entry) : string :=
  match e with
  | OneField _ | TwoFields _ _ _ => ""
  | ThreeFields _ _ _ _ notes => notes
  end.

Definition entry_fields (e : Entry) : list string :=
  match e with
  | OneField hr => [hr]
  | TwoFields hr _ device => [hr; device]
  | ThreeFields hr _ device _ notes => [hr; device; notes]
  end.

(** A token: not empty, no white space in it. *)
Definition is_word (s : string) : bool :=
  negb (PyStr.is_empty s)
  && PyStr.all_chars (fun c => negb (PyStr.is_space c)) s.

(** A separator: not empty, white space only. *)
Definition is_gap (s : string) : bool :=
  negb (PyStr.is_empty s) && PyStr.all_chars PyStr.is_space s.

(** The rest of a line: not empty, not starting with white space. *)
Definition is_rest (s : string) : bool :=
  negb (PyStr.is_empty s) && PyStr.head_not PyStr.is_space s.

Definition entry_ok (e : Entry) : bool :=
  match e with
  | OneField hr => is_word hr
  | TwoFields hr gap1 device => is_word hr && is_gap gap1 && is_word device
  | ThreeFields hr gap1 device gap2 notes =>
      is_word hr && is_gap gap1 && is_word device && is_gap gap2
      && is_rest notes
  end.

(** Whether a line carries the connection-start marker. *)
Definition marker_line (line : string) : bool :=
  match Re.search connection_pattern (PyStr.strip line) with
  | Some _ => true
  | None => false
  end.

(** Whether a line matches the telemetry pattern with a field of more
    digits than [int] takes. *)
Definition oversized (line : string) : bool :=
  match Re.search combined_pattern (PyStr.strip line) with
  | Some gs => negb (forallb PyStr.within_limit gs)
  | None => false
  end.

(** ** The logger, its files and its console *)

(** A path as [pathlib] splits it: [parent] and [name]. *)
Definition Path : Type := string * string.

(** A value handed to [csv.writer.writerow]. *)
Inductive pyval : Type :=
  | PInt (z : Z)
  | PStr (s : string).

Definition Row : Type := list pyval.

(** [v != ''] *)
Definition ne_empty_str (v : pyval) : bool :=
  match v with
  | PStr EmptyString => false
  | _ => true
  end.

Definition sensor_header : Row :=
  [PStr "System_Timestamp"; PStr "Arduino_Timestamp_ms";
   PStr "Heart_Rate_BPM"; PStr "SpO2_Percent"].

Definition manual_header : Row :=
  [PStr "System_Timestamp"; PStr "Estimated_Arduino_Timestamp_ms";
   PStr "Heart_Rate_BPM"; PStr "Device"; PStr "Notes"].

(** A file in append mode gets one more row at its end. *)
Definition append_row (p : Path) (row : Row) (fs : gmap Path (list Row))
    : gmap Path (list Row) :=
  <[p := default [] (fs !! p) ++ [row]]> fs.

Inductive Exn : Type :=
  | SerialException
  | IOError
  | ValueError
  | AttributeError
  | IndexError
  | EOFError
  | KeyboardInterrupt.

(** [except Exception] catches all of them but [KeyboardInterrupt]. *)
Definition is_Exception (e : Exn) : bool :=
  match e with KeyboardInterrupt => false | _ => true end.

(** The lines the program prints, one constructor per [print] call. *)
Inductive Msg : Type :=
  | MsgOpening (port : string) (baud : Z)
  | MsgConnected (port : string)
  | MsgSyncInitialized
  | MsgOpenFailed
  | MsgCreated (p : Path)
  | MsgAppending (p : Path)
  | MsgManualCreated (p : Path)
  | MsgManualAppending (p : Path)
  | MsgCsvFailed
  | MsgSyncUpdated
  | MsgSaved (timestamp hr spo2 : Z)
  | MsgManualNotEnabled
  | MsgWarnNotDetected
  | MsgManualSaved (timestamp : option pyval) (hr : Z) (device : string)
  | MsgManualBanner
  | MsgPrompt
  | MsgStopping
  | MsgInvalidInput
  | MsgEcho (line : string)
  | MsgSerialError (e : Exn)
  | MsgMonitoring (manual : bool)
  | MsgStoppedByUser
  | MsgSessionComplete (p : Path)
  | MsgCsvClosed
  | MsgManualClosed (p : Path)
  | MsgSerialClosed.

Inductive Delay : Type :=
  | ResetWait     (* time.sleep(2) *)
  | IdleWait.     (* time.sleep(0.01) *)

Inductive Event : Type :=
  | Print (m : Msg)
  | Sleep (d : Delay)
  | CloseFile (p : Path)
  | CloseSerial.

(** A reading of [time.time()] is a [time]; [elapsed_ms now anchor] is the
    source's [int((now - anchor) * 1000)] on such readings. *)
Class Clock (time : Type) : Type := elapsed_ms : time -> time -> Z.

Section Logger.

Context {time : Type} {clock : Clock time}.

(** The attributes of [SerialDataLogger]. *)
Record Logger : Type := mkLogger {
  port : string;
  baud : Z;
  output_file : Path;
  enable_manual_input : bool;
  serial_conn : option string;
  csv_writer : option Path;
  csv_file : option Path;
  manual_csv_writer : option Path;
  manual_csv_file : option Path;
  connection_start_time : option time;
  running : bool
}.

(** [SerialDataLogger(port, baud, output_file, enable_manual_input)] *)
Definition init (port : string) (baud : Z) (output_file : Path)
    (enable_manual_input : bool) : Logger :=
  mkLogger port baud output_file enable_manual_input
           None None None None None None true.

Definition set_serial_conn (v : option string) (s : Logger) : Logger :=
  mkLogger (port s) (baud s) (output_file s) (enable_manual_input s)
           v (csv_writer s) (csv_file s) (manual_csv_writer s)
           (manual_csv_file s) (connection_start_time s) (running s).

Definition set_csv (v : option Path) (s : Logger) : Logger :=
  mkLogger (port s) (baud s) (output_file s) (enable_manual_input s)
           (serial_conn s) v v (manual_csv_writer s)
           (manual_csv_file s) (connection_start_time s) (running s).

Definition set_manual_csv (v : option Path) (s : Logger) : Logger :=
  mkLogger (port s) (baud s) (output_file s) (enable_manual_input s)
           (serial_conn s) (csv_writer s) (csv_file s) v
           v (connection_start_time s) (running s).

Definition set_connection_start_time (v : option time) (s : Logger) : Logger :=
  mkLogger (port s) (baud s) (output_file s) (enable_manual_input s)
           (serial_conn s) (csv_writer s) (csv_file s) (manual_csv_writer s)
           (manual_csv_file s) v (running s).

Definition set_running (v : bool) (s : Logger) : Logger :=
  mkLogger (port s) (baud s) (output_file s) (enable_manual_input s)
           (serial_conn s) (csv_writer s) (csv_file s) (manual_csv_writer s)
           (manual_csv_file s) (connection_start_time s) v.

(** The logger object, the files on disk and what the console saw. *)
Record World : Type := mkWorld {
  self : Logger;
  files : gmap Path (list Row);
  trace : list Event
}.

Inductive outcome (A : Type) : Type :=
  | Ok (a : A) (w : World)
  | Raised (e : Exn) (w : World).
Arguments Ok {A} a w.
Arguments Raised {A} e w.

Definition world_of {A} (o : outcome A) : World :=
  match o with Ok _ w => w | Raised _ w => w end.

(** Computations that read and change the world and may raise. *)
Definition M (A : Type) : Type := World -> outcome A.

Definition ret {A} (a : A) : M A := fun w => Ok a w.

Definition bind {A B} (m : M A) (f : A -> M B) : M B := fun w =>
  match m w with
  | Ok a w' => f a w'
  | Raised e w' => Raised e w'
  end.

Declare Scope logger_scope.
Delimit Scope logger_scope with logger.
Notation "x ← y ; z" := (bind y (fun x => z))
  (at level 20, y at level 100, z at level 200, only parsing) : logger_scope.
Notation "y ;; z" := (bind y (fun _ => z))
  (at level 100, z at level 200, only parsing, right associativity)
  : logger_scope.
Local Open Scope logger_scope.

Definition raise {A} (e : Exn) : M A := fun w => Raised e w.

(** [try: m  except <handles>: h] *)
Definition try_except {A} (m : M A) (handles : Exn -> bool) (h : Exn -> M A)
    : M A := fun w =>
  match m w with
  | Ok a w' => Ok a w'
  | Raised e w' => if handles e then h e w' else Raised e w'
  end.

(** [try: m  finally: f] *)
Definition try_finally {A} (m : M A) (f : M unit) : M A := fun w =>
  match m w with
  | Ok a w' =>
      match f w' with Ok _ w'' => Ok a w'' | Raised e w'' => Raised e w'' end
  | Raised e w' =>
      match f w' with Ok _ w'' => Raised e w'' | Raised e' w'' => Raised e' w'' end
  end.

Definition get_self : M Logger := fun w => Ok (self w) w.

Definition update_self (f : Logger -> Logger) : M unit := fun w =>
  Ok tt (mkWorld (f (self w)) (files w) (trace w)).

Definition emit (e : Event) : M unit := fun w =>
  Ok tt (mkWorld (self w) (files w) (trace w ++ [e])).

Definition print (m : Msg) : M unit := emit (Print m).

Definition sleep (d : Delay) : M unit := emit (Sleep d).

Definition path_exists (p : Path) : M bool := fun w =>
  Ok (bool_decide (is_Some (files w !! p))) w.

(** [open(p, 'a')]: the file is created empty when it is missing;
    [can_open] says whether the operating system lets it be opened. *)
Definition open_append (can_open : Path -> bool) (p : Path) : M Path :=
  fun w =>
    if can_open p then
      Ok p (mkWorld (self w) (<[p := default [] (files w !! p)]> (files w))
                    (trace w))
    else Raised IOError w.

(** [writer.writerow(row)] on an attribute that may still be [None];
    [Some p] is a writer on an open file. *)
Definition writerow (writer : option Path) (row : Row) : M unit :=
  match writer with
  | None => raise AttributeError
  | Some p => fun w =>
      Ok tt (mkWorld (self w) (append_row p row (files w)) (trace w))
  end.

(** [file.flush()]: rows are already in [files]. *)
Definition flush (file : option Path) : M unit :=
  match file with
  | None => raise AttributeError
  | Some _ => ret tt
  end.

(** [int(s)] *)
Definition int_of (s : string) : M Z :=
  match PyStr.int s with
  | Some z => ret z
  | None => raise ValueError
  end.

(** [parts[i]] *)
Definition index (parts : list string) (i : nat) : M string :=
  match parts !! i with
  | Some x => ret x
  | None => raise IndexError
  end.

(** [open_serial]: [port_ok] says whether [serial.Serial(...)] succeeds,
    [now] is the reading of [time.time()] after the two-second wait. *)
Definition open_serial (port_ok : bool) (now : time) : M bool :=
  try_except
    (s ← get_self;
     print (MsgOpening (port s) (baud s));;
     (if port_ok then update_self (set_serial_conn (Some (port s)))
      else raise SerialException);;
     sleep ResetWait;;
     update_self (set_connection_start_time (Some now));;
     print (MsgConnected (port s));;
     (if enable_manual_input s then print MsgSyncInitialized else ret tt);;
     ret true)
    (fun e => match e with SerialException => true | _ => false end)
    (fun _ => print MsgOpenFailed;; ret false).

Definition manual_path (output_path : Path) : Path :=
  (output_path.1, "manual_" +:+ output_path.2).

(** [open_csv] *)
Definition open_csv (can_open : Path -> bool) : M bool :=
  try_except
    (s ← get_self;
     let output_path := output_file s in
     file_exists ← path_exists output_path;
     f ← open_append can_open output_path;
     update_self (set_csv (Some f));;
     (if negb file_exists then
        writerow (Some f) sensor_header;;
        flush (Some f);;
        print (MsgCreated output_path)
      else print (MsgAppending output_path));;
     (if enable_manual_input s then
        let manual_output_path := manual_path output_path in
        manual_file_exists ← path_exists manual_output_path;
        mf ← open_append can_open manual_output_path;
        update_self (set_manual_csv (Some mf));;
        if negb manual_file_exists then
          writerow (Some mf) manual_header;;
          flush (Some mf);;
          print (MsgManualCreated manual_output_path)
        else print (MsgManualAppending manual_output_path)
      else ret tt);;
     ret true)
    (fun e => match e with IOError => true | _ => false end)
    (fun _ => print MsgCsvFailed;; ret false).

(** The first block of [process_line]: "Check for connection start to
    sync timestamps more precisely".  [now] is the reading of
    [time.time()]. *)
Definition check_connection_start (now : time) (line : string) : M unit :=
  match Re.search connection_pattern line with
  | Some _ =>
      update_self (set_connection_start_time (Some now));;
      s ← get_self;
      if enable_manual_input s then print MsgSyncUpdated else ret tt
  | None => ret tt
  end.

(** The second block of [process_line]: "Match combined sensor data".
    [system_time] is the formatted [datetime.now()]. *)
Definition match_combined (system_time : string) (line : string) : M unit :=
  match Re.search combined_pattern line with
  | Some groups =>
      g1 ← index groups 0;
      timestamp ← int_of g1;
      g2 ← index groups 1;
      hr_value ← int_of g2;
      g3 ← index groups 2;
      spo2_value ← int_of g3;
      let row := [PStr system_time; PInt timestamp; PInt hr_value;
                  PInt spo2_value] in
      s ← get_self;
      writerow (csv_writer s) row;;
      flush (csv_file s);;
      print (MsgSaved timestamp hr_value spo2_value)
  | None => ret tt
  end.

(** [process_line]: two independent [if]s, one after the other. *)
Definition process_line (now : time) (system_time : string) (line : string)
    : M unit :=
  let line := PyStr.strip line in
  check_connection_start now line;;
  match_combined system_time line.

(** [log_manual_heart_rate] *)
Definition log_manual_heart_rate (now : time) (system_time : string)
    (hr_value : Z) (device notes : string) : M unit :=
  s ← get_self;
  match manual_csv_writer s with
  | None => print MsgManualNotEnabled
  | Some _ =>
      arduino_timestamp ←
        match connection_start_time s with
        | Some t0 => ret (PInt (elapsed_ms now t0))
        | None =>
            print MsgWarnNotDetected;;
            (* int((... if self.connection_start_time else 0) * 1000) *)
            ret (PInt (match connection_start_time s with
                        | Some t0 => elapsed_ms now t0
                        | None => 0 * 1000
                        end))
        end;
      let row := [PStr system_time;
                  if ne_empty_str arduino_timestamp then arduino_timestamp
                  else PInt 0;
                  PInt hr_value; PStr device; PStr notes] in
      writerow (manual_csv_writer s) row;;
      flush (manual_csv_file s);;
      print (MsgManualSaved
               (if ne_empty_str arduino_timestamp then Some arduino_timestamp
                else None)
               hr_value device)
  end.

(** The estimate [log_manual_heart_rate] writes in a given state. *)
Definition estimate_at (now : time) (w : World) : Z :=
  match connection_start_time (self w) with
  | Some t0 => elapsed_ms now t0
  | None => 0
  end.

(** One turn of the operator at the prompt. *)
Inductive Operator : Type :=
  | Typed (raw : string) (now : time) (system_time : string)
  | CtrlC.

(** One pass through the body of the [while] of [manual_input_loop];
    the result says whether the loop goes on. *)
Definition manual_iteration (o : Operator) : M bool :=
  try_except
    (print MsgPrompt;;
     match o with
     | CtrlC => raise KeyboardInterrupt
     | Typed raw now system_time =>
         let user_input := PyStr.strip raw in
         if PyStr.is_empty user_input then
           print MsgStopping;;
           update_self (set_running false);;
           ret false
         else
           let parts := PyStr.split 2 user_input in
           try_except
             (p0 ← index parts 0;
              hr_value ← int_of p0;
              let device := default "External" (parts !! 1%nat) in
              let notes := default "" (parts !! 2%nat) in
              log_manual_heart_rate now system_time hr_value device notes)
             (fun e => match e with ValueError => true | _ => false end)
             (fun _ => print MsgInvalidInput);;
           ret true
     end)
    (fun e => match e with KeyboardInterrupt => true | _ => false end)
    (fun _ => print MsgStopping;; update_self (set_running false);; ret false).

(** The [while self.running] of [manual_input_loop] over the operator's
    turns; when they end, standard input is at its end and [input()]
    raises. *)
Fixpoint manual_turns (inputs : list Operator) : M unit :=
  s ← get_self;
  if running s then
    match inputs with
    | [] => print MsgPrompt;; raise EOFError
    | o :: rest =>
        continue ← manual_iteration o;
        if continue then manual_turns rest else ret tt
    end
  else ret tt.

Definition manual_input_loop (inputs : list Operator) : M unit :=
  print MsgManualBanner;; manual_turns inputs.

(** What one poll of the device finds. *)
Inductive Poll : Type :=
  | NoBytes                                             (* in_waiting == 0 *)
  | Bytes (line : string) (now : time) (system_time : string)
                                 (* readline().decode(errors='ignore') *)
  | Unplugged.                           (* the serial driver raises *)

(** The [if self.serial_conn.in_waiting > 0:] branch, shared by both
    loops: decoding ignores errors, so its handler is never entered. *)
Definition read_line (line : string) (now : time) (system_time : string)
    : M unit :=
  if PyStr.is_empty line then ret tt
  else print (MsgEcho (PyStr.strip line));;
       process_line now system_time line.

(** One pass through the body of the [while] of [serial_monitor_loop]. *)
Definition serial_iteration (p : Poll) : M bool :=
  try_except
    (match p with
     | Unplugged => raise SerialException
     | Bytes line now system_time => read_line line now system_time
     | NoBytes => sleep IdleWait
     end;;
     ret true)
    is_Exception
    (fun e =>
       s ← get_self;
       (if running s then print (MsgSerialError e) else ret tt);;
       ret false).

(** [serial_monitor_loop] over the polls that are observed. *)
Fixpoint serial_monitor_loop (polls : list Poll) : M unit :=
  s ← get_self;
  if running s then
    match polls with
    | [] => ret tt
    | p :: rest =>
        continue ← serial_iteration p;
        if continue then serial_monitor_loop rest else ret tt
    end
  else ret tt.

(** One pass through the body of the [while] in the simple mode of
    [run]: its [else] belongs to the [while], not to the [if]. *)
Definition simple_iteration (p : Poll) : M unit :=
  match p with
  | Unplugged => raise SerialException
  | Bytes line now system_time => read_line line now system_time
  | NoBytes => ret tt
  end.

(** The [while self.running: ... else: time.sleep(0.01)] of [run]; the
    polls end with the operator's Ctrl-C, the only way out of it. *)
Fixpoint simple_loop (polls : list Poll) : M unit :=
  s ← get_self;
  if running s then
    match polls with
    | [] => raise KeyboardInterrupt
    | p :: rest => simple_iteration p;; simple_loop rest
    end
  else sleep IdleWait.

(** The two threads of the manual mode, one step of either at a time. *)
Inductive Tick : Type :=
  | Device (p : Poll)
  | Keyboard (o : Operator).

(** The main thread runs [manual_input_loop] while the daemon thread runs
    [serial_monitor_loop]; [alive] says whether the latter still runs.
    The main thread returns when its loop does. *)
Fixpoint threads (ticks : list Tick) (alive : bool) : M unit :=
  s ← get_self;
  match ticks with
  | [] => if running s then print MsgPrompt;; raise EOFError else ret tt
  | Keyboard o :: rest =>
      if running s then
        continue ← manual_iteration o;
        if continue then threads rest alive else ret tt
      else ret tt
  | Device p :: rest =>
      if alive && running s then
        continue ← serial_iteration p;
        threads rest continue
      else threads rest false
  end.

(** [cleanup]: each [close] is an event of the trace; the attributes
    are left as they are, as in the source. *)
Definition cleanup : M unit :=
  s ← get_self;
  print (MsgSessionComplete (output_file s));;
  (match csv_file s with
   | Some f => emit (CloseFile f);; print MsgCsvClosed
   | None => ret tt
   end);;
  (match manual_csv_file s with
   | Some f =>
       emit (CloseFile f);; print (MsgManualClosed (manual_path (output_file s)))
   | None => ret tt
   end);;
  match serial_conn s with
  | Some _ => emit CloseSerial;; print MsgSerialClosed
  | None => ret tt
  end.

(** What happens around one call of [run]. *)
Record Session : Type := mkSession {
  port_ok : bool;
  opened_at : time;
  can_open : Path -> bool;
  polls : list Poll;       (* simple mode *)
  ticks : list Tick        (* manual mode *)
}.

(** [run] *)
Definition run (env : Session) : M unit :=
  ok ← open_serial (port_ok env) (opened_at env);
  if negb ok then ret tt
  else
    ok ← open_csv (can_open env);
    if negb ok then emit CloseSerial
    else
      s ← get_self;
      print (MsgMonitoring (enable_manual_input s));;
      try_finally
        (try_except
           (if enable_manual_input s then
              print MsgManualBanner;; threads (ticks env) true
            else simple_loop (polls env))
           (fun e => match e with KeyboardInterrupt => true | _ => false end)
           (fun _ => print MsgStoppedByUser;; update_self (set_running false)))
        cleanup.

(** Anything the program may do to the logger once it exists. *)
Inductive Action : Type :=
  | ActOpenCsv (can_open : Path -> bool)
  | ActLine (now : time) (system_time : string) (line : string)
  | ActManual (now : time) (system_time : string) (hr_value : Z)
              (device notes : string)
  | ActKeyboard (o : Operator)
  | ActDevice (p : Poll)
  | ActSimple (p : Poll)
  | ActCleanup.

Definition perform (a : Action) (w : World) : World :=
  match a with
  | ActOpenCsv can_open => world_of (open_csv can_open w)
  | ActLine now system_time line =>
      world_of (process_line now system_time line w)
  | ActManual now system_time hr_value device notes =>
      world_of (log_manual_heart_rate now system_time hr_value device notes w)
  | ActKeyboard o => world_of (manual_iteration o w)
  | ActDevice p => world_of (serial_iteration p w)
  | ActSimple p => world_of (simple_iteration p w)
  | ActCleanup => world_of (cleanup w)
  end.

Definition after (acts : list Action) (w : World) : World :=
  fold_left (fun w a => perform a w) acts w.

(** Whether an action hands a connection-start marker to [process_line]. *)
Definition resyncs (a : Action) : bool :=
  match a with
  | ActLine _ _ line => marker_line line
  | ActDevice (Bytes line _ _) | ActSimple (Bytes line _ _) =>
      marker_line line
  | _ => false
  end.

(** [writerow] for each row in turn. *)
Fixpoint write_rows (writer : option Path) (rows : list Row) : M unit :=
  match rows with
  | [] => ret tt
  | r :: rest => writerow writer r;; flush writer;; write_rows writer rest
  end.

(** The number of idle sleeps in a trace. *)
Fixpoint idle_sleeps (t : list Event) : nat :=
  match t with
  | [] => 0
  | Sleep IdleWait :: t' => S (idle_sleeps t')
  | _ :: t' => idle_sleeps t'
  end.

(** The number of polls that find no bytes. *)
Fixpoint idle_polls (polls : list Poll) : nat :=
  match polls with
  | [] => 0
  | NoBytes :: rest => S (idle_polls rest)
  | _ :: rest => idle_polls rest
  end.

(** *** The two logs as functions of what happened

    The row a device line adds to the sensor log, if it adds one: a
    field too long for [int] makes [process_line] raise before it
    writes. *)
Definition telemetry_row (system_time line : string) : option Row :=
  match Re.search combined_pattern (PyStr.strip line) with
  | Some [g1; g2; g3] =>
      if forallb PyStr.within_limit [g1; g2; g3]
      then Some [PStr system_time; PInt (PyStr.decimal g1);
                 PInt (PyStr.decimal g2); PInt (PyStr.decimal g3)]
      else None
  | _ => None
  end.

(** The device line an action hands to [process_line]: directly, or as
    the line a loop iteration has read. *)
Definition line_of (a : Action) : option (time * string * string) :=
  match a with
  | ActLine now system_time line
  | ActDevice (Bytes line now system_time)
  | ActSimple (Bytes line now system_time) => Some (now, system_time, line)
  | _ => None
  end.

(** The reading an action hands to [log_manual_heart_rate]: directly, or
    as the fields of a line typed at the prompt whose first field is an
    integer. *)
Definition entry_of (a : Action)
    : option (time * string * Z * string * string) :=
  match a with
  | ActManual now system_time hr device notes =>
      Some (now, system_time, hr, device, notes)
  | ActKeyboard (Typed raw now system_time) =>
      let parts := PyStr.split 2 (PyStr.strip raw) in
      match parts !! 0%nat with
      | Some p0 =>
          match PyStr.int p0 with
          | Some hr =>
              Some (now, system_time, hr,
                    default "External" (parts !! 1%nat),
                    default "" (parts !! 2%nat))
          | None => None
          end
      | None => None
      end
  | _ => None
  end.

(** The anchor after an action, given the anchor before it. *)
Definition anchor_after (a : Action) (anchor : option time) : option time :=
  match line_of a with
  | Some (now, _, line) => if marker_line line then Some now else anchor
  | None => anchor
  end.

(** The rows a sequence of actions adds to the sensor log. *)
Fixpoint sensor_rows (acts : list Action) : list Row :=
  match acts with
  | [] => []
  | a :: rest =>
      match line_of a with
      | Some (_, system_time, line) =>
          match telemetry_row system_time line with
          | Some row => row :: sensor_rows rest
          | None => sensor_rows rest
          end
      | None => sensor_rows rest
      end
  end.

(** The rows it adds to the manual log, starting from [anchor]. *)
Fixpoint manual_rows (anchor : option time) (acts : list Action) : list Row :=
  match acts with
  | [] => []
  | a :: rest =>
      match entry_of a with
      | Some (now, system_time, hr, device, notes) =>
          [PStr system_time;
           PInt (match anchor with
                 | Some t0 => elapsed_ms now t0
                 | None => 0
                 end);
           PInt hr; PStr device; PStr notes]
          :: manual_rows (anchor_after a anchor) rest
      | None => manual_rows (anchor_after a anchor) rest
      end
  end.

(** Both logs are open: the state [open_csv] leaves in manual mode. *)
Definition logs_open (out mp : Path) (s : Logger) : Prop :=
  csv_writer s = Some out /\ csv_file s = Some out
  /\ manual_csv_writer s = Some mp /\ manual_csv_file s = Some mp.

Definition opens_csv (a : Action) : bool :=
  match a with ActOpenCsv _ => true | _ => false end.

Definition is_keyboard (a : Action) : bool :=
  match a with ActKeyboard _ => true | _ => false end.

(** Events that release a resource. *)
Definition is_close (e : Event) : bool :=
  match e with CloseFile _ | CloseSerial => true | _ => false end.

Definition is_idle_sleep (e : Event) : bool :=
  match e with Sleep IdleWait => true | _ => false end.

(** What [cleanup] puts on the console and closes, for a logger whose
    resources are all open. *)
Definition cleanup_events (s : Logger) : list Event :=
  [Print (MsgSessionComplete (output_file s))]
  ++ match csv_file s with
     | Some f => [CloseFile f; Print MsgCsvClosed]
     | None => []
     end
  ++ match manual_csv_file s with
     | Some f => [CloseFile f;
                  Print (MsgManualClosed (manual_path (output_file s)))]
     | None => []
     end
  ++ match serial_conn s with
     | Some _ => [CloseSerial; Print MsgSerialClosed]
     | None => []
     end.

(** Turns at the prompt that end the session: an empty line or Ctrl-C. *)
Definition quits (o : Operator) : bool :=
  match o with
  | CtrlC => true
  | Typed raw _ _ => PyStr.is_empty (PyStr.strip raw)
  end.

Definition stops (a : Action) : bool :=
  match a with ActKeyboard o => quits o | _ => false end.

(** The operator's turns among the ticks. *)
Fixpoint keyboard_only (ticks : list Tick) : list Tick :=
  match ticks with
  | [] => []
  | Keyboard o :: rest => Keyboard o :: keyboard_only rest
  | Device _ :: rest => keyboard_only rest
  end.

(** What a poll makes the body of a polling loop raise, if anything: the
    driver's error, or the [ValueError] of [int] on a telemetry line with
    a field too long for it. *)
Definition poll_error (p : Poll) : option Exn :=
  match p with
  | Unplugged => Some SerialException
  | Bytes line _ _ => if oversized line then Some ValueError else None
  | NoBytes => None
  end.

Definition halts (p : Poll) : bool :=
  match poll_error p with Some _ => true | None => false end.

(** The polls before the first one that raises. *)
Fixpoint polled (polls : list Poll) : list Poll :=
  match polls with
  | [] => []
  | p :: rest => if halts p then [] else p :: polled rest
  end.

(** The first exception the polls raise. *)
Fixpoint first_error (polls : list Poll) : option Exn :=
  match polls with
  | [] => None
  | p :: rest =>
      match poll_error p with
      | Some e => Some e
      | None => first_error rest
      end
  end.

Definition closes (a : Action) : bool :=
  match a with ActCleanup => true | _ => false end.

Definition tick_quits (t : Tick) : bool :=
  match t with Keyboard o => quits o | Device _ => false end.

(** What [cleanup] prints and closes at the end of a session of [run]:
    the sensor log, the manual log when there is one, then the port. *)
Definition closing (out : Path) (manual : bool) : list Event :=
  [Print (MsgSessionComplete out); CloseFile out; Print MsgCsvClosed]
  ++ (if manual
      then [CloseFile (manual_path out);
            Print (MsgManualClosed (manual_path out))]
      else [])
  ++ [CloseSerial; Print MsgSerialClosed].

(** What [open_serial] prints and waits for when the port opens. *)
Definition opening (s : Logger) : list Event :=
  [Print (MsgOpening (port s) (baud s)); Sleep ResetWait;
   Print (MsgConnected (port s))]
  ++ (if enable_manual_input s then [Print MsgSyncInitialized] else []).

(** The logger after a successful [open_serial] at [now]. *)
Definition connected (now : time) (s : Logger) : Logger :=
  set_connection_start_time (Some now)
    (set_serial_conn (Some (port s)) s).

(** The rows the lines found by a sequence of polls add to the sensor
    log. *)
Fixpoint poll_rows (polls : list Poll) : list Row :=
  match polls with
  | [] => []
  | Bytes line _ system_time :: rest =>
      match telemetry_row system_time line with
      | Some row => row :: poll_rows rest
      | None => poll_rows rest
      end
  | _ :: rest => poll_rows rest
  end.

(** The iterations the two threads of the manual mode get to perform
    while both logs are open: those of the prompt loop up to a quit,
    those of the monitoring loop (while [alive]) up to the first poll
    that raises. *)
Fixpoint played (ticks : list Tick) (alive : bool) : list Action :=
  match ticks with
  | [] => []
  | Keyboard o :: rest =>
      ActKeyboard o :: (if quits o then [] else played rest alive)
  | Device p :: rest =>
      if alive then ActDevice p :: played rest (negb (halts p))
      else played rest false
  end.


End Logger.

Arguments Ok {time A} a w.
Arguments Raised {time A} e w.
Arguments Logger time : clear implicits.
Arguments World time : clear implicits.
Arguments M time A : clear implicits.

(** ** A clock for the examples, and sample worlds

    The theorems hold for every clock.  The examples below take readings
    at whole seconds as rationals and compute [int((now - anchor) * 1000)]
    exactly, truncating towards zero as [int] does; at such readings the
    floating-point arithmetic of the source gives the same integer. *)

#[export] Instance exact_clock : Clock Q := fun now anchor =>
  let d := Qmult (Qminus now anchor) (inject_Z 1000) in
  Z.quot (Qnum d) (Z.pos (Qden d)).

Definition sample_path : Path := ("data", "sensor_data.csv").

(** A logger whose sensor log is open, in simple mode. *)
Definition simple_logger : Logger Q :=
  set_csv (Some sample_path) (init "COM3" 115200 sample_path false).

(** A logger in manual mode whose two logs are open, before
    [open_serial]. *)
Definition manual_logger : Logger Q :=
  set_manual_csv (Some (manual_path sample_path))
    (set_csv (Some sample_path) (init "COM3" 115200 sample_path true)).

Definition empty_disk : gmap Path (list Row) := ∅.

(** A session in manual mode on an empty disk: the logger as [__init__]
    leaves it, then after [open_serial] at second 100 and [open_csv]. *)
Definition manual_start : World Q :=
  mkWorld (init "COM3" 115200 sample_path true) empty_disk [].

Definition manual_opened : World Q :=
  after [ActOpenCsv (fun _ => true)]
        (world_of (open_serial true (inject_Z 100) manual_start)).

(** A session in simple mode on a disk where the log exists and is
    empty. *)
Definition simple_start_on_empty_file : World Q :=
  mkWorld (init "COM3" 115200 sample_path false) {[sample_path := []]} [].

Definition simple_start : World Q :=
  mkWorld (init "COM3" 115200 sample_path false) empty_disk [].

Definition marker_text : string := "Connection timestamp set at millis: 0".

Definition telemetry_a : string := "TIMESTAMP_MS: 1500 | HR: 72 | SpO2: 98".

(** A telemetry line whose first field has 4301 digits, and the same
    line after a connection marker. *)
Definition long_field : string := PyStr.repeat_char 4301 "1".

Definition long_telemetry : string :=
  "TIMESTAMP_MS: " +:+ long_field +:+ " | HR: 72 | SpO2: 98".

Definition long_marker_telemetry : string :=
  "Connection timestamp set at millis: 5 " +:+ long_telemetry.

(** Three polls that find nothing, then the interrupt. *)
Definition idle_session : Session :=
  mkSession true (inject_Z 100) (fun _ => true)
            [NoBytes; NoBytes; NoBytes] [].

(** The port does not open. *)
Definition no_port_session : Session :=
  mkSession false (inject_Z 100) (fun _ => true) [] [].

(** The port opens, no file can be opened. *)
Definition no_sensor_log_session : Session :=
  mkSession true (inject_Z 100) (fun _ => false) [] [].

(** The port opens, only the sensor log can be opened. *)
Definition no_manual_log_session : Session :=
  mkSession true (inject_Z 100)
            (fun p => String.eqb (snd p) "sensor_data.csv") [] [].

(** A line, a reading, a device error, then an empty line at the
    prompt. *)
Definition manual_session : Session :=
  mkSession true (inject_Z 100) (fun _ => true) []
    [Device (Bytes telemetry_a (inject_Z 101) "12:00:01.000");
     Keyboard (Typed "81 Polar" (inject_Z 105) "12:00:05.000");
     Device Unplugged;
     Keyboard (Typed "" (inject_Z 110) "12:00:10.000")].

(** A line and a reading, then the input ends. *)
Definition eof_session : Session :=
  mkSession true (inject_Z 100) (fun _ => true) []
    [Device (Bytes telemetry_a (inject_Z 101) "12:00:01.000");
     Keyboard (Typed "81 Polar" (inject_Z 105) "12:00:05.000")].

(** Polls of which the fourth finds the device gone. *)
Definition sample_polls : list (@Poll Q) :=
  [NoBytes; Bytes telemetry_a (inject_Z 101) "12:00:01.000"; NoBytes;
   Unplugged; NoBytes].

Definition failing_simple_session : Session :=
  mkSession true (inject_Z 100) (fun _ => true) sample_polls [].

(** What the two loops may do in a session, in some order. *)
Definition sample_acts : list (@Action Q) :=
  [ActDevice (Bytes telemetry_a (inject_Z 101) "12:00:01.000");
   ActKeyboard (Typed "81 Polar" (inject_Z 105) "12:00:05.000");
   ActLine (inject_Z 110) "12:00:10.000" marker_text;
   ActDevice NoBytes;
   ActManual (inject_Z 112) "12:00:12.000" 90 "Garmin" "after run";
   ActDevice Unplugged].

(** ** Facts about the text primitives *)

Section Facts.

Context {time : Type} {clock : Clock time}.

Import PyStr.

Lemma app_cons (x : ascii) (a b : string) :
  String x a +:+ b = String x (a +:+ b).
Proof. reflexivity. Qed.

Lemma app_empty_l (a : string) : "" +:+ a = a.
Proof. reflexivity. Qed.

Lemma app_assoc_str (a b c : string) : (a +:+ b) +:+ c = a +:+ (b +:+ c).
Proof.
  induction a as [|x a IH]; [reflexivity|].
  rewrite !app_cons. f_equal. exact IH.
Qed.

Lemma app_empty_r (a : string) : a +:+ "" = a.
Proof.
  induction a as [|x a IH]; [reflexivity|].
  rewrite app_cons. f_equal. exact IH.
Qed.

Lemma is_empty_true (s : string) : is_empty s = true <-> s = "".
Proof. destruct s; simpl; split; congruence. Qed.

Lemma is_empty_false (s : string) : is_empty s = false <-> s <> "".
Proof. destruct s; simpl; split; congruence. Qed.

Lemma head_not_app (p : ascii -> bool) (a b : string) :
  a <> "" -> head_not p a = true -> head_not p (a +:+ b) = true.
Proof. destruct a; [congruence|]. rewrite app_cons. auto. Qed.

Lemma digit_not_space (c : ascii) : is_digit c = true -> is_space c = false.
Proof.
  destruct c as [[] [] [] [] [] [] [] []]; intros H;
    first [reflexivity | discriminate H].
Qed.

Lemma strip_prefix_app (l r : string) : Re.strip_prefix l (l +:+ r) = Some r.
Proof.
  induction l as [|c l IH]; [reflexivity|].
  rewrite app_cons. simpl. now rewrite Ascii.eqb_refl.
Qed.

Lemma strip_prefix_inv (l s r : string) :
  Re.strip_prefix l s = Some r -> s = l +:+ r.
Proof.
  revert s. induction l as [|c l IH]; intros s H; simpl in *.
  - injection H as ->. reflexivity.
  - destruct s as [|d s]; [discriminate|].
    destruct (Ascii.eqb_spec c d) as [->|]; [|discriminate].
    now rewrite app_cons, (IH _ H).
Qed.

(** A maximal run of white space is what greedy [\s*] takes when the rest
    of the pattern matches after it. *)
Lemma star_spaces_run {A} (k : string -> option A) (ws r : string) (x : A) :
  all_chars is_space ws = true -> head_not is_space r = true ->
  k r = Some x -> Re.star_spaces k (ws +:+ r) = Some x.
Proof.
  intros Hws Hr Hk. induction ws as [|c ws IH].
  - rewrite app_empty_l. destruct r as [|d r]; simpl in *; [assumption|].
    apply negb_true_iff in Hr. now rewrite Hr.
  - rewrite app_cons. simpl in *.
    apply andb_true_iff in Hws as [Hc Hws]. rewrite Hc, (IH Hws). reflexivity.
Qed.

Lemma more_digits_run k (acc ds r : string) (gs : list string) :
  all_chars is_digit ds = true -> head_not is_digit r = true ->
  k r = Some gs ->
  Re.more_digits k acc (ds +:+ r) = Some ((acc +:+ ds) :: gs).
Proof.
  intros Hds Hr Hk. revert acc. induction ds as [|c ds IH]; intros acc.
  - rewrite app_empty_l, app_empty_r.
    destruct r as [|d r]; simpl in *; [now rewrite Hk|].
    apply negb_true_iff in Hr. now rewrite Hr, Hk.
  - rewrite app_cons. simpl in *. apply andb_true_iff in Hds as [Hc Hds].
    rewrite Hc, (IH Hds _). now rewrite app_assoc_str.
Qed.

(** A maximal non-empty run of digits is the group [(\d+)] captures when
    the rest of the pattern matches after it. *)
Lemma plus_digits_run k (ds r : string) (gs : list string) :
  ds <> "" -> all_chars is_digit ds = true -> head_not is_digit r = true ->
  k r = Some gs -> Re.plus_digits k (ds +:+ r) = Some (ds :: gs).
Proof.
  intros Hne Hds Hr Hk. destruct ds as [|c ds]; [congruence|].
  rewrite app_cons. simpl in *. apply andb_true_iff in Hds as [Hc Hds].
  rewrite Hc. apply (more_digits_run k (String c "") ds r gs Hds Hr Hk).
Qed.

Lemma all_chars_app p (a b : string) :
  all_chars p (a +:+ b) = all_chars p a && all_chars p b.
Proof.
  induction a as [|c a IH]; [reflexivity|].
  rewrite app_cons. simpl. now rewrite IH, andb_assoc.
Qed.

Lemma star_spaces_inv {A} (k : string -> option A) (s : string) (x : A) :
  Re.star_spaces k s = Some x -> exists s', k s' = Some x.
Proof.
  induction s as [|c s IH]; simpl; [eauto|].
  destruct (is_space c); [|eauto].
  destruct (Re.star_spaces k s) eqn:E; [|eauto].
  intros [= ->]. auto.
Qed.

Lemma more_digits_inv k (acc s : string) (gs : list string) :
  all_chars is_digit acc = true ->
  Re.more_digits k acc s = Some gs ->
  exists g gs' s', gs = g :: gs' /\ k s' = Some gs'
                   /\ all_chars is_digit g = true /\ (acc <> "" -> g <> "").
Proof.
  revert acc. induction s as [|c s IH]; intros acc Hacc; simpl.
  - destruct (k "") eqn:E; simpl; [|discriminate].
    intros [= <-]. exists acc, l, "". auto.
  - assert (Hstop : cons acc <$> k (String c s) = Some gs ->
              exists g gs' s', gs = g :: gs' /\ k s' = Some gs'
                   /\ all_chars is_digit g = true /\ (acc <> "" -> g <> "")).
    { destruct (k (String c s)) eqn:E; simpl; [|discriminate].
      intros [= <-]. exists acc, l, (String c s). auto. }
    destruct (is_digit c) eqn:Hc; [|exact Hstop].
    destruct (Re.more_digits k (acc +:+ String c "") s) eqn:E; [|exact Hstop].
    intros [= ->].
    assert (Hacc' : all_chars is_digit (acc +:+ String c "") = true).
    { rewrite all_chars_app, Hacc. simpl. now rewrite Hc. }
    destruct (IH _ Hacc' E) as (g & gs' & s' & -> & Hk & Hg & Hne).
    exists g, gs', s'. repeat split; auto.
    intros _. apply Hne. destruct acc; discriminate.
Qed.

Lemma plus_digits_inv k (s : string) (gs : list string) :
  Re.plus_digits k s = Some gs ->
  exists g gs' s', gs = g :: gs' /\ k s' = Some gs' /\ digit_run g.
Proof.
  destruct s as [|c s]; simpl; [discriminate|].
  destruct (is_digit c) eqn:Hc; [|discriminate].
  intros H. apply more_digits_inv in H as (g & gs' & s' & -> & Hk & Hg & Hne).
  - exists g, gs', s'. repeat split; auto; apply Hne; discriminate.
  - simpl. now rewrite Hc.
Qed.

(** Every match captures one run of digits per group. *)
Lemma match_here_groups (p : list Re.item) (s : string) (gs : list string) :
  Re.match_here p s = Some gs ->
  length gs = groups p /\ Forall digit_run gs.
Proof.
  revert s gs. induction p as [|[l| |] p IH]; intros s gs; simpl.
  - intros [= <-]. auto.
  - destruct (Re.strip_prefix l s); [apply IH | discriminate].
  - intros H. apply star_spaces_inv in H as [s' H]. eapply IH, H.
  - intros H. apply plus_digits_inv in H as (g & gs' & s' & -> & Hk & Hg).
    destruct (IH _ _ Hk) as [Hlen Hall]. split; [simpl; congruence|].
    constructor; assumption.
Qed.

Lemma search_inv (p : list Re.item) (s : string) (gs : list string) :
  Re.search p s = Some gs -> exists s', Re.match_here p s' = Some gs.
Proof.
  induction s as [|c s IH]; simpl.
  - destruct (Re.match_here p "") eqn:E; [|discriminate].
    intros [= <-]. eauto.
  - destruct (Re.match_here p (String c s)) eqn:E; [intros [= <-]; eauto|].
    exact IH.
Qed.

Lemma search_groups (p : list Re.item) (s : string) (gs : list string) :
  Re.search p s = Some gs -> length gs = groups p /\ Forall digit_run gs.
Proof.
  intros H. apply search_inv in H as [s' H]. eapply match_here_groups, H.
Qed.

(** The search finds the match at [rest] when none starts earlier. *)
Lemma search_leftmost (p : list Re.item) (pre rest : string) gs :
  (forall a b, pre = a +:+ b -> b <> "" ->
               Re.match_here p (b +:+ rest) = None) ->
  Re.match_here p rest = Some gs ->
  Re.search p (pre +:+ rest) = Some gs.
Proof.
  intros Hpre Hm. induction pre as [|c pre IH].
  - rewrite app_empty_l. destruct rest; simpl; now rewrite Hm.
  - rewrite app_cons. simpl.
    assert (H0 : Re.match_here p (String c (pre +:+ rest)) = None).
    { apply (Hpre "" (String c pre)); [reflexivity | discriminate]. }
    rewrite H0. apply IH. intros a b -> Hb.
    apply (Hpre (String c a) b); [reflexivity | assumption].
Qed.

Lemma int_body_digits (ds : string) (acc : Z) :
  all_chars is_digit ds = true ->
  int_body ds acc false
  = Some (fold_left (fun a c => 10 * a + digit_val c)
                    (list_ascii_of_string ds) acc).
Proof.
  revert acc. induction ds as [|c ds IH]; intros acc H; simpl in *.
  - reflexivity.
  - apply andb_true_iff in H as [Hc H]. rewrite Hc. apply IH, H.
Qed.

(** [int] of a run of digits within the limit is its decimal value. *)
Lemma int_digit_run (ds : string) :
  digit_run ds -> within_limit ds = true -> PyStr.int ds = Some (decimal ds).
Proof.
  intros [Hne H] Hlim. destruct ds as [|c ds]; [congruence|].
  cbn [all_chars] in H. apply andb_true_iff in H as [Hc H].
  assert (Hu : int_unsigned (String c ds) = Some (decimal (String c ds))).
  { unfold int_unsigned. rewrite Hlim, Hc. unfold decimal. simpl.
    rewrite (int_body_digits ds _ H). reflexivity. }
  unfold PyStr.int.
  destruct c as [[] [] [] [] [] [] [] []]; try exact Hu; discriminate Hc.
Qed.

(** Beyond the limit it is [ValueError]. *)
Lemma int_over_limit (ds : string) :
  digit_run ds -> within_limit ds = false -> PyStr.int ds = None.
Proof.
  intros [Hne H] Hlim. destruct ds as [|c ds]; [congruence|].
  cbn [all_chars] in H. apply andb_true_iff in H as [Hc H].
  assert (Hu : int_unsigned (String c ds) = None).
  { unfold int_unsigned. now rewrite Hlim. }
  unfold PyStr.int.
  destruct c as [[] [] [] [] [] [] [] []]; try exact Hu; discriminate Hc.
Qed.

Lemma repeat_char_all (n : nat) (c : ascii) (f : ascii -> bool) :
  f c = true -> all_chars f (repeat_char n c) = true.
Proof.
  intros Hc. induction n as [|n IH]; [reflexivity|].
  cbn [repeat_char all_chars]. now rewrite Hc, IH.
Qed.

Lemma digit_count_repeat (n : nat) (c : ascii) :
  is_digit c = true -> digit_count (repeat_char n c) = N.of_nat n.
Proof.
  intros Hc. induction n as [|n IH]; [reflexivity|].
  cbn [repeat_char digit_count]. rewrite Hc, IH. lia.
Qed.

Lemma search_found_at_start (p : list Re.item) (s : string) gs :
  Re.match_here p s = Some gs -> Re.search p s = Some gs.
Proof. intros H. destruct s; cbn [Re.search]; now rewrite H. Qed.

Lemma search_skip (p : list Re.item) (c : ascii) (s : string) :
  Re.match_here p (String c s) = None ->
  Re.search p (String c s) = Re.search p s.
Proof. intros H. cbn [Re.search]. now rewrite H. Qed.

(** ** Facts about [strip] and [split] *)

Lemma split_S (m : nat) (s : string) :
  split (S m) s
  = if is_empty (lstrip s) then []
    else let '(w, rest) := span_word (lstrip s) in w :: split m rest.
Proof. reflexivity. Qed.

Lemma split_0 (s : string) :
  split 0 s = if is_empty (lstrip s) then [] else [lstrip s].
Proof. reflexivity. Qed.

Lemma is_word_inv (s : string) :
  is_word s = true ->
  s <> "" /\ all_chars (fun c => negb (is_space c)) s = true.
Proof.
  unfold is_word. intros H. apply andb_true_iff in H as [H1 H2].
  apply negb_true_iff, is_empty_false in H1. auto.
Qed.

Lemma is_gap_inv (s : string) :
  is_gap s = true -> s <> "" /\ all_chars is_space s = true.
Proof.
  unfold is_gap. intros H. apply andb_true_iff in H as [H1 H2].
  apply negb_true_iff, is_empty_false in H1. auto.
Qed.

Lemma is_rest_inv (s : string) :
  is_rest s = true -> s <> "" /\ head_not is_space s = true.
Proof.
  unfold is_rest. intros H. apply andb_true_iff in H as [H1 H2].
  apply negb_true_iff, is_empty_false in H1. auto.
Qed.

Lemma word_head (s : string) : is_word s = true -> is_rest s = true.
Proof.
  intros H. apply is_word_inv in H as [Hne H].
  destruct s as [|c s]; [congruence|]. simpl in H.
  apply andb_true_iff in H as [Hc _]. unfold is_rest. simpl. exact Hc.
Qed.

Lemma lstrip_head (s : string) : head_not is_space s = true -> lstrip s = s.
Proof.
  destruct s as [|c s]; [reflexivity|]. simpl. intros H.
  apply negb_true_iff in H. now rewrite H.
Qed.

Lemma lstrip_gap (g r : string) :
  all_chars is_space g = true -> head_not is_space r = true ->
  lstrip (g +:+ r) = r.
Proof.
  intros Hg Hr. induction g as [|c g IH].
  - now apply lstrip_head.
  - rewrite app_cons. simpl in *. apply andb_true_iff in Hg as [Hc Hg].
    rewrite Hc. now apply IH.
Qed.

Lemma head_not_space_app (a b : string) :
  is_rest a = true -> head_not is_space (a +:+ b) = true.
Proof.
  intros H. apply is_rest_inv in H as [Hne H]. now apply head_not_app.
Qed.

Lemma is_empty_app (a b : string) : a <> "" -> is_empty (a +:+ b) = false.
Proof. destruct a; [congruence|]. reflexivity. Qed.

Lemma span_word_end (w : string) :
  all_chars (fun c => negb (is_space c)) w = true -> span_word w = (w, "").
Proof.
  induction w as [|c w IH]; [reflexivity|]. simpl. intros H.
  apply andb_true_iff in H as [Hc H]. apply negb_true_iff in Hc.
  now rewrite Hc, (IH H).
Qed.

Lemma span_word_gap (w g r : string) :
  all_chars (fun c => negb (is_space c)) w = true -> is_gap g = true ->
  span_word (w +:+ g +:+ r) = (w, g +:+ r).
Proof.
  intros Hw Hg. apply is_gap_inv in Hg as [Hne Hg].
  induction w as [|c w IH].
  - rewrite app_empty_l. destruct g as [|d g]; [congruence|].
    rewrite app_cons. simpl in *. apply andb_true_iff in Hg as [Hd _].
    now rewrite Hd.
  - rewrite app_cons. simpl in *.
    apply andb_true_iff in Hw as [Hc Hw]. apply negb_true_iff in Hc.
    now rewrite Hc, (IH Hw).
Qed.

(** [split(maxsplit=2)] on each shape of entry gives its fields. *)
Lemma split_entry (e : Entry) :
  entry_ok e = true -> split 2 (entry_text e) = entry_fields e.
Proof.
  destruct e as [hr|hr g1 dev|hr g1 dev g2 notes];
    cbn [entry_text entry_fields entry_ok]; intros Hok.
  - pose proof (word_head hr Hok) as Hh.
    destruct (is_word_inv hr Hok) as [Hne Hw].
    destruct (is_rest_inv hr Hh) as [_ Hhead].
    rewrite split_S, (lstrip_head hr Hhead).
    apply is_empty_false in Hne. rewrite Hne, (span_word_end hr Hw).
    reflexivity.
  - apply andb_true_iff in Hok as [Hok Hdev].
    apply andb_true_iff in Hok as [Hhr Hg1].
    destruct (is_word_inv hr Hhr) as [Hne Hw].
    destruct (is_word_inv dev Hdev) as [Hned Hwd].
    destruct (is_gap_inv g1 Hg1) as [_ Hs1].
    destruct (is_rest_inv dev (word_head dev Hdev)) as [_ Hhd].
    rewrite split_S, (lstrip_head _ (head_not_space_app hr _ (word_head hr Hhr))).
    rewrite (is_empty_app hr _ Hne), (span_word_gap hr g1 dev Hw Hg1).
    rewrite split_S, (lstrip_gap g1 dev Hs1 Hhd).
    apply is_empty_false in Hned. rewrite Hned, (span_word_end dev Hwd).
    reflexivity.
  - apply andb_true_iff in Hok as [Hok Hnotes].
    apply andb_true_iff in Hok as [Hok Hg2].
    apply andb_true_iff in Hok as [Hok Hdev].
    apply andb_true_iff in Hok as [Hhr Hg1].
    destruct (is_word_inv hr Hhr) as [Hne Hw].
    destruct (is_word_inv dev Hdev) as [Hned Hwd].
    destruct (is_gap_inv g1 Hg1) as [_ Hs1].
    destruct (is_gap_inv g2 Hg2) as [_ Hs2].
    destruct (is_rest_inv notes Hnotes) as [Hnen Hhn].
    rewrite split_S, (lstrip_head _ (head_not_space_app hr _ (word_head hr Hhr))).
    rewrite (is_empty_app hr _ Hne), (span_word_gap hr g1 _ Hw Hg1).
    rewrite split_S,
      (lstrip_gap g1 _ Hs1 (head_not_space_app dev _ (word_head dev Hdev))).
    rewrite (is_empty_app dev _ Hned), (span_word_gap dev g2 notes Hwd Hg2).
    rewrite split_0, (lstrip_gap g2 notes Hs2 Hhn).
    apply is_empty_false in Hnen. now rewrite Hnen.
Qed.

Lemma entry_ok_hr (e : Entry) :
  entry_ok e = true -> is_word (entry_hr e) = true.
Proof.
  destruct e as [hr|hr g1 dev|hr g1 dev g2 notes];
    cbn [entry_hr entry_ok]; intros Hok.
  - exact Hok.
  - apply andb_true_iff in Hok as [Hok _].
    now apply andb_true_iff in Hok as [Hok _].
  - apply andb_true_iff in Hok as [Hok _].
    apply andb_true_iff in Hok as [Hok _].
    apply andb_true_iff in Hok as [Hok _].
    now apply andb_true_iff in Hok as [Hok _].
Qed.

Lemma entry_text_not_empty (e : Entry) :
  entry_ok e = true -> is_empty (entry_text e) = false.
Proof.
  intros Hok. destruct (is_word_inv _ (entry_ok_hr e Hok)) as [Hne _].
  destruct e; cbn [entry_text entry_hr] in *.
  - now apply is_empty_false.
  - now apply is_empty_app.
  - now apply is_empty_app.
Qed.

Lemma entry_fields_lookup (e : Entry) :
  entry_fields e !! 0%nat = Some (entry_hr e)
  /\ default "External" (entry_fields e !! 1%nat) = entry_device e
  /\ default "" (entry_fields e !! 2%nat) = entry_notes e
  /\ (length (entry_fields e) <= 3)%nat.
Proof. destruct e; simpl; repeat split; lia. Qed.

(** Every stripped, non-empty line has one of the three shapes. *)

Lemma span_word_spec (s w r : string) :
  span_word s = (w, r) ->
  s = w +:+ r
  /\ all_chars (fun c => negb (is_space c)) w = true
  /\ (r = "" \/ head_not is_space r = false).
Proof.
  revert w r. induction s as [|c s IH]; intros w r; simpl.
  - intros [= <- <-]. auto.
  - destruct (is_space c) eqn:Hc.
    + intros [= <- <-]. repeat split; auto. right. simpl. now rewrite Hc.
    + destruct (span_word s) as [w' r'] eqn:E. intros [= <- <-].
      destruct (IH w' r' eq_refl) as (Hs & Hw & Hr).
      repeat split; auto.
      * rewrite app_cons. now f_equal.
      * simpl. now rewrite Hc, Hw.
Qed.

Lemma lstrip_spec (s : string) :
  head_not is_space (lstrip s) = true
  /\ exists g, s = g +:+ lstrip s /\ all_chars is_space g = true.
Proof.
  induction s as [|c s [IH1 (g & IH2 & IH3)]]; simpl.
  - split; [reflexivity|]. exists "". auto.
  - destruct (is_space c) eqn:Hc.
    + split; [exact IH1|]. exists (String c g). split.
      * rewrite app_cons. now f_equal.
      * simpl. now rewrite Hc.
    + split; [simpl; now rewrite Hc|]. exists "". auto.
Qed.

Lemma rstrip_all_space (g : string) :
  all_chars is_space g = true -> rstrip g = "".
Proof.
  induction g as [|c g IH]; [reflexivity|]. simpl. intros H.
  apply andb_true_iff in H as [Hc H]. now rewrite Hc, (IH H).
Qed.

Lemma rstrip_suffix (a b : string) :
  rstrip (a +:+ b) = a +:+ b -> rstrip b = b.
Proof.
  induction a as [|c a IH]; [now rewrite app_empty_l|].
  rewrite app_cons. simpl.
  destruct (is_space c && is_empty (rstrip (a +:+ b))); [discriminate|].
  intros [= H]. now apply IH.
Qed.

Lemma rstrip_idem (s : string) : rstrip (rstrip s) = rstrip s.
Proof.
  induction s as [|c s IH]; [reflexivity|]. simpl.
  destruct (is_space c && is_empty (rstrip s)) eqn:E; [reflexivity|].
  simpl. now rewrite IH, E.
Qed.

Lemma rstrip_head (s : string) :
  head_not is_space s = true -> head_not is_space (rstrip s) = true.
Proof.
  destruct s as [|c s]; [reflexivity|]. simpl. intros H.
  apply negb_true_iff in H. rewrite H. simpl. now rewrite H.
Qed.

Lemma strip_stripped (raw : string) :
  rstrip (strip raw) = strip raw /\ head_not is_space (strip raw) = true.
Proof.
  unfold strip. split; [apply rstrip_idem|].
  apply rstrip_head, lstrip_spec.
Qed.

(** The first word of a stripped text and what is left after the gap
    that follows it. *)
Lemma cut_word (s : string) :
  s <> "" -> head_not is_space s = true -> rstrip s = s ->
  exists w r,
    s = w +:+ r /\ is_word w = true
    /\ (r = ""
        \/ exists g r', r = g +:+ r' /\ is_gap g = true
                        /\ is_rest r' = true /\ rstrip r' = r').
Proof.
  intros Hne Hhead Hstrip.
  destruct (span_word s) as [w r] eqn:E.
  destruct (span_word_spec s w r E) as (Hs & Hw & Hr).
  assert (Hwne : w <> "").
  { intros ->. rewrite app_empty_l in Hs. subst r.
    destruct Hr as [->|Hr]; [congruence|]. congruence. }
  exists w, r. split; [exact Hs|]. split.
  { unfold is_word. apply is_empty_false in Hwne. now rewrite Hwne, Hw. }
  destruct Hr as [Hr|Hr]; [now left|]. right.
  destruct (lstrip_spec r) as (Hl & g & Hg & Hgs).
  assert (Hrs : rstrip r = r) by (apply (rstrip_suffix w); congruence).
  assert (Hgne : g <> "").
  { intros ->. rewrite app_empty_l in Hg. rewrite <- Hg in Hl. congruence. }
  assert (Hrne : lstrip r <> "").
  { intros Hl0. rewrite Hl0, app_empty_r in Hg. subst g.
    rewrite (rstrip_all_space r Hgs) in Hrs. congruence. }
  exists g, (lstrip r). split; [exact Hg|]. split.
  { unfold is_gap. apply is_empty_false in Hgne. now rewrite Hgne, Hgs. }
  split.
  { unfold is_rest. apply is_empty_false in Hrne. now rewrite Hrne, Hl. }
  apply (rstrip_suffix g). congruence.
Qed.

Lemma stripped_line_has_shape (raw : string) :
  is_empty (strip raw) = false ->
  exists e, entry_ok e = true /\ entry_text e = strip raw.
Proof.
  intros Hne. apply is_empty_false in Hne.
  destruct (strip_stripped raw) as [Hr Hh].
  destruct (cut_word _ Hne Hh Hr) as (hr & r1 & Hs & Hhr & [->|Hrest]).
  - exists (OneField hr). split; [exact Hhr|].
    cbn [entry_text]. now rewrite Hs, app_empty_r.
  - destruct Hrest as (g1 & r1' & -> & Hg1 & Hr1 & Hrs1).
    destruct (is_rest_inv _ Hr1) as [Hne1 Hh1].
    destruct (cut_word _ Hne1 Hh1 Hrs1)
      as (dev & r2 & Hs2 & Hdev & [->|Hrest2]).
    + exists (TwoFields hr g1 dev). split.
      * cbn [entry_ok]. now rewrite Hhr, Hg1, Hdev.
      * cbn [entry_text]. rewrite Hs, Hs2, app_empty_r. reflexivity.
    + destruct Hrest2 as (g2 & notes & -> & Hg2 & Hnotes & _).
      exists (ThreeFields hr g1 dev g2 notes). split.
      * cbn [entry_ok]. now rewrite Hhr, Hg1, Hdev, Hg2, Hnotes.
      * cbn [entry_text]. rewrite Hs, Hs2. reflexivity.
Qed.

(** ** Facts about [process_line] *)

Lemma check_connection_start_none (now : time) line (w : World time) :
  Re.search connection_pattern line = None ->
  check_connection_start now line w = Ok tt w.
Proof. intros E. unfold check_connection_start. now rewrite E. Qed.

Lemma check_connection_start_some (now : time) line g (w : World time) :
  Re.search connection_pattern line = Some g ->
  check_connection_start now line w
  = Ok tt (mkWorld (set_connection_start_time (Some now) (self w)) (files w)
                   (if enable_manual_input (self w)
                    then trace w ++ [Print MsgSyncUpdated] else trace w)).
Proof.
  intros E. unfold check_connection_start. rewrite E.
  unfold bind, update_self, get_self, print, emit, ret. simpl.
  destruct (enable_manual_input (self w)); reflexivity.
Qed.

Lemma match_combined_none system_time line (w : World time) :
  Re.search combined_pattern line = None ->
  match_combined system_time line w = Ok tt w.
Proof. intros E. unfold match_combined. now rewrite E. Qed.

Lemma three_groups (gs : list string) :
  length gs = 3%nat -> Forall digit_run gs ->
  exists g1 g2 g3, gs = [g1; g2; g3]
                   /\ digit_run g1 /\ digit_run g2 /\ digit_run g3.
Proof.
  intros Hlen Hall.
  destruct gs as [|g1 [|g2 [|g3 [|]]]]; try discriminate Hlen.
  inversion Hall as [|? ? H1 Hall1]; subst.
  inversion Hall1 as [|? ? H2 Hall2]; subst.
  inversion Hall2 as [|? ? H3 _]; subst.
  exists g1, g2, g3. auto.
Qed.

Lemma match_combined_row system_time line g1 g2 g3 p q (w : World time) :
  Re.search combined_pattern line = Some [g1; g2; g3] ->
  digit_run g1 -> digit_run g2 -> digit_run g3 ->
  forallb within_limit [g1; g2; g3] = true ->
  csv_writer (self w) = Some p -> csv_file (self w) = Some q ->
  match_combined system_time line w
  = Ok tt (mkWorld (self w)
             (append_row p [PStr system_time; PInt (decimal g1);
                            PInt (decimal g2); PInt (decimal g3)] (files w))
             (trace w ++ [Print (MsgSaved (decimal g1) (decimal g2)
                                          (decimal g3))])).
Proof.
  intros E H1 H2 H3 Hlim Hp Hq. unfold match_combined. rewrite E.
  cbn [forallb] in Hlim. rewrite andb_true_r in Hlim.
  apply andb_true_iff in Hlim as [L1 Hlim].
  apply andb_true_iff in Hlim as [L2 L3].
  unfold bind, index, int_of. simpl.
  rewrite (int_digit_run _ H1 L1), (int_digit_run _ H2 L2),
    (int_digit_run _ H3 L3).
  unfold ret, get_self. rewrite Hp, Hq. reflexivity.
Qed.

(** A field beyond the limit of [int]: [ValueError], before anything is
    written or printed. *)
Lemma match_combined_oversized system_time line g1 g2 g3 (w : World time) :
  Re.search combined_pattern line = Some [g1; g2; g3] ->
  digit_run g1 -> digit_run g2 -> digit_run g3 ->
  forallb within_limit [g1; g2; g3] = false ->
  match_combined system_time line w = Raised ValueError w.
Proof.
  intros E H1 H2 H3 Hlim. unfold match_combined. rewrite E.
  cbn [forallb] in Hlim. rewrite andb_true_r in Hlim.
  unfold bind, index, int_of. simpl.
  destruct (within_limit g1) eqn:L1.
  - rewrite (int_digit_run _ H1 L1). unfold ret.
    destruct (within_limit g2) eqn:L2.
    + rewrite (int_digit_run _ H2 L2).
      destruct (within_limit g3) eqn:L3; [discriminate Hlim|].
      now rewrite (int_over_limit _ H3 L3).
    + now rewrite (int_over_limit _ H2 L2).
  - now rewrite (int_over_limit _ H1 L1).
Qed.

(** ** What a computation may do to the logger object

    [steps m] says that [m] relates the logger before to the logger after
    by [Rl], whether it returns or raises. *)

Section Steps.

Variable Rl : Logger time -> Logger time -> Prop.
Hypothesis Rl_refl : forall l, Rl l l.
Hypothesis Rl_trans : forall l1 l2 l3, Rl l1 l2 -> Rl l2 l3 -> Rl l1 l3.

Definition steps {A} (m : M time A) : Prop :=
  forall w, Rl (self w) (self (world_of (m w))).

Lemma steps_ret {A} (a : A) : steps (ret a).
Proof. intros w. apply Rl_refl. Qed.

Lemma steps_raise {A} (e : Exn) : steps (@raise time A e).
Proof. intros w. apply Rl_refl. Qed.

Lemma steps_bind {A B} (m : M time A) (f : A -> M time B) :
  steps m -> (forall a, steps (f a)) -> steps (bind m f).
Proof.
  intros Hm Hf w. unfold bind. specialize (Hm w).
  destruct (m w) as [a w'|e w']; simpl in *; [|assumption].
  eapply Rl_trans; [exact Hm | apply Hf].
Qed.

Lemma steps_try_except {A} (m : M time A) handles h :
  steps m -> (forall e, steps (h e)) -> steps (try_except m handles h).
Proof.
  intros Hm Hh w. unfold try_except. specialize (Hm w).
  destruct (m w) as [a w'|e w']; simpl in *; [assumption|].
  destruct (handles e); [|assumption].
  eapply Rl_trans; [exact Hm | apply Hh].
Qed.

Lemma steps_try_finally {A} (m : M time A) (f : M time unit) :
  steps m -> steps f -> steps (try_finally m f).
Proof.
  intros Hm Hf w. unfold try_finally. specialize (Hm w).
  destruct (m w) as [a w'|e w']; simpl in *;
    specialize (Hf w'); destruct (f w'); simpl in *;
    eapply Rl_trans; eauto.
Qed.

Lemma steps_get_self : steps get_self.
Proof. intros w. apply Rl_refl. Qed.

Lemma steps_emit (e : Event) : steps (emit e).
Proof. intros w. apply Rl_refl. Qed.

Lemma steps_path_exists (p : Path) : steps (path_exists p).
Proof. intros w. apply Rl_refl. Qed.

Lemma steps_open_append can_open (p : Path) : steps (open_append can_open p).
Proof. intros w. unfold open_append. destruct (can_open p); apply Rl_refl. Qed.

Lemma steps_writerow writer (row : Row) : steps (writerow writer row).
Proof. intros w. destruct writer; apply Rl_refl. Qed.

Lemma steps_flush (file : option Path) : steps (flush file).
Proof. intros w. destruct file; apply Rl_refl. Qed.

Lemma steps_int_of (s : string) : steps (int_of s).
Proof. intros w. unfold int_of. destruct (PyStr.int s); apply Rl_refl. Qed.

Lemma steps_index parts (i : nat) : steps (index parts i).
Proof. intros w. unfold index. destruct (parts !! i); apply Rl_refl. Qed.

Lemma steps_update_self (f : Logger time -> Logger time) :
  (forall l, Rl l (f l)) -> steps (update_self f).
Proof. intros Hf w. apply Hf. Qed.

Hypothesis Rl_anchor :
  forall t l, Rl l (set_connection_start_time (Some t) l).
Hypothesis Rl_running : forall b l, Rl l (set_running b l).
Hypothesis Rl_csv : forall v l, Rl l (set_csv v l).
Hypothesis Rl_manual_csv : forall v l, Rl l (set_manual_csv v l).
Hypothesis Rl_serial : forall v l, Rl l (set_serial_conn v l).

Ltac steps_step :=
  lazymatch goal with
  | |- steps (ret _) => apply steps_ret
  | |- steps (raise _) => apply steps_raise
  | |- steps get_self => apply steps_get_self
  | |- steps (emit _) => apply steps_emit
  | |- steps (path_exists _) => apply steps_path_exists
  | |- steps (open_append _ _) => apply steps_open_append
  | |- steps (writerow _ _) => apply steps_writerow
  | |- steps (flush _) => apply steps_flush
  | |- steps (int_of _) => apply steps_int_of
  | |- steps (index _ _) => apply steps_index
  | |- steps (update_self _) => apply steps_update_self; intros; auto
  | |- steps (bind _ _) => apply steps_bind; [|intros ?]
  | |- steps (try_except _ _ _) => apply steps_try_except; [|intros ?]
  | |- steps (try_finally _ _) => apply steps_try_finally
  | |- steps (match ?x with _ => _ end) => destruct x
  | |- steps (let _ := _ in _) => cbv zeta
  end.

Ltac steps_tac := repeat steps_step.

Lemma steps_match_combined system_time line :
  steps (match_combined system_time line).
Proof. unfold match_combined, print. steps_tac. Qed.

Lemma steps_check_connection_start now line :
  steps (check_connection_start now line).
Proof. unfold check_connection_start, print. steps_tac. Qed.

Lemma steps_process_line now system_time line :
  steps (process_line now system_time line).
Proof.
  unfold process_line. cbv zeta. apply steps_bind.
  - apply steps_check_connection_start.
  - intros _. apply steps_match_combined.
Qed.

Lemma steps_log_manual_heart_rate now system_time hr device notes :
  steps (log_manual_heart_rate now system_time hr device notes).
Proof. unfold log_manual_heart_rate, print. steps_tac. Qed.

Lemma steps_manual_iteration (o : Operator) : steps (manual_iteration o).
Proof.
  unfold manual_iteration, print.
  steps_tac; apply steps_log_manual_heart_rate.
Qed.

Lemma steps_read_line line now system_time :
  steps (read_line line now system_time).
Proof. unfold read_line, print. steps_tac. apply steps_process_line. Qed.

Lemma steps_serial_iteration (p : Poll) : steps (serial_iteration p).
Proof.
  unfold serial_iteration, print, sleep. steps_tac; apply steps_read_line.
Qed.

Lemma steps_simple_iteration (p : Poll) : steps (simple_iteration p).
Proof. unfold simple_iteration. steps_tac. apply steps_read_line. Qed.

Lemma steps_open_csv can_open : steps (open_csv can_open).
Proof. unfold open_csv, print. steps_tac. Qed.

Lemma steps_cleanup : steps cleanup.
Proof. unfold cleanup, print. steps_tac. Qed.

Lemma steps_perform (a : Action) (w : World time) :
  Rl (self w) (self (perform a w)).
Proof.
  destruct a; simpl.
  - apply steps_open_csv.
  - apply steps_process_line.
  - apply steps_log_manual_heart_rate.
  - apply steps_manual_iteration.
  - apply steps_serial_iteration.
  - apply steps_simple_iteration.
  - apply steps_cleanup.
Qed.

Lemma steps_after (acts : list Action) (w : World time) :
  Rl (self w) (self (after acts w)).
Proof.
  revert w. induction acts as [|a acts IH]; intros w; simpl.
  - apply Rl_refl.
  - eapply Rl_trans; [apply steps_perform | apply IH].
Qed.

(** A line without the marker leaves the anchor to [Rl] alone. *)
Lemma steps_process_line_quiet now system_time line :
  marker_line line = false -> steps (process_line now system_time line).
Proof.
  intros Hq w. unfold process_line. cbv zeta. unfold bind.
  unfold marker_line in Hq.
  destruct (Re.search connection_pattern (strip line)) eqn:E; [discriminate|].
  rewrite (check_connection_start_none now _ w E).
  apply steps_match_combined.
Qed.

Lemma steps_read_line_quiet line now system_time :
  marker_line line = false -> steps (read_line line now system_time).
Proof.
  intros Hq. unfold read_line, print. steps_tac.
  now apply steps_process_line_quiet.
Qed.

Lemma steps_serial_iteration_quiet (p : Poll) :
  resyncs (ActDevice p) = false -> steps (serial_iteration p).
Proof.
  intros Hq. unfold serial_iteration, print, sleep.
  destruct p; simpl in Hq; steps_tac. now apply steps_read_line_quiet.
Qed.

Lemma steps_simple_iteration_quiet (p : Poll) :
  resyncs (ActSimple p) = false -> steps (simple_iteration p).
Proof.
  intros Hq. unfold simple_iteration.
  destruct p; simpl in Hq; steps_tac. now apply steps_read_line_quiet.
Qed.

Lemma steps_perform_quiet (a : Action) (w : World time) :
  resyncs a = false -> Rl (self w) (self (perform a w)).
Proof.
  destruct a as [c|now st line|now st hr d n|o|p|p|]; intros Hq;
    cbn [perform].
  - apply steps_open_csv.
  - now apply steps_process_line_quiet.
  - apply steps_log_manual_heart_rate.
  - apply steps_manual_iteration.
  - now apply steps_serial_iteration_quiet.
  - now apply steps_simple_iteration_quiet.
  - apply steps_cleanup.
Qed.

Lemma steps_after_quiet (acts : list Action) (w : World time) :
  forallb (fun a => negb (resyncs a)) acts = true ->
  Rl (self w) (self (after acts w)).
Proof.
  revert w. induction acts as [|a acts IH]; intros w Hq.
  - apply Rl_refl.
  - change (after (a :: acts) w) with (after acts (perform a w)).
    cbn [forallb] in Hq.
    apply andb_true_iff in Hq as [Ha Hq]. apply negb_true_iff in Ha.
    eapply Rl_trans; [exact (steps_perform_quiet a w Ha) | exact (IH _ Hq)].
Qed.

End Steps.

(** ** The parser on well-formed telemetry *)

Lemma match_here_lit p (l r : string) gs :
  Re.match_here p r = Some gs -> Re.match_here (Re.Lit l :: p) (l +:+ r) = Some gs.
Proof. intros E. cbn [Re.match_here]. now rewrite strip_prefix_app. Qed.

Lemma match_here_spaces p (ws r : string) gs :
  all_chars is_space ws = true -> head_not is_space r = true ->
  Re.match_here p r = Some gs ->
  Re.match_here (Re.Spaces :: p) (ws +:+ r) = Some gs.
Proof. intros. cbn [Re.match_here]. now apply star_spaces_run. Qed.

Lemma match_here_digits p (ds r : string) gs :
  digit_run ds -> head_not is_digit r = true ->
  Re.match_here p r = Some gs ->
  Re.match_here (Re.Digits :: p) (ds +:+ r) = Some (ds :: gs).
Proof.
  intros [Hne Hds] Hr E. cbn [Re.match_here]. now apply plus_digits_run.
Qed.

Lemma head_not_space_digits (ds r : string) :
  digit_run ds -> head_not is_space (ds +:+ r) = true.
Proof.
  intros [Hne Hds]. destruct ds as [|c ds]; [congruence|].
  rewrite app_cons. simpl in *. apply andb_true_iff in Hds as [Hc _].
  now rewrite (digit_not_space c Hc).
Qed.

Lemma space_not_digit (c : ascii) : is_space c = true -> is_digit c = false.
Proof.
  intros Hs. destruct (is_digit c) eqn:Hd; [|reflexivity].
  rewrite (digit_not_space c Hd) in Hs. discriminate.
Qed.

Lemma head_not_digit_spaces (ws r : string) :
  all_chars is_space ws = true -> head_not is_digit r = true ->
  head_not is_digit (ws +:+ r) = true.
Proof.
  intros Hws Hr. destruct ws as [|c ws]; [assumption|].
  rewrite app_cons. simpl in *. apply andb_true_iff in Hws as [Hc _].
  now rewrite (space_not_digit c Hc).
Qed.

(** At the start of a well-formed telemetry text the pattern captures its
    three runs of digits. *)
Lemma match_here_telemetry (w1 d1 w2 w3 w4 d2 w5 w6 w7 d3 post : string) :
  all_chars is_space w1 = true -> all_chars is_space w2 = true ->
  all_chars is_space w3 = true -> all_chars is_space w4 = true ->
  all_chars is_space w5 = true -> all_chars is_space w6 = true ->
  all_chars is_space w7 = true ->
  digit_run d1 -> digit_run d2 -> digit_run d3 ->
  head_not is_digit post = true ->
  Re.match_here combined_pattern
    (telemetry_text w1 d1 w2 w3 w4 d2 w5 w6 w7 d3 +:+ post)
  = Some [d1; d2; d3].
Proof.
  intros H1 H2 H3 H4 H5 H6 H7 D1 D2 D3 Hpost.
  unfold telemetry_text, combined_pattern. rewrite !app_assoc_str.
  apply match_here_lit.
  apply match_here_spaces; [assumption | now apply head_not_space_digits |].
  apply match_here_digits;
    [assumption | now apply head_not_digit_spaces |].
  apply match_here_spaces; [assumption | reflexivity |].
  apply match_here_lit.
  apply match_here_spaces; [assumption | reflexivity |].
  apply match_here_lit.
  apply match_here_spaces; [assumption | now apply head_not_space_digits |].
  apply match_here_digits;
    [assumption | now apply head_not_digit_spaces |].
  apply match_here_spaces; [assumption | reflexivity |].
  apply match_here_lit.
  apply match_here_spaces; [assumption | reflexivity |].
  apply match_here_lit.
  apply match_here_spaces; [assumption | now apply head_not_space_digits |].
  apply match_here_digits; [assumption | assumption | reflexivity].
Qed.

(** ** The claims *)

(** C2, as the code has it. A line that, once stripped, is some text
    [pre] in which no match starts, then the telemetry pattern with any
    white space around its tags and delimiters and with fields of at most
    4300 digits each, then text [post] that does not go on with a digit,
    is parsed into exactly its three integers, in order, and the sensor
    log gains exactly one row holding them after the system time. *)
Theorem telemetry_line_logged (now : time) system_time line
    (pre w1 d1 w2 w3 w4 d2 w5 w6 w7 d3 post : string) p q (w : World time) :
  strip line
  = pre +:+ telemetry_text w1 d1 w2 w3 w4 d2 w5 w6 w7 d3 +:+ post ->
  (forall a b, pre = a +:+ b -> b <> "" ->
     Re.match_here combined_pattern
       (b +:+ telemetry_text w1 d1 w2 w3 w4 d2 w5 w6 w7 d3 +:+ post) = None) ->
  all_chars is_space w1 = true -> all_chars is_space w2 = true ->
  all_chars is_space w3 = true -> all_chars is_space w4 = true ->
  all_chars is_space w5 = true -> all_chars is_space w6 = true ->
  all_chars is_space w7 = true ->
  digit_run d1 -> digit_run d2 -> digit_run d3 ->
  within_limit d1 = true -> within_limit d2 = true ->
  within_limit d3 = true ->
  head_not is_digit post = true ->
  csv_writer (self w) = Some p -> csv_file (self w) = Some q ->
  Re.search combined_pattern (strip line) = Some [d1; d2; d3]
  /\ exists w',
       process_line now system_time line w = Ok tt w'
       /\ files w'
          = append_row p [PStr system_time; PInt (decimal d1);
                          PInt (decimal d2); PInt (decimal d3)] (files w).
Proof.
  intros Hline Hpre H1 H2 H3 H4 H5 H6 H7 D1 D2 D3 L1 L2 L3 Hpost Hp Hq.
  assert (Hs : Re.search combined_pattern (strip line) = Some [d1; d2; d3]).
  { rewrite Hline. apply search_leftmost; [exact Hpre|].
    now apply match_here_telemetry. }
  assert (Hlim : forallb within_limit [d1; d2; d3] = true)
    by (cbn [forallb]; now rewrite L1, L2, L3).
  split; [exact Hs|].
  unfold process_line. cbv zeta. unfold bind at 1.
  destruct (Re.search connection_pattern (strip line)) as [g|] eqn:Ec.
  - rewrite (check_connection_start_some now _ g w Ec).
    erewrite match_combined_row; eauto.
  - rewrite (check_connection_start_none now _ w Ec).
    erewrite match_combined_row; eauto.
Qed.

(** C6. A line that matches neither the telemetry pattern nor the
    connection-start pattern is dropped: [process_line] returns normally
    and the logger, both files and the console are as they were. *)
Theorem unrecognised_line_ignored (now : time) system_time line
    (w : World time) :
  Re.search combined_pattern (strip line) = None ->
  Re.search connection_pattern (strip line) = None ->
  process_line now system_time line w = Ok tt w.
Proof.
  intros Et Ec. unfold process_line. cbv zeta. unfold bind.
  rewrite (check_connection_start_none now _ w Ec).
  apply match_combined_none, Et.
Qed.

(** C10, as the code has it. The two checks of [process_line] are
    independent: a line that matches both patterns, its telemetry fields
    of at most 4300 digits each, replaces the anchor by the current wall
    time and appends a row to the sensor log, in the same call. *)
Theorem line_matching_both_shapes (now : time) system_time line g gs p q
    (w : World time) :
  Re.search connection_pattern (strip line) = Some g ->
  Re.search combined_pattern (strip line) = Some gs ->
  forallb within_limit gs = true ->
  csv_writer (self w) = Some p -> csv_file (self w) = Some q ->
  exists timestamp hr spo2 w',
    process_line now system_time line w = Ok tt w'
    /\ connection_start_time (self w') = Some now
    /\ files w'
       = append_row p [PStr system_time; PInt timestamp; PInt hr; PInt spo2]
                    (files w).
Proof.
  intros Ec Et Hlim Hp Hq.
  destruct (search_groups _ _ _ Et) as [Hlen Hall].
  destruct (three_groups gs Hlen Hall) as (g1 & g2 & g3 & -> & D1 & D2 & D3).
  exists (decimal g1), (decimal g2), (decimal g3).
  unfold process_line. cbv zeta. unfold bind at 1.
  rewrite (check_connection_start_some now _ g w Ec).
  erewrite match_combined_row; eauto.
Qed.

(** ** The clock anchor and the manual log *)

(** The row [log_manual_heart_rate] writes when the anchor is [t0]. *)
Lemma log_manual_with_anchor (now t0 : time) system_time hr device notes p q
    (w : World time) :
  connection_start_time (self w) = Some t0 ->
  manual_csv_writer (self w) = Some p -> manual_csv_file (self w) = Some q ->
  log_manual_heart_rate now system_time hr device notes w
  = Ok tt (mkWorld (self w)
             (append_row p [PStr system_time; PInt (elapsed_ms now t0);
                            PInt hr; PStr device; PStr notes] (files w))
             (trace w ++ [Print (MsgManualSaved
                                   (Some (PInt (elapsed_ms now t0)))
                                   hr device)])).
Proof.
  intros Ha Hp Hq. unfold log_manual_heart_rate, bind, get_self.
  rewrite Hp, Ha. unfold ret, writerow, flush. rewrite Hq. reflexivity.
Qed.

(** The row it writes when there is no anchor at all: the fallback
    branch warns and writes the integer 0. *)
Lemma log_manual_without_anchor (now : time) system_time hr device notes p q
    (w : World time) :
  connection_start_time (self w) = None ->
  manual_csv_writer (self w) = Some p -> manual_csv_file (self w) = Some q ->
  log_manual_heart_rate now system_time hr device notes w
  = Ok tt (mkWorld (self w)
             (append_row p [PStr system_time; PInt 0; PInt hr; PStr device;
                            PStr notes] (files w))
             ((trace w ++ [Print MsgWarnNotDetected])
              ++ [Print (MsgManualSaved (Some (PInt 0)) hr device)])).
Proof.
  intros Ha Hp Hq. unfold log_manual_heart_rate, bind, get_self.
  rewrite Hp, Ha. unfold print, emit, ret, writerow, flush. simpl.
  rewrite Hq. reflexivity.
Qed.

Lemma open_serial_sets_anchor ok (now0 : time) (w0 w1 : World time) :
  open_serial ok now0 w0 = Ok true w1 ->
  connection_start_time (self w1) = Some now0.
Proof.
  unfold open_serial, try_except, bind, get_self, print, emit, sleep,
    update_self, ret, raise.
  destruct ok; simpl.
  - destruct (enable_manual_input (self w0)); simpl;
      intros [= <-]; reflexivity.
  - discriminate.
Qed.

Lemma marker_sets_anchor (t : time) system_time line (w : World time) :
  marker_line line = true ->
  connection_start_time (self (perform (ActLine t system_time line) w))
  = Some t.
Proof.
  unfold marker_line. intros Hm. cbn [perform].
  destruct (Re.search connection_pattern (strip line)) as [g|] eqn:E;
    [|discriminate].
  unfold process_line. cbv zeta. unfold bind.
  rewrite (check_connection_start_some t _ g w E).
  set (w1 := mkWorld _ _ _).
  rewrite (steps_match_combined (fun l l' => l' = l)
             (fun l => eq_refl) (fun l1 l2 l3 H1 H2 => eq_trans H2 H1)
             system_time (strip line) w1).
  reflexivity.
Qed.

(** Actions that hand no marker to [process_line] keep the anchor and the
    manual log handles. *)
Lemma quiet_actions_keep_anchor (acts : list Action) (w : World time) :
  forallb (fun a => negb (resyncs a)) acts = true ->
  connection_start_time (self (after acts w))
  = connection_start_time (self w).
Proof.
  intros Hq.
  apply (steps_after_quiet
           (fun l l' => connection_start_time l' = connection_start_time l));
    auto; intros; congruence.
Qed.

(** C1, as the code has it. Whether or not a connection-start marker has
    been seen, the row written for a manual reading carries a plain
    integer in the estimated-timestamp column: the milliseconds elapsed
    since the current anchor, which is the instant the serial port was
    opened until a marker replaces it, or 0 when there is no anchor at
    all. No unsynced marker is written. *)
Theorem manual_row_timestamp_is_integer (now : time) system_time hr device
    notes p q (w : World time) :
  manual_csv_writer (self w) = Some p -> manual_csv_file (self w) = Some q ->
  exists w',
    log_manual_heart_rate now system_time hr device notes w = Ok tt w'
    /\ files w'
       = append_row p [PStr system_time; PInt (estimate_at now w); PInt hr;
                       PStr device; PStr notes] (files w).
Proof.
  intros Hp Hq. unfold estimate_at.
  destruct (connection_start_time (self w)) as [t0|] eqn:Ha.
  - eexists. split.
    + exact (log_manual_with_anchor now t0 system_time hr device notes p q w
               Ha Hp Hq).
    + reflexivity.
  - eexists. split.
    + exact (log_manual_without_anchor now system_time hr device notes p q w
               Ha Hp Hq).
    + reflexivity.
Qed.

(** C5. After a connection-start marker processed at [t1] and, later, one
    processed at [t2], with anything in between and with no further
    marker afterwards, the anchor is [t2] and the estimate for a manual
    reading at [now] is computed from [t2] alone; and as long as
    [cleanup] has not closed the manual log, that is the estimate in the
    row [log_manual_heart_rate] writes. (The order of [t1], [t2] and
    [now] plays no part.) *)
Theorem latest_marker_is_the_anchor (t1 t2 now : time) sys1 sys2 line1 line2
    (between later : list Action) system_time hr device notes p q
    (w : World time) :
  marker_line line1 = true -> marker_line line2 = true ->
  forallb (fun a => negb (resyncs a)) later = true ->
  let w' := after later
              (perform (ActLine t2 sys2 line2)
                 (after between (perform (ActLine t1 sys1 line1) w))) in
  connection_start_time (self w') = Some t2
  /\ estimate_at now w' = elapsed_ms now t2
  /\ (forallb (fun a => negb (closes a)) (between ++ later) = true ->
      manual_csv_writer (self w') = Some p ->
      manual_csv_file (self w') = Some q ->
      log_manual_heart_rate now system_time hr device notes w'
      = Ok tt (mkWorld (self w')
                 (append_row p [PStr system_time; PInt (elapsed_ms now t2);
                                PInt hr; PStr device; PStr notes] (files w'))
                 (trace w' ++ [Print (MsgManualSaved
                                        (Some (PInt (elapsed_ms now t2)))
                                        hr device)]))).
Proof.
  intros _ Hm2 Hq w'.
  assert (Ha : connection_start_time (self w') = Some t2).
  { unfold w'. rewrite (quiet_actions_keep_anchor later _ Hq).
    now apply marker_sets_anchor. }
  split; [exact Ha|]. split; [unfold estimate_at; now rewrite Ha|].
  intros _ Hp Hf.
  exact (log_manual_with_anchor now t2 system_time hr device notes p q w'
           Ha Hp Hf).
Qed.

(** C9. Once [open_serial] has succeeded, whatever the program does next
    (opening the logs, processing lines, turns of either loop, cleanup),
    the anchor is never [None], so the estimate is always computed from
    an anchor and [log_manual_heart_rate] never takes its
    not-yet-detected branch; and as long as [cleanup] has not closed the
    manual log, no warning is printed and the row it writes carries the
    integer computed from the anchor of that moment. *)
Theorem anchor_set_after_open_serial ok (now0 : time) (w0 w1 : World time)
    (acts : list Action) :
  open_serial ok now0 w0 = Ok true w1 ->
  exists t,
    connection_start_time (self (after acts w1)) = Some t
    /\ (forall now, estimate_at now (after acts w1) = elapsed_ms now t)
    /\ (forallb (fun a => negb (closes a)) acts = true ->
        forall now system_time hr device notes p q,
          manual_csv_writer (self (after acts w1)) = Some p ->
          manual_csv_file (self (after acts w1)) = Some q ->
          log_manual_heart_rate now system_time hr device notes
            (after acts w1)
          = Ok tt (mkWorld (self (after acts w1))
                     (append_row p [PStr system_time;
                                    PInt (elapsed_ms now t); PInt hr;
                                    PStr device; PStr notes]
                                 (files (after acts w1)))
                     (trace (after acts w1)
                      ++ [Print (MsgManualSaved
                                   (Some (PInt (elapsed_ms now t)))
                                   hr device)]))).
Proof.
  intros Hopen. apply open_serial_sets_anchor in Hopen.
  assert (Hs : is_Some (connection_start_time (self w1)) ->
               is_Some (connection_start_time (self (after acts w1)))).
  { apply (steps_after
             (fun l l' => is_Some (connection_start_time l) ->
                          is_Some (connection_start_time l')));
      intros; simpl; eauto. }
  destruct Hs as [t Ht]; [rewrite Hopen; eauto|]. exists t. split; [exact Ht|].
  split; [intros now; unfold estimate_at; now rewrite Ht|].
  intros _ now system_time hr device notes p q Hp Hq.
  exact (log_manual_with_anchor now t system_time hr device notes p q _
           Ht Hp Hq).
Qed.

(** ** The operator's prompt *)

Lemma log_manual_writes (now : time) system_time hr device notes p q
    (w : World time) :
  manual_csv_writer (self w) = Some p -> manual_csv_file (self w) = Some q ->
  exists tr,
    log_manual_heart_rate now system_time hr device notes w
    = Ok tt (mkWorld (self w)
               (append_row p [PStr system_time; PInt (estimate_at now w);
                              PInt hr; PStr device; PStr notes] (files w))
               tr).
Proof.
  intros Hp Hq. unfold estimate_at.
  destruct (connection_start_time (self w)) as [t0|] eqn:Ha; eexists.
  - exact (log_manual_with_anchor now t0 system_time hr device notes p q w
             Ha Hp Hq).
  - exact (log_manual_without_anchor now system_time hr device notes p q w
             Ha Hp Hq).
Qed.

(** One turn at the prompt with a non-empty line: the prompt is printed
    and the inner [try] runs on the fields of the line. *)
Lemma manual_iteration_typed raw (now : time) system_time (w : World time) :
  is_empty (strip raw) = false ->
  manual_iteration (Typed raw now system_time) w
  = try_except
      (bind
         (try_except
            (bind (index (split 2 (strip raw)) 0) (fun p0 =>
             bind (int_of p0) (fun hr_value =>
             log_manual_heart_rate now system_time hr_value
               (default "External" (split 2 (strip raw) !! 1%nat))
               (default "" (split 2 (strip raw) !! 2%nat)))))
            (fun e => match e with ValueError => true | _ => false end)
            (fun _ => print MsgInvalidInput))
         (fun _ => ret true))
      (fun e => match e with KeyboardInterrupt => true | _ => false end)
      (fun _ => bind (print MsgStopping) (fun _ =>
                bind (update_self (set_running false)) (fun _ => ret false)))
      (mkWorld (self w) (files w) (trace w ++ [Print MsgPrompt])).
Proof.
  intros Hne. unfold manual_iteration.
  unfold try_except at 1 3. unfold bind at 1. unfold print at 1, emit at 1.
  rewrite Hne. reflexivity.
Qed.

(** C7. A non-empty operator line is split into at most three fields:
    the first is the heart rate, the second the device label
    ("External" when absent), the third the whole rest of the line, white
    space inside it included (empty when absent); when the line is
    accepted, that is when [int] takes the first field (an integer of at
    most 4300 digits), the row written to the manual log carries exactly
    these. *)
Theorem operator_entry_fields (e : Entry) raw (now : time) system_time hr
    p q (w : World time) :
  entry_ok e = true -> strip raw = entry_text e ->
  PyStr.int (entry_hr e) = Some hr ->
  manual_csv_writer (self w) = Some p -> manual_csv_file (self w) = Some q ->
  split 2 (strip raw) = entry_fields e
  /\ (length (entry_fields e) <= 3)%nat
  /\ exists w',
       manual_iteration (Typed raw now system_time) w = Ok true w'
       /\ files w'
          = append_row p [PStr system_time; PInt (estimate_at now w);
                          PInt hr; PStr (entry_device e);
                          PStr (entry_notes e)] (files w).
Proof.
  intros Hok Htext Hint Hp Hq.
  assert (Hsplit : split 2 (strip raw) = entry_fields e).
  { rewrite Htext. now apply split_entry. }
  destruct (entry_fields_lookup e) as (H0 & H1 & H2 & Hlen).
  split; [exact Hsplit|]. split; [exact Hlen|].
  rewrite manual_iteration_typed
    by (rewrite Htext; now apply entry_text_not_empty).
  rewrite Hsplit, H1, H2.
  set (w1 := mkWorld (self w) (files w) (trace w ++ [Print MsgPrompt])).
  destruct (log_manual_writes now system_time hr (entry_device e)
              (entry_notes e) p q w1 Hp Hq) as [tr Hlog].
  eexists. split.
  - unfold try_except, bind, index, int_of, ret.
    rewrite H0. cbv beta iota. rewrite Hint. cbv beta iota.
    rewrite Hlog. reflexivity.
  - reflexivity.
Qed.

(** C8. A non-empty operator line whose first field is not an integer
    for [int] is reported and nothing else happens: the turn returns
    normally, no row is written, the logger is unchanged, and the loop
    goes on to prompt again. *)
Theorem malformed_entry_reprompts raw (now : time) system_time p0
    (rest : list Operator) (w : World time) :
  is_empty (strip raw) = false ->
  split 2 (strip raw) !! 0%nat = Some p0 -> PyStr.int p0 = None ->
  let w' := mkWorld (self w) (files w)
              ((trace w ++ [Print MsgPrompt]) ++ [Print MsgInvalidInput]) in
  manual_iteration (Typed raw now system_time) w = Ok true w'
  /\ (running (self w) = true ->
      manual_turns (Typed raw now system_time :: rest) w
      = manual_turns rest w').
Proof.
  intros Hne H0 Hint w'.
  assert (Hit : manual_iteration (Typed raw now system_time) w = Ok true w').
  { rewrite manual_iteration_typed by exact Hne.
    unfold try_except, bind, index, int_of, ret.
    rewrite H0. cbv beta iota. rewrite Hint. reflexivity. }
  split; [exact Hit|].
  intros Hrun. cbn [manual_turns]. unfold bind at 1. unfold get_self at 1.
  rewrite Hrun. unfold bind at 1. rewrite Hit. reflexivity.
Qed.

(** ** The log files *)

Lemma length_app_str (a b : string) :
  String.length (a +:+ b) = (String.length a + String.length b)%nat.
Proof.
  induction a as [|c a IH]; [reflexivity|].
  rewrite app_cons. simpl. now rewrite IH.
Qed.

Lemma manual_path_differs (output_path : Path) :
  manual_path output_path <> output_path.
Proof.
  destruct output_path as [d n]. unfold manual_path. simpl. intros [= H].
  apply (f_equal String.length) in H. rewrite length_app_str in H.
  simpl in H. lia.
Qed.

(** Writing rows through an open handle appends them, in order, and
    touches no other file. *)
Lemma write_rows_appends (p : Path) (new c : list Row) (w : World time) :
  files w !! p = Some c ->
  exists w',
    write_rows (Some p) new w = Ok tt w'
    /\ self w' = self w
    /\ files w' !! p = Some (c ++ new)
    /\ forall p', p' <> p -> files w' !! p' = files w !! p'.
Proof.
  revert c w. induction new as [|r new IH]; intros c w Hc.
  - exists w. rewrite app_nil_r. auto.
  - cbn [write_rows]. unfold bind, writerow, flush, ret.
    set (w1 := mkWorld (self w) (append_row p r (files w)) (trace w)).
    assert (Hc1 : files w1 !! p = Some (c ++ [r])).
    { unfold w1, append_row. simpl. rewrite Hc. simpl.
      apply lookup_insert_eq. }
    destruct (IH _ w1 Hc1) as (w' & Hw & Hs & Hf & Ho).
    exists w'. split; [exact Hw|]. split; [exact Hs|]. split.
    + rewrite Hf, <- app_assoc. reflexivity.
    + intros p' Hne. rewrite (Ho p' Hne). unfold w1, append_row. simpl.
      now apply lookup_insert_ne.
Qed.

(** What [open_csv] leaves on disk and in the logger when it succeeds:
    an existing file keeps its content, a missing one is created with the
    header as its only row. *)
Lemma open_csv_files can_open (w w' : World time) :
  open_csv can_open w = Ok true w' ->
  let out := output_file (self w) in
  files w' !! out
  = Some (match files w !! out with
          | Some rows => rows
          | None => [sensor_header]
          end)
  /\ csv_writer (self w') = Some out
  /\ (enable_manual_input (self w) = true ->
      files w' !! manual_path out
      = Some (match files w !! manual_path out with
              | Some rows => rows
              | None => [manual_header]
              end)
      /\ manual_csv_writer (self w') = Some (manual_path out)).
Proof.
  intros Hopen out. pose proof (manual_path_differs out) as Hdiff.
  revert Hopen.
  unfold open_csv, try_except, bind, get_self, path_exists, open_append,
    update_self, writerow, flush, print, emit, ret, raise, append_row.
  fold out. destruct (can_open out); simpl; [|discriminate].
  destruct (enable_manual_input (self w)) eqn:Hm; simpl.
  - destruct (can_open (manual_path out)); simpl.
    2: { destruct (files w !! out); simpl; discriminate. }
    assert (Hdiff' : out <> manual_path out) by congruence.
    destruct (files w !! out) as [rows|] eqn:Eo; simpl;
      rewrite !(lookup_insert_ne _ _ _ _ Hdiff');
      destruct (files w !! manual_path out) as [mrows|] eqn:Em;
      simpl; intros [= <-]; simpl;
      repeat split; intros; simplify_map_eq; reflexivity.
  - destruct (files w !! out) as [rows|] eqn:Eo;
      simpl; intros [= <-]; simpl;
      repeat split; intros; simplify_map_eq; try reflexivity; discriminate.
Qed.

(** C3, as the code has it. [open_csv] writes the header exactly when the
    path does not exist yet: a new file starts with the header as its only
    row, an existing file keeps its content whatever it is (also when it
    is empty) and gets no header. Rows appended afterwards follow that
    content in order; so a file that held a header and records ends up as
    that one header, the prior records, then the new ones. The same holds
    for the manual log when manual input is enabled. *)
Theorem header_written_iff_file_is_new can_open (w w' : World time)
    (new : list Row) :
  open_csv can_open w = Ok true w' ->
  let out := output_file (self w) in
  let content := match files w !! out with
                 | Some rows => rows
                 | None => [sensor_header]
                 end in
  let mcontent := match files w !! manual_path out with
                  | Some rows => rows
                  | None => [manual_header]
                  end in
  files w' !! out = Some content
  /\ files (world_of (write_rows (csv_writer (self w')) new w')) !! out
     = Some (content ++ new)
  /\ (enable_manual_input (self w) = true ->
      files w' !! manual_path out = Some mcontent
      /\ files (world_of (write_rows (manual_csv_writer (self w')) new w'))
           !! manual_path out
         = Some (mcontent ++ new)).
Proof.
  intros Hopen out content mcontent.
  destruct (open_csv_files can_open w w' Hopen) as (Hf & Hw & Hman).
  fold out in Hf, Hw, Hman. fold content in Hf. fold mcontent in Hman.
  split; [exact Hf|]. split.
  - rewrite Hw.
    destruct (write_rows_appends out new content w' Hf)
      as (w2 & -> & _ & H2 & _).
    exact H2.
  - intros Hm. destruct (Hman Hm) as [Hmf Hmw]. split; [exact Hmf|].
    rewrite Hmw.
    destruct (write_rows_appends (manual_path out) new mcontent w' Hmf)
      as (w2 & -> & _ & H2 & _).
    exact H2.
Qed.

(** ** The two polling loops on idle polls *)

Lemma idle_sleeps_app (t : list Event) (n : nat) :
  idle_sleeps (t ++ replicate n (Sleep IdleWait)) = (idle_sleeps t + n)%nat.
Proof.
  induction t as [|e t IH]; simpl.
  - induction n as [|n IHn]; simpl; [reflexivity | now rewrite IHn].
  - destruct e as [m|[]| |]; simpl; rewrite IH; reflexivity.
Qed.

(** In the simple mode of [run] a poll that finds no bytes goes straight
    to the next poll: nothing happens until the interrupt. *)
Lemma simple_loop_idle (n : nat) (w : World time) :
  running (self w) = true ->
  simple_loop (replicate n NoBytes) w = Raised KeyboardInterrupt w.
Proof.
  intros Hrun. induction n as [|n IH]; simpl;
    unfold bind, get_self; rewrite Hrun.
  - reflexivity.
  - exact IH.
Qed.

(** The loop of the manual mode sleeps once per such poll. *)
Lemma serial_monitor_loop_idle (n : nat) (w : World time) :
  running (self w) = true ->
  serial_monitor_loop (replicate n NoBytes) w
  = Ok tt (mkWorld (self w) (files w)
                   (trace w ++ replicate n (Sleep IdleWait))).
Proof.
  revert w. induction n as [|n IH]; intros w Hrun;
    cbn [replicate serial_monitor_loop];
    unfold bind at 1; unfold get_self at 1; rewrite Hrun.
  - destruct w. simpl. now rewrite app_nil_r.
  - unfold bind at 1.
    change (serial_iteration NoBytes w)
      with (Ok true (mkWorld (self w) (files w)
                             (trace w ++ [Sleep IdleWait]))).
    cbv beta iota. rewrite IH by exact Hrun.
    cbn [self files trace]. now rewrite <- app_assoc.
Qed.

(** ** More on [process_line] and the two logs *)

(** The whole effect of [process_line] when the sensor log is open: the
    anchor moves at a marker, then either a row is written or, at a field
    too long for [int], [ValueError] is raised and nothing is written. *)
Lemma process_line_effect (now : time) system_time line p q (w : World time) :
  csv_writer (self w) = Some p -> csv_file (self w) = Some q ->
  exists tr,
    process_line now system_time line w
    = (if oversized line then Raised ValueError else Ok tt)
        (mkWorld
           (if marker_line line
            then set_connection_start_time (Some now) (self w)
            else self w)
           (match telemetry_row system_time line with
            | Some row => append_row p row (files w)
            | None => files w
            end)
           tr).
Proof.
  intros Hp Hq. unfold process_line, marker_line, telemetry_row, oversized.
  cbv zeta. unfold bind at 1.
  destruct (Re.search connection_pattern (strip line)) as [g|] eqn:Ec.
  - rewrite (check_connection_start_some now _ g w Ec).
    set (w1 := mkWorld _ _ _).
    destruct (Re.search combined_pattern (strip line)) as [gs|] eqn:Et.
    + destruct (search_groups _ _ _ Et) as [Hlen Hall].
      destruct (three_groups gs Hlen Hall)
        as (g1 & g2 & g3 & -> & D1 & D2 & D3).
      destruct (forallb within_limit [g1; g2; g3]) eqn:Hlim; cbn [negb].
      * rewrite (match_combined_row system_time _ g1 g2 g3 p q w1 Et D1 D2 D3
                   Hlim Hp Hq).
        eexists. reflexivity.
      * rewrite (match_combined_oversized system_time _ g1 g2 g3 w1 Et
                   D1 D2 D3 Hlim).
        eexists. reflexivity.
    + rewrite (match_combined_none system_time _ w1 Et).
      eexists. reflexivity.
  - rewrite (check_connection_start_none now _ w Ec).
    destruct (Re.search combined_pattern (strip line)) as [gs|] eqn:Et.
    + destruct (search_groups _ _ _ Et) as [Hlen Hall].
      destruct (three_groups gs Hlen Hall)
        as (g1 & g2 & g3 & -> & D1 & D2 & D3).
      destruct (forallb within_limit [g1; g2; g3]) eqn:Hlim; cbn [negb].
      * rewrite (match_combined_row system_time _ g1 g2 g3 p q w Et D1 D2 D3
                   Hlim Hp Hq).
        eexists. reflexivity.
      * rewrite (match_combined_oversized system_time _ g1 g2 g3 w Et
                   D1 D2 D3 Hlim).
        destruct w. eexists. reflexivity.
    + rewrite (match_combined_none system_time _ w Et).
      destruct w. eexists. reflexivity.
Qed.

(** X1. With the sensor log open, [process_line] raises on one kind of
    line only: a telemetry line with a field of more than 4300 digits, on
    which [int] raises [ValueError]. On every other line it returns
    normally: the groups of a match are runs of digits, so [group] cannot
    fail and [int] fails for their length only. *)
Theorem process_line_raises_at_oversized_fields_only (now : time) system_time
    line p q (w : World time) :
  csv_writer (self w) = Some p -> csv_file (self w) = Some q ->
  exists w',
    process_line now system_time line w
    = if oversized line then Raised ValueError w' else Ok tt w'.
Proof.
  intros Hp Hq.
  destruct (process_line_effect now system_time line p q w Hp Hq) as [tr H].
  eexists. rewrite H. destruct (oversized line); reflexivity.
Qed.

Lemma read_line_effect line (now : time) system_time p q (w : World time) :
  csv_writer (self w) = Some p -> csv_file (self w) = Some q ->
  exists tr,
    read_line line now system_time w
    = (if oversized line then Raised ValueError else Ok tt)
        (mkWorld
           (if marker_line line
            then set_connection_start_time (Some now) (self w)
            else self w)
           (match telemetry_row system_time line with
            | Some row => append_row p row (files w)
            | None => files w
            end)
           tr).
Proof.
  intros Hp Hq. unfold read_line.
  destruct (is_empty line) eqn:He.
  - apply is_empty_true in He. subst line. destruct w.
    eexists. reflexivity.
  - unfold bind, print, emit.
    set (w1 := mkWorld (self w) (files w) _).
    destruct (process_line_effect now system_time line p q w1 Hp Hq)
      as [tr H].
    rewrite H. destruct (oversized line); eexists; reflexivity.
Qed.

(** One pass of [serial_monitor_loop] that finds a line: the loop goes on
    unless [process_line] raised. *)
Lemma serial_iteration_bytes line (now : time) system_time p q
    (w : World time) :
  csv_writer (self w) = Some p -> csv_file (self w) = Some q ->
  exists tr,
    serial_iteration (Bytes line now system_time) w
    = Ok (negb (oversized line))
        (mkWorld
           (if marker_line line
            then set_connection_start_time (Some now) (self w)
            else self w)
           (match telemetry_row system_time line with
            | Some row => append_row p row (files w)
            | None => files w
            end)
           tr).
Proof.
  intros Hp Hq. unfold serial_iteration, try_except, bind.
  destruct (read_line_effect line now system_time p q w Hp Hq) as [tr ->].
  destruct (oversized line); cbn [negb is_Exception].
  - unfold get_self, print, emit, ret. cbn [self files trace].
    destruct (running _); eexists; reflexivity.
  - eexists. reflexivity.
Qed.

Lemma split_of_empty (s : string) :
  is_empty (strip s) = true -> split 2 (strip s) = [].
Proof.
  intros He. apply is_empty_true in He. rewrite He. reflexivity.
Qed.

Lemma split_of_nonempty (s : string) :
  is_empty (strip s) = false -> exists p0, split 2 (strip s) !! 0%nat = Some p0.
Proof.
  intros He. destruct (stripped_line_has_shape s He) as (e & Hok & Htext).
  rewrite <- Htext, (split_entry e Hok).
  exists (entry_hr e). apply entry_fields_lookup.
Qed.

(** What one action does to the logger object and to the disk while both
    logs are open. *)
Lemma perform_effect (a : Action) out mp (w : World time) :
  logs_open out mp (self w) -> opens_csv a = false ->
  logs_open out mp (self (perform a w))
  /\ connection_start_time (self (perform a w))
     = anchor_after a (connection_start_time (self w))
  /\ files (perform a w)
     = match line_of a with
       | Some (_, system_time, line) =>
           match telemetry_row system_time line with
           | Some row => append_row out row (files w)
           | None => files w
           end
       | None =>
           match entry_of a with
           | Some (now, system_time, hr, device, notes) =>
               append_row mp [PStr system_time; PInt (estimate_at now w);
                              PInt hr; PStr device; PStr notes] (files w)
           | None => files w
           end
       end.
Proof.
  intros (Hw & Hf & Hmw & Hmf) Hno.
  destruct a as [c|now st line|now st hr d n|o|p|p|]; try discriminate Hno;
    cbn [perform line_of entry_of anchor_after].
  - (* process_line *)
    destruct (process_line_effect now st line out out w Hw Hf) as [tr ->].
    destruct (oversized line); cbn [world_of self files]; unfold logs_open;
      destruct (marker_line line); auto.
  - (* log_manual_heart_rate *)
    destruct (log_manual_writes now st hr d n mp mp w Hmw Hmf) as [tr ->].
    cbn [world_of self files]. unfold logs_open. auto.
  - (* a turn at the prompt *)
    destruct o as [raw now st|]; cbn [line_of entry_of anchor_after].
    + destruct (is_empty (strip raw)) eqn:He.
      * rewrite (split_of_empty raw He). cbn [lookup list_lookup].
        unfold manual_iteration, try_except, bind, print, emit, update_self,
          ret. rewrite He. cbn [world_of self files]. unfold logs_open. auto.
      * rewrite (manual_iteration_typed raw now st w He).
        destruct (split_of_nonempty raw He) as [p0 H0]. rewrite H0.
        set (w1 := mkWorld (self w) (files w) _).
        unfold try_except, bind, index, int_of, ret. rewrite H0.
        cbv beta iota.
        destruct (PyStr.int p0) as [hr|] eqn:Hint; cbv beta iota.
        -- destruct (log_manual_writes now st hr
                       (default "External" (split 2 (strip raw) !! 1%nat))
                       (default "" (split 2 (strip raw) !! 2%nat))
                       mp mp w1 Hmw Hmf) as [tr ->].
           cbn [world_of self files]. unfold logs_open. auto.
        -- cbn [world_of self files]. unfold logs_open. auto.
    + cbn [world_of self files]. unfold logs_open. auto.
  - (* an iteration of serial_monitor_loop *)
    destruct p as [|line now st|]; cbn [line_of entry_of anchor_after].
    + cbn [world_of self files]. unfold logs_open. auto.
    + destruct (serial_iteration_bytes line now st out out w Hw Hf)
        as [tr ->].
      cbn [world_of self files]. unfold logs_open.
      destruct (marker_line line); auto.
    + unfold serial_iteration, try_except, bind, raise, get_self, print,
        emit, ret. cbn [is_Exception].
      destruct (running (self w)); cbn [world_of self files];
        unfold logs_open; auto.
  - (* an iteration of the simple loop *)
    destruct p as [|line now st|]; cbn [line_of entry_of anchor_after].
    + cbn [world_of self files]. unfold logs_open. auto.
    + unfold simple_iteration.
      destruct (read_line_effect line now st out out w Hw Hf) as [tr ->].
      destruct (oversized line); cbn [world_of self files];
        unfold logs_open; destruct (marker_line line); auto.
    + cbn [world_of self files]. unfold logs_open. auto.
  - (* cleanup *)
    unfold cleanup, bind, get_self, print, emit, ret. rewrite Hf, Hmf.
    destruct (serial_conn (self w)); cbn [world_of self files];
      unfold logs_open; auto.
Qed.

Lemma append_row_lookup (p : Path) (row : Row) (fs : gmap Path (list Row)) :
  append_row p row fs !! p = Some (default [] (fs !! p) ++ [row]).
Proof. unfold append_row. apply lookup_insert_eq. Qed.

Lemma append_row_lookup_ne (p p' : Path) (row : Row)
    (fs : gmap Path (list Row)) :
  p <> p' -> append_row p row fs !! p' = fs !! p'.
Proof. intros Hne. unfold append_row. now apply lookup_insert_ne. Qed.

Lemma line_is_no_entry (a : @Action time) x :
  line_of a = Some x -> entry_of a = None.
Proof. destruct a as [| | |[]|[]|[]|]; simpl; congruence. Qed.

(** Both logs after any sequence of actions, as functions of that
    sequence. *)
Lemma after_effect (acts : list Action) out mp (w : World time)
    (rows mrows : list Row) :
  logs_open out mp (self w) -> out <> mp ->
  forallb (fun a => negb (opens_csv a)) acts = true ->
  files w !! out = Some rows -> files w !! mp = Some mrows ->
  logs_open out mp (self (after acts w))
  /\ files (after acts w) !! out = Some (rows ++ sensor_rows acts)
  /\ files (after acts w) !! mp
     = Some (mrows ++ manual_rows (connection_start_time (self w)) acts)
  /\ forall p, p <> out -> p <> mp ->
               files (after acts w) !! p = files w !! p.
Proof.
  intros Hopen Hne. revert w rows mrows Hopen.
  induction acts as [|a acts IH]; intros w rows mrows Hopen Hacts Hr Hm.
  - cbn [after fold_left sensor_rows manual_rows]. rewrite !app_nil_r. auto.
  - change (after (a :: acts) w) with (after acts (perform a w)).
    cbn [forallb] in Hacts. apply andb_true_iff in Hacts as [Ha Hacts].
    apply negb_true_iff in Ha.
    destruct (perform_effect a out mp w Hopen Ha) as (Hopen' & Hanchor & Hf).
    cbn [sensor_rows manual_rows]. rewrite <- Hanchor.
    destruct (line_of a) as [[[now st] line]|] eqn:El.
    + rewrite (line_is_no_entry a _ El).
      destruct (telemetry_row st line) as [row|] eqn:Et.
      * assert (Hr' : files (perform a w) !! out = Some (rows ++ [row])).
        { rewrite Hf, append_row_lookup, Hr. reflexivity. }
        assert (Hm' : files (perform a w) !! mp = Some mrows).
        { rewrite Hf, append_row_lookup_ne by exact Hne. exact Hm. }
        destruct (IH _ _ _ Hopen' Hacts Hr' Hm') as (I1 & I2 & I3 & I4).
        split; [exact I1|]. split; [now rewrite I2, <- app_assoc|].
        split; [exact I3|].
        intros p Hp1 Hp2. rewrite (I4 p Hp1 Hp2), Hf.
        apply append_row_lookup_ne. congruence.
      * rewrite <- Hf in Hr, Hm.
        destruct (IH _ _ _ Hopen' Hacts Hr Hm) as (I1 & I2 & I3 & I4).
        split; [exact I1|]. split; [exact I2|]. split; [exact I3|].
        intros p Hp1 Hp2. rewrite (I4 p Hp1 Hp2), Hf. reflexivity.
    + destruct (entry_of a) as [[[[[now st] hr] d] n]|] eqn:Ee.
      * assert (Hr' : files (perform a w) !! out = Some rows).
        { rewrite Hf, append_row_lookup_ne by congruence. exact Hr. }
        set (row := [PStr st; PInt (estimate_at now w); PInt hr; PStr d;
                     PStr n]) in *.
        assert (Hm' : files (perform a w) !! mp = Some (mrows ++ [row])).
        { rewrite Hf, append_row_lookup, Hm. reflexivity. }
        destruct (IH _ _ _ Hopen' Hacts Hr' Hm') as (I1 & I2 & I3 & I4).
        split; [exact I1|]. split; [exact I2|].
        split; [rewrite I3, <- app_assoc; reflexivity|].
        intros p Hp1 Hp2. rewrite (I4 p Hp1 Hp2), Hf.
        apply append_row_lookup_ne. congruence.
      * rewrite <- Hf in Hr, Hm.
        destruct (IH _ _ _ Hopen' Hacts Hr Hm) as (I1 & I2 & I3 & I4).
        split; [exact I1|]. split; [exact I2|]. split; [exact I3|].
        intros p Hp1 Hp2. rewrite (I4 p Hp1 Hp2), Hf. reflexivity.
Qed.

(** X2. While both logs are open and before [cleanup], whatever the two
    loops do and in whatever order, the sensor log is its old content
    followed by the rows of the telemetry lines in the order they
    arrived: entries at the prompt, lines that do not match, lines with a
    field too long for [int] and failing polls add nothing to it. *)
Theorem sensor_log_in_arrival_order (acts : list Action) out mp
    (w : World time) (rows mrows : list Row) :
  logs_open out mp (self w) -> out <> mp ->
  forallb (fun a => negb (opens_csv a)) acts = true ->
  forallb (fun a => negb (closes a)) acts = true ->
  files w !! out = Some rows -> files w !! mp = Some mrows ->
  files (after acts w) !! out = Some (rows ++ sensor_rows acts).
Proof.
  intros Ho Hne Ha _ Hr Hm.
  destruct (after_effect acts out mp w rows mrows Ho Hne Ha Hr Hm)
    as (_ & I2 & _).
  exact I2.
Qed.

(** X3. Under the same conditions the manual log is its old content
    followed by one row per accepted reading (its first field an integer
    for [int], of at most 4300 digits), in the order entered, each with
    the estimate taken from the anchor in force at that moment: the
    anchor at the start, replaced by the time of each marker line seen
    since. *)
Theorem manual_log_in_entry_order (acts : list Action) out mp
    (w : World time) (rows mrows : list Row) :
  logs_open out mp (self w) -> out <> mp ->
  forallb (fun a => negb (opens_csv a)) acts = true ->
  forallb (fun a => negb (closes a)) acts = true ->
  files w !! out = Some rows -> files w !! mp = Some mrows ->
  files (after acts w) !! mp
  = Some (mrows ++ manual_rows (connection_start_time (self w)) acts).
Proof.
  intros Ho Hne Ha _ Hr Hm.
  destruct (after_effect acts out mp w rows mrows Ho Hne Ha Hr Hm)
    as (_ & _ & I3 & _).
  exact I3.
Qed.

(** X4. While both logs are open, whatever the two loops and [cleanup]
    do and in whatever order, no path other than the two logs is written,
    created or removed, and the logger keeps both handles ([cleanup]
    closes the files and does not reset the attributes). *)
Theorem only_the_two_logs_are_written (acts : list Action) out mp
    (w : World time) (rows mrows : list Row) :
  logs_open out mp (self w) -> out <> mp ->
  forallb (fun a => negb (opens_csv a)) acts = true ->
  files w !! out = Some rows -> files w !! mp = Some mrows ->
  logs_open out mp (self (after acts w))
  /\ forall p, p <> out -> p <> mp ->
               files (after acts w) !! p = files w !! p.
Proof.
  intros Ho Hne Ha Hr Hm.
  destruct (after_effect acts out mp w rows mrows Ho Hne Ha Hr Hm)
    as (I1 & _ & _ & I4).
  split; assumption.
Qed.

(** ** What a computation may put on the trace

    [emits m] says that [m] only adds events to the trace, all of them
    satisfying [P], whether it returns or raises. *)

Section Emits.

Variable P : Event -> Prop.

Definition emits {A} (m : M time A) : Prop :=
  forall w, exists evs,
    trace (world_of (m w)) = trace w ++ evs /\ Forall P evs.

Lemma emits_nothing {A} (m : M time A) :
  (forall w, trace (world_of (m w)) = trace w) -> emits m.
Proof.
  intros H w. exists []. rewrite app_nil_r. split; [apply H | constructor].
Qed.

Lemma emits_ret {A} (a : A) : emits (ret a).
Proof. now apply emits_nothing. Qed.

Lemma emits_raise {A} (e : Exn) : emits (@raise time A e).
Proof. now apply emits_nothing. Qed.

Lemma emits_get_self : emits get_self.
Proof. now apply emits_nothing. Qed.

Lemma emits_update_self f : emits (update_self f).
Proof. now apply emits_nothing. Qed.

Lemma emits_path_exists (p : Path) : emits (path_exists p).
Proof. now apply emits_nothing. Qed.

Lemma emits_open_append can_open (p : Path) : emits (open_append can_open p).
Proof.
  apply emits_nothing. intros w. unfold open_append.
  destruct (can_open p); reflexivity.
Qed.

Lemma emits_writerow writer (row : Row) : emits (writerow writer row).
Proof. apply emits_nothing. intros w. destruct writer; reflexivity. Qed.

Lemma emits_flush (file : option Path) : emits (flush file).
Proof. apply emits_nothing. intros w. destruct file; reflexivity. Qed.

Lemma emits_int_of (s : string) : emits (int_of s).
Proof.
  apply emits_nothing. intros w. unfold int_of.
  destruct (PyStr.int s); reflexivity.
Qed.

Lemma emits_index parts (i : nat) : emits (index parts i).
Proof.
  apply emits_nothing. intros w. unfold index.
  destruct (parts !! i); reflexivity.
Qed.

Lemma emits_emit (e : Event) : P e -> emits (emit e).
Proof.
  intros He w. exists [e]. split; [reflexivity|]. now constructor.
Qed.

Lemma emits_bind {A B} (m : M time A) (f : A -> M time B) :
  emits m -> (forall a, emits (f a)) -> emits (bind m f).
Proof.
  intros Hm Hf w. unfold bind. destruct (Hm w) as (e1 & H1 & P1).
  destruct (m w) as [a w'|e w']; simpl in *.
  - destruct (Hf a w') as (e2 & H2 & P2). exists (e1 ++ e2).
    rewrite H2, H1, app_assoc. split; [reflexivity|].
    apply Forall_app; auto.
  - exists e1. auto.
Qed.

Lemma emits_try_except {A} (m : M time A) handles h :
  emits m -> (forall e, emits (h e)) -> emits (try_except m handles h).
Proof.
  intros Hm Hh w. unfold try_except. destruct (Hm w) as (e1 & H1 & P1).
  destruct (m w) as [a w'|e w']; simpl in *.
  - exists e1. auto.
  - destruct (handles e).
    + destruct (Hh e w') as (e2 & H2 & P2). exists (e1 ++ e2).
      rewrite H2, H1, app_assoc. split; [reflexivity|].
      apply Forall_app; auto.
    + exists e1. auto.
Qed.

Hypothesis P_print : forall m, P (Print m).
Hypothesis P_sleep : forall d, P (Sleep d).

Ltac emits_step :=
  lazymatch goal with
  | |- emits (ret _) => apply emits_ret
  | |- emits (raise _) => apply emits_raise
  | |- emits get_self => apply emits_get_self
  | |- emits (update_self _) => apply emits_update_self
  | |- emits (emit (Print _)) => apply emits_emit, P_print
  | |- emits (emit (Sleep _)) => apply emits_emit, P_sleep
  | |- emits (path_exists _) => apply emits_path_exists
  | |- emits (open_append _ _) => apply emits_open_append
  | |- emits (writerow _ _) => apply emits_writerow
  | |- emits (flush _) => apply emits_flush
  | |- emits (int_of _) => apply emits_int_of
  | |- emits (index _ _) => apply emits_index
  | |- emits (bind _ _) => apply emits_bind; [|intros ?]
  | |- emits (try_except _ _ _) => apply emits_try_except; [|intros ?]
  | |- emits (match ?x with _ => _ end) => destruct x
  | |- emits (let _ := _ in _) => cbv zeta
  end.

Ltac emits_tac := repeat emits_step.

Lemma emits_process_line now system_time line :
  emits (process_line now system_time line).
Proof.
  unfold process_line, check_connection_start, match_combined, print.
  emits_tac.
Qed.

Lemma emits_read_line line now system_time :
  emits (read_line line now system_time).
Proof. unfold read_line, print. emits_tac. apply emits_process_line. Qed.

Lemma emits_log_manual_heart_rate now system_time hr device notes :
  emits (log_manual_heart_rate now system_time hr device notes).
Proof. unfold log_manual_heart_rate, print. emits_tac. Qed.

Lemma emits_manual_iteration (o : Operator) : emits (manual_iteration o).
Proof.
  unfold manual_iteration, print.
  emits_tac; apply emits_log_manual_heart_rate.
Qed.

Lemma emits_serial_iteration (p : Poll) : emits (serial_iteration p).
Proof.
  unfold serial_iteration, print, sleep. emits_tac; apply emits_read_line.
Qed.

Lemma emits_simple_iteration (p : Poll) : emits (simple_iteration p).
Proof. unfold simple_iteration. emits_tac. apply emits_read_line. Qed.

Lemma emits_simple_loop (polls : list Poll) : emits (simple_loop polls).
Proof.
  induction polls as [|p polls IH]; cbn [simple_loop]; unfold sleep;
    emits_tac.
  - apply emits_simple_iteration.
  - exact IH.
Qed.

Lemma emits_serial_monitor_loop (polls : list Poll) :
  emits (serial_monitor_loop polls).
Proof.
  induction polls as [|p polls IH]; cbn [serial_monitor_loop]; emits_tac.
  - apply emits_serial_iteration.
  - exact IH.
Qed.

Lemma emits_manual_turns (inputs : list Operator) :
  emits (manual_turns inputs).
Proof.
  induction inputs as [|o inputs IH]; cbn [manual_turns]; unfold print;
    emits_tac.
  - apply emits_manual_iteration.
  - exact IH.
Qed.

Lemma emits_threads (ticks : list Tick) (alive : bool) : emits (threads ticks alive).
Proof.
  revert alive. induction ticks as [|t ticks IH]; intros alive;
    cbn [threads]; unfold print.
  - emits_tac.
  - apply emits_bind; [apply emits_get_self|]. intros s.
    destruct t as [p|o].
    + destruct (alive && running s).
      * apply emits_bind; [apply emits_serial_iteration|]. intros c.
        apply IH.
      * apply IH.
    + destruct (running s); [|apply emits_ret].
      apply emits_bind; [apply emits_manual_iteration|]. intros c.
      destruct c; [apply IH | apply emits_ret].
Qed.

Lemma emits_open_serial ok now : emits (open_serial ok now).
Proof. unfold open_serial, print, sleep. emits_tac. Qed.

Lemma emits_open_csv can_open : emits (open_csv can_open).
Proof. unfold open_csv, print. emits_tac. Qed.

End Emits.

(** ** The loops and the logger object *)

Section LoopSteps.

Variable Rl : Logger time -> Logger time -> Prop.
Hypothesis Rl_refl : forall l, Rl l l.
Hypothesis Rl_trans : forall l1 l2 l3, Rl l1 l2 -> Rl l2 l3 -> Rl l1 l3.
Hypothesis Rl_anchor :
  forall t l, Rl l (set_connection_start_time (Some t) l).
Hypothesis Rl_running : forall b l, Rl l (set_running b l).

Lemma steps_simple_loop (polls : list Poll) : steps Rl (simple_loop polls).
Proof.
  induction polls as [|p polls IH]; cbn [simple_loop];
    (apply (steps_bind Rl Rl_trans); [apply (steps_get_self Rl Rl_refl)|]);
    intros s; destruct (running s);
    try apply (steps_emit Rl Rl_refl).
  - apply (steps_raise Rl Rl_refl).
  - apply (steps_bind Rl Rl_trans).
    + apply (steps_simple_iteration Rl Rl_refl Rl_trans Rl_anchor).
    + intros _. exact IH.
Qed.

Lemma steps_serial_monitor_loop (polls : list Poll) :
  steps Rl (serial_monitor_loop polls).
Proof.
  induction polls as [|p polls IH]; cbn [serial_monitor_loop];
    (apply (steps_bind Rl Rl_trans); [apply (steps_get_self Rl Rl_refl)|]);
    intros s; destruct (running s);
    try apply (steps_ret Rl Rl_refl).
  apply (steps_bind Rl Rl_trans).
  - apply (steps_serial_iteration Rl Rl_refl Rl_trans Rl_anchor).
  - intros c. destruct c; [exact IH | apply (steps_ret Rl Rl_refl)].
Qed.

Lemma steps_threads (ticks : list Tick) (alive : bool) :
  steps Rl (threads ticks alive).
Proof.
  revert alive. induction ticks as [|t ticks IH]; intros alive;
    cbn [threads];
    (apply (steps_bind Rl Rl_trans); [apply (steps_get_self Rl Rl_refl)|]);
    intros s.
  - destruct (running s); [|apply (steps_ret Rl Rl_refl)].
    apply (steps_bind Rl Rl_trans); [apply (steps_emit Rl Rl_refl)|].
    intros _. apply (steps_raise Rl Rl_refl).
  - destruct t as [p|o].
    + destruct (alive && running s); [|apply IH].
      apply (steps_bind Rl Rl_trans).
      * apply (steps_serial_iteration Rl Rl_refl Rl_trans Rl_anchor).
      * intros c. apply IH.
    + destruct (running s); [|apply (steps_ret Rl Rl_refl)].
      apply (steps_bind Rl Rl_trans).
      * apply (steps_manual_iteration Rl Rl_refl Rl_trans Rl_running).
      * intros c. destruct c; [apply IH | apply (steps_ret Rl Rl_refl)].
Qed.

End LoopSteps.

(** ** A session of [run] *)

Lemma open_serial_ok (now : time) (w : World time) :
  open_serial true now w
  = Ok true (mkWorld (connected now (self w)) (files w)
               (trace w ++ opening (self w))).
Proof.
  unfold open_serial, try_except, bind, get_self, print, sleep, emit,
    update_self, ret, opening, connected.
  cbn [self files trace].
  destruct (enable_manual_input (self w)); cbn [self files trace];
    rewrite <- ?app_assoc; reflexivity.
Qed.

Lemma open_serial_fails (now : time) (w : World time) :
  open_serial false now w
  = Ok false (mkWorld (self w) (files w)
                (trace w ++ [Print (MsgOpening (port (self w)) (baud (self w)));
                             Print MsgOpenFailed])).
Proof.
  unfold open_serial, try_except, bind, get_self, print, sleep, emit,
    update_self, ret, raise.
  cbn [self files trace]. rewrite <- app_assoc. reflexivity.
Qed.

(** X5. When the port cannot be opened, [run] reports it and returns
    normally: the logger has no handle and no anchor, the disk is
    untouched, nothing is closed and [cleanup] is not run. *)
Theorem run_without_port (env : Session) (w : World time) :
  port_ok env = false ->
  run env w
  = Ok tt (mkWorld (self w) (files w)
             (trace w ++ [Print (MsgOpening (port (self w)) (baud (self w)));
                          Print MsgOpenFailed])).
Proof.
  intros Hp. unfold run. rewrite Hp. unfold bind at 1.
  rewrite open_serial_fails. reflexivity.
Qed.

Lemma open_csv_sensor_fails can_open (w : World time) :
  can_open (output_file (self w)) = false ->
  open_csv can_open w
  = Ok false (mkWorld (self w) (files w) (trace w ++ [Print MsgCsvFailed])).
Proof.
  intros Hc.
  unfold open_csv, try_except, bind, get_self, path_exists, open_append.
  cbv zeta. rewrite Hc. reflexivity.
Qed.

(** X6. When the port opens but the sensor log cannot be opened, [run]
    closes the port and returns normally; the disk is untouched and
    [cleanup] is not run. *)
Theorem run_without_sensor_log (env : Session) (w : World time) :
  port_ok env = true ->
  can_open env (output_file (self w)) = false ->
  run env w
  = Ok tt (mkWorld (connected (opened_at env) (self w)) (files w)
             (trace w ++ opening (self w)
              ++ [Print MsgCsvFailed; CloseSerial])).
Proof.
  intros Hp Hc. unfold run. rewrite Hp. unfold bind at 1.
  rewrite open_serial_ok. cbn [negb]. unfold bind at 1.
  rewrite open_csv_sensor_fails by exact Hc.
  cbn [negb]. unfold emit. cbn [self files trace].
  rewrite <- !app_assoc. reflexivity.
Qed.

Lemma cleanup_effect (w : World time) :
  cleanup w
  = Ok tt (mkWorld (self w) (files w) (trace w ++ cleanup_events (self w))).
Proof.
  unfold cleanup, cleanup_events, bind, get_self, print, emit, ret.
  destruct (csv_file (self w)), (manual_csv_file (self w)),
    (serial_conn (self w)); cbn [self files trace];
    rewrite <- ?app_assoc; reflexivity.
Qed.

Lemma try_finally_cleanup {A} (m : M time A) (w : World time) :
  world_of (try_finally m cleanup w)
  = mkWorld (self (world_of (m w))) (files (world_of (m w)))
      (trace (world_of (m w)) ++ cleanup_events (self (world_of (m w)))).
Proof.
  unfold try_finally. destruct (m w) as [a w'|e w'];
    rewrite cleanup_effect; reflexivity.
Qed.

Lemma open_csv_manual_fails can_open (w : World time) :
  enable_manual_input (self w) = true ->
  can_open (output_file (self w)) = true ->
  can_open (manual_path (output_file (self w))) = false ->
  let out := output_file (self w) in
  exists w',
    open_csv can_open w = Ok false w'
    /\ self w' = set_csv (Some out) (self w)
    /\ files w' !! out
       = Some (match files w !! out with
               | Some rows => rows
               | None => [sensor_header]
               end)
    /\ (forall p, p <> out -> files w' !! p = files w !! p)
    /\ exists evs,
         trace w' = trace w ++ evs ++ [Print MsgCsvFailed]
         /\ Forall (fun e => is_close e = false) evs.
Proof.
  intros Hm Hc Hmc out.
  unfold open_csv, try_except, bind, get_self, path_exists, open_append,
    update_self, writerow, flush, print, emit, ret, raise, append_row.
  fold out in Hc, Hmc |- *. rewrite Hc. cbn [self files trace]. rewrite Hm.
  destruct (files w !! out) as [rows|] eqn:Eo; simpl; fold out;
    rewrite Hmc; simpl; eexists; (split; [reflexivity|]); simpl;
    (split; [reflexivity|]);
    (split; [simplify_map_eq; reflexivity|]);
    (split; [intros p Hne; simplify_map_eq; reflexivity|]).
  - exists [Print (MsgAppending out)]. split.
    + rewrite <- app_assoc. reflexivity.
    + repeat constructor.
  - exists [Print (MsgCreated out)]. split.
    + rewrite <- app_assoc. reflexivity.
    + repeat constructor.
Qed.

(** X7. In manual mode, when the sensor log opens but the manual log
    cannot be opened, [run] gives up and returns normally. By then the
    sensor log exists (with its header when it was new) and the logger
    holds its handle; the port is closed, the sensor file never is, and
    no other path is touched. *)
Theorem run_without_manual_log (env : Session) (w : World time) :
  port_ok env = true ->
  enable_manual_input (self w) = true ->
  can_open env (output_file (self w)) = true ->
  can_open env (manual_path (output_file (self w))) = false ->
  let out := output_file (self w) in
  exists w',
    run env w = Ok tt w'
    /\ csv_file (self w') = Some out
    /\ files w' !! out
       = Some (match files w !! out with
               | Some rows => rows
               | None => [sensor_header]
               end)
    /\ (forall p, p <> out -> files w' !! p = files w !! p)
    /\ exists evs,
         trace w' = trace w ++ evs ++ [Print MsgCsvFailed; CloseSerial]
         /\ Forall (fun e => is_close e = false) evs.
Proof.
  intros Hp Hm Hc Hmc out. unfold run. rewrite Hp. unfold bind at 1.
  rewrite open_serial_ok. cbn [negb]. unfold bind at 1.
  set (w1 := mkWorld (connected (opened_at env) (self w)) (files w)
               (trace w ++ opening (self w))).
  destruct (open_csv_manual_fails (can_open env) w1 Hm Hc Hmc)
    as (w' & -> & Hs & Hf & Ho & evs & Ht & Hev).
  cbn [negb]. unfold emit. eexists. split; [reflexivity|].
  cbn [self files trace]. split; [rewrite Hs; reflexivity|].
  split; [exact Hf|]. split; [exact Ho|].
  exists (opening (self w) ++ evs). split.
  - rewrite Ht. unfold w1. cbn [trace]. rewrite <- !app_assoc. reflexivity.
  - apply Forall_app. split; [|exact Hev].
    unfold opening. destruct (enable_manual_input (self w));
      repeat constructor.
Qed.

Lemma open_csv_ok can_open (w : World time) :
  can_open (output_file (self w)) = true ->
  (enable_manual_input (self w) = true ->
   can_open (manual_path (output_file (self w))) = true) ->
  let out := output_file (self w) in
  exists w',
    open_csv can_open w = Ok true w'
    /\ self w' = (if enable_manual_input (self w)
                  then set_manual_csv (Some (manual_path out))
                         (set_csv (Some out) (self w))
                  else set_csv (Some out) (self w)).
Proof.
  intros Hc Hmc out.
  unfold open_csv, try_except, bind, get_self, path_exists, open_append,
    update_self, writerow, flush, print, emit, ret, raise.
  fold out in Hc |- *. rewrite Hc. cbn [self files trace].
  destruct (enable_manual_input (self w)) eqn:Hm.
  - specialize (Hmc eq_refl). fold out in Hmc.
    destruct (bool_decide (is_Some (files w !! out))); simpl; fold out;
      rewrite Hmc; simpl;
      match goal with
      | |- context [bool_decide ?P] => destruct (bool_decide P)
      end; simpl; eexists; split; reflexivity.
  - destruct (bool_decide (is_Some (files w !! out))); simpl;
      eexists; split; reflexivity.
Qed.

Lemma cleanup_events_closing port baud (out : Path) (manual : bool)
    (now : time) :
  cleanup_events
    (if manual
     then set_manual_csv (Some (manual_path out))
            (set_csv (Some out) (connected now (init port baud out manual)))
     else set_csv (Some out) (connected now (init port baud out manual)))
  = closing out manual.
Proof. destruct manual; reflexivity. Qed.

(** X8. A session of [run] on a fresh logger in which the port and the
    logs open ends, whatever the device and the operator do (lines, idle
    polls, a device error, entries, quitting, Ctrl-C, the end of the
    input), with [cleanup]: the sensor log, the manual log when there is
    one, and the port are closed, in that order, as the last thing [run]
    does, and nothing is closed before that. *)
Theorem run_releases_everything_once (env : Session) port baud out manual
    (w : World time) :
  self w = init port baud out manual ->
  port_ok env = true ->
  can_open env out = true ->
  (manual = true -> can_open env (manual_path out) = true) ->
  exists evs,
    trace (world_of (run env w)) = trace w ++ evs ++ closing out manual
    /\ Forall (fun e => is_close e = false) evs.
Proof.
  intros Hs Hp Hc Hmc. destruct w as [s fs tr]. cbn [self] in Hs. subst s.
  set (P := fun e : Event => is_close e = false).
  assert (P_print : forall m, P (Print m)) by reflexivity.
  assert (P_sleep : forall d, P (Sleep d)) by reflexivity.
  set (Rl := fun l l' : Logger time => cleanup_events l' = cleanup_events l).
  assert (Rl_refl : forall l, Rl l l) by reflexivity.
  assert (Rl_trans : forall l1 l2 l3, Rl l1 l2 -> Rl l2 l3 -> Rl l1 l3)
    by (unfold Rl; intros; congruence).
  assert (Rl_anchor : forall t l, Rl l (set_connection_start_time (Some t) l))
    by reflexivity.
  assert (Rl_running : forall b l, Rl l (set_running b l)) by reflexivity.
  unfold run. rewrite Hp. unfold bind at 1. rewrite open_serial_ok.
  cbn [negb self files trace]. unfold bind at 1.
  set (w1 := mkWorld _ fs _).
  destruct (open_csv_ok (can_open env) w1 Hc Hmc) as (w2 & Hopen & Hs2).
  destruct (emits_open_csv P P_print (can_open env) w1) as (e2 & Ht2 & He2).
  rewrite Hopen in Ht2 |- *. cbn [world_of] in Ht2. cbn [negb].
  unfold bind at 1. unfold get_self at 1. unfold bind at 1.
  unfold print at 1, emit at 1.
  set (w3 := mkWorld (self w2) (files w2) _).
  rewrite try_finally_cleanup.
  set (body := try_except _ _ _).
  assert (Hb : emits P body).
  { unfold body. apply emits_try_except.
    - destruct (enable_manual_input (self w2)).
      + apply emits_bind; [apply emits_emit, P_print|].
        intros _. now apply emits_threads.
      + now apply emits_simple_loop.
    - intros e. apply emits_bind; [apply emits_emit, P_print|].
      intros _. apply emits_update_self. }
  assert (Hl : steps Rl body).
  { unfold body. apply (steps_try_except Rl Rl_trans).
    - destruct (enable_manual_input (self w2)).
      + apply (steps_bind Rl Rl_trans); [apply (steps_emit Rl Rl_refl)|].
        intros _. now apply steps_threads.
      + now apply steps_simple_loop.
    - intros e. apply (steps_bind Rl Rl_trans);
        [apply (steps_emit Rl Rl_refl)|].
      intros _. apply (steps_update_self Rl). apply Rl_running. }
  destruct (Hb w3) as (eb & Htb & Heb). specialize (Hl w3). unfold Rl in Hl.
  assert (Hclose : cleanup_events (self w3) = closing out manual).
  { unfold w3. cbn [self]. rewrite Hs2.
    exact (cleanup_events_closing port baud out manual (opened_at env)). }
  cbn [trace]. rewrite Hl, Hclose, Htb. unfold w3. cbn [trace].
  rewrite Ht2. unfold w1. cbn [trace].
  exists (opening (init port baud out manual : Logger time) ++ e2
          ++ [Print (MsgMonitoring (enable_manual_input (self w2)))] ++ eb).
  split.
  - rewrite <- !app_assoc. reflexivity.
  - apply Forall_app. split.
    { unfold opening. destruct manual; repeat constructor. }
    apply Forall_app. split; [exact He2|].
    apply Forall_app. split; [repeat constructor | exact Heb].
Qed.

(** ** How the loops end *)

Lemma manual_iteration_quits (o : Operator) (w : World time) :
  quits o = true ->
  manual_iteration o w
  = Ok false (mkWorld (set_running false (self w)) (files w)
                (trace w ++ [Print MsgPrompt; Print MsgStopping])).
Proof.
  intros Hq. destruct o as [raw now st|]; cbn [quits] in Hq;
    unfold manual_iteration, try_except, bind, print, emit, update_self,
      ret, raise.
  - rewrite Hq. cbn [self files trace]. rewrite <- app_assoc. reflexivity.
  - cbn [self files trace]. rewrite <- app_assoc. reflexivity.
Qed.

(** X9. An empty line (or only white space) at the prompt, or Ctrl-C
    there, ends the session: [running] is cleared, nothing is written,
    the rest of the operator's input is never read, and the monitoring
    loop stops at its next test without polling again. *)
Theorem quit_ends_both_loops (o : Operator) (rest : list Operator)
    (ticks : list Tick) (alive : bool) (polls : list Poll) (w : World time) :
  quits o = true -> running (self w) = true ->
  let w' := mkWorld (set_running false (self w)) (files w)
              (trace w ++ [Print MsgPrompt; Print MsgStopping]) in
  manual_turns (o :: rest) w = Ok tt w'
  /\ threads (Keyboard o :: ticks) alive w = Ok tt w'
  /\ serial_monitor_loop polls w' = Ok tt w'.
Proof.
  intros Hq Hrun w'. split; [|split].
  - cbn [manual_turns]. unfold bind at 1. unfold get_self at 1.
    rewrite Hrun. unfold bind at 1.
    rewrite (manual_iteration_quits o w Hq). reflexivity.
  - cbn [threads]. unfold bind at 1. unfold get_self at 1.
    rewrite Hrun. unfold bind at 1.
    rewrite (manual_iteration_quits o w Hq). reflexivity.
  - destruct polls; reflexivity.
Qed.

Lemma serial_iteration_unplugged (w : World time) :
  running (self w) = true ->
  serial_iteration Unplugged w
  = Ok false (mkWorld (self w) (files w)
                (trace w ++ [Print (MsgSerialError SerialException)])).
Proof.
  intros Hrun.
  unfold serial_iteration, try_except, bind, raise, get_self, print, emit,
    ret.
  cbn [is_Exception]. rewrite Hrun. reflexivity.
Qed.

(** Once the monitoring thread has ended, only the operator's turns
    count. *)
Lemma threads_dead (ticks : list Tick) (w : World time) :
  threads ticks false w = threads (keyboard_only ticks) false w.
Proof.
  revert w. induction ticks as [|t ticks IH]; intros w; [reflexivity|].
  destruct t as [p|o]; cbn [keyboard_only threads].
  - unfold bind at 1. unfold get_self at 1. cbn [andb]. apply IH.
  - unfold bind, get_self. destruct (running (self w)); [|reflexivity].
    destruct (manual_iteration o w) as [[] w'|e w']; auto.
Qed.

(** X10. In manual mode a device error is reported once and ends the
    monitoring thread only: the logger, [running] included, and the disk
    are as before, the device is never polled again, and the operator's
    prompt goes on as if the later polls were not there. *)
Theorem device_error_ends_monitoring_only (ticks : list Tick)
    (w : World time) :
  running (self w) = true ->
  threads (Device Unplugged :: ticks) true w
  = threads (keyboard_only ticks) false
      (mkWorld (self w) (files w)
         (trace w ++ [Print (MsgSerialError SerialException)])).
Proof.
  intros Hrun. cbn [threads]. unfold bind at 1. unfold get_self at 1.
  rewrite Hrun. cbn [andb]. unfold bind at 1.
  rewrite (serial_iteration_unplugged w Hrun). apply threads_dead.
Qed.

(** ** Idle polls *)

Lemma idle_sleeps_plus (t u : list Event) :
  idle_sleeps (t ++ u) = (idle_sleeps t + idle_sleeps u)%nat.
Proof.
  induction t as [|e t IH]; [reflexivity|].
  destruct e as [m|[]| |]; simpl; rewrite IH; reflexivity.
Qed.

Lemma idle_sleeps_none (evs : list Event) :
  Forall (fun e => is_idle_sleep e = false) evs -> idle_sleeps evs = 0%nat.
Proof.
  induction 1 as [|e evs He _ IH]; [reflexivity|].
  destruct e as [m|[]| |]; simpl in *; try exact IH. discriminate He.
Qed.

(** One pass of [serial_monitor_loop] while the sensor log is open: it
    returns, the loop goes on unless the poll raised, the handles and
    [running] are kept, and it sleeps the idle delay exactly when the
    poll finds no bytes. *)
Lemma serial_iteration_returns (x : Poll) p q (w : World time) :
  csv_writer (self w) = Some p -> csv_file (self w) = Some q ->
  exists w',
    serial_iteration x w = Ok (negb (halts x)) w'
    /\ csv_writer (self w') = Some p /\ csv_file (self w') = Some q
    /\ running (self w') = running (self w)
    /\ idle_sleeps (trace w')
       = (idle_sleeps (trace w) + idle_polls [x])%nat.
Proof.
  intros Hp Hq. destruct x as [|line now st|]; unfold halts; cbn [poll_error].
  - eexists. split; [reflexivity|]. cbn [self trace idle_polls].
    rewrite idle_sleeps_plus. auto.
  - destruct (serial_iteration_bytes line now st p q w Hp Hq) as [tr E].
    assert (Hemit : emits (fun e => is_idle_sleep e = false)
                      (serial_iteration (Bytes line now st))).
    { unfold serial_iteration. apply emits_try_except.
      - apply emits_bind; [now apply emits_read_line|].
        intros _. apply emits_ret.
      - intros e. apply emits_bind; [apply emits_get_self|]. intros s.
        apply emits_bind; [|intros _; apply emits_ret].
        destruct (running s); [now apply emits_emit | apply emits_ret]. }
    destruct (Hemit w) as (evs & Ht & Hev).
    rewrite E in Ht |- *. cbn [world_of trace] in Ht.
    eexists. split.
    { destruct (oversized line); reflexivity. }
    cbn [self trace idle_polls].
    rewrite Ht, idle_sleeps_plus, (idle_sleeps_none evs Hev).
    destruct (marker_line line); auto.
  - unfold serial_iteration, try_except, bind, raise, get_self, print, emit,
      ret.
    cbn [is_Exception negb].
    destruct (running (self w)) eqn:Hr; eexists;
      (split; [reflexivity|]); cbn [self trace idle_polls];
      rewrite ?idle_sleeps_plus; cbn [idle_sleeps]; auto.
Qed.

(** X11. While the sensor log is open, [serial_monitor_loop] sleeps the
    idle delay exactly once for every poll that finds no bytes, up to the
    first poll that raises (a device error, or a telemetry line with a
    field too long for [int]), and at no other time. *)
Theorem monitor_loop_sleeps_once_per_idle_poll (polls : list Poll) p q
    (w : World time) :
  csv_writer (self w) = Some p -> csv_file (self w) = Some q ->
  running (self w) = true ->
  idle_sleeps (trace (world_of (serial_monitor_loop polls w)))
  = (idle_sleeps (trace w) + idle_polls (polled polls))%nat.
Proof.
  revert w. induction polls as [|x polls IH]; intros w Hp Hq Hrun;
    cbn [serial_monitor_loop]; unfold bind at 1; unfold get_self at 1;
    rewrite Hrun.
  - cbn [world_of ret polled idle_polls]. symmetry. apply Nat.add_0_r.
  - unfold bind at 1.
    destruct (serial_iteration_returns x p q w Hp Hq)
      as (w' & -> & Hp' & Hq' & Hr' & Ht).
    cbn [polled]. destruct (halts x) eqn:Hh; cbn [negb]; cbv beta iota.
    + cbn [world_of ret idle_polls]. rewrite Ht.
      destruct x as [|line now st|]; [discriminate Hh| |]; reflexivity.
    + rewrite IH; [|assumption|assumption|congruence].
      rewrite Ht. destruct x as [|line now st|]; cbn [idle_polls]; lia.
Qed.

(** X12. The loop of the simple mode never sleeps the idle delay while
    [running] is set, whatever the polls find: a poll without bytes goes
    straight to the next poll. *)
Theorem simple_loop_never_sleeps (polls : list Poll) (w : World time) :
  running (self w) = true ->
  idle_sleeps (trace (world_of (simple_loop polls w)))
  = idle_sleeps (trace w).
Proof.
  revert w. induction polls as [|x polls IH]; intros w Hrun;
    cbn [simple_loop]; unfold bind at 1; unfold get_self at 1;
    rewrite Hrun.
  - reflexivity.
  - unfold bind at 1.
    pose proof (steps_simple_iteration (fun l l' => running l' = running l)
                  (fun l => eq_refl)
                  (fun l1 l2 l3 H1 H2 => eq_trans H2 H1)
                  (fun t l => eq_refl) x w) as Hs.
    destruct (emits_simple_iteration (fun e => is_idle_sleep e = false)
                (fun m => eq_refl) x w) as (evs & Ht & Hev).
    assert (Hidle : idle_sleeps (trace (world_of (simple_iteration x w)))
                    = idle_sleeps (trace w)).
    { rewrite Ht, idle_sleeps_plus, (idle_sleeps_none evs Hev).
      apply Nat.add_0_r. }
    destruct (simple_iteration x w) as [u w'|e w']; cbn [world_of] in *.
    + rewrite IH; [exact Hidle | congruence].
    + exact Hidle.
Qed.

(** ** The anchor and the [running] flag under any sequence of actions *)







Lemma log_manual_outcome (now : time) system_time hr device notes
    (w : World time) :
  exists w',
    self w' = self w
    /\ (log_manual_heart_rate now system_time hr device notes w = Ok tt w'
        \/ log_manual_heart_rate now system_time hr device notes w
           = Raised AttributeError w').
Proof.
  unfold log_manual_heart_rate, bind, get_self, writerow, flush, print, emit,
    ret, raise.
  destruct (manual_csv_writer (self w)), (connection_start_time (self w)),
    (manual_csv_file (self w)); simpl; eexists;
    (split; [|first [left; reflexivity | right; reflexivity]]);
    reflexivity.
Qed.

Lemma manual_iteration_running (o : Operator) (w : World time) :
  quits o = false ->
  running (self (world_of (manual_iteration o w))) = running (self w).
Proof.
  destruct o as [raw now st|]; [|discriminate]. cbn [quits]. intros He.
  rewrite (manual_iteration_typed raw now st w He).
  destruct (split_of_nonempty raw He) as [p0 H0].
  set (w1 := mkWorld (self w) (files w) _).
  unfold try_except, bind, index, int_of, ret, raise. rewrite H0.
  cbv beta iota.
  destruct (PyStr.int p0) as [hr|] eqn:Hint; cbv beta iota.
  - destruct (log_manual_outcome now st hr
                (default "External" (split 2 (strip raw) !! 1%nat))
                (default "" (split 2 (strip raw) !! 2%nat)) w1)
      as (w' & Hs & [-> | ->]); cbn [world_of]; rewrite Hs; reflexivity.
  - reflexivity.
Qed.

Lemma perform_running (a : Action) (w : World time) :
  running (self (perform a w)) = running (self w) && negb (stops a).
Proof.
  destruct a as [c|now st line|now st hr d n|o|p|p|]; cbn [perform stops];
    try (cbn [negb]; rewrite andb_true_r).
  - apply (steps_open_csv (fun l l' => running l' = running l));
      first [reflexivity | (intros; simpl in *; congruence)].
  - apply (steps_process_line (fun l l' => running l' = running l));
      first [reflexivity | (intros; simpl in *; congruence)].
  - apply (steps_log_manual_heart_rate (fun l l' => running l' = running l));
      first [reflexivity | (intros; simpl in *; congruence)].
  - destruct (quits o) eqn:Hq; cbn [negb].
    + rewrite (manual_iteration_quits o w Hq). cbn [world_of self running].
      now rewrite andb_false_r.
    + rewrite andb_true_r. now apply manual_iteration_running.
  - apply (steps_serial_iteration (fun l l' => running l' = running l));
      first [reflexivity | (intros; simpl in *; congruence)].
  - apply (steps_simple_iteration (fun l l' => running l' = running l));
      first [reflexivity | (intros; simpl in *; congruence)].
  - apply (steps_cleanup (fun l l' => running l' = running l));
      first [reflexivity | (intros; simpl in *; congruence)].
Qed.

(** X14. Of [open_csv], [process_line], [log_manual_heart_rate], one
    pass of either polling loop, one turn of the prompt loop and
    [cleanup], only a turn at the prompt that is a quit (an empty line or
    Ctrl-C there) clears [running], and none of them sets it: after any
    sequence of these the flag is set exactly when it was set before and
    no turn at the prompt was a quit. A device error, a malformed entry
    or a failing write do not clear it. ([run] is not one of these
    operations: its own handler of Ctrl-C clears the flag as well.) *)
Theorem loop_operations_clear_running_at_a_quit_only (acts : list Action)
    (w : World time) :
  running (self (after acts w))
  = running (self w) && forallb (fun a => negb (stops a)) acts.
Proof.
  revert w. induction acts as [|a acts IH]; intros w.
  - cbn [after fold_left forallb]. now rewrite andb_true_r.
  - change (after (a :: acts) w) with (after acts (perform a w)).
    rewrite IH, perform_running. cbn [forallb]. now rewrite andb_assoc.
Qed.

(** X15. Whether it succeeds or fails, [open_csv] touches no path other
    than the sensor log and, in manual mode, the manual log beside it. *)
Theorem open_csv_touches_only_the_logs can_open (w : World time) (p : Path) :
  p <> output_file (self w) ->
  (enable_manual_input (self w) = true ->
   p <> manual_path (output_file (self w))) ->
  files (world_of (open_csv can_open w)) !! p = files w !! p.
Proof.
  intros Hne Hm.
  unfold open_csv, try_except, bind, get_self, path_exists, open_append,
    update_self, writerow, flush, print, emit, ret, raise, append_row.
  set (out := output_file (self w)) in *.
  destruct (can_open out); [|reflexivity]. cbn [self files trace].
  destruct (enable_manual_input (self w)).
  - specialize (Hm eq_refl).
    destruct (bool_decide (is_Some (files w !! out))); simpl; fold out;
      destruct (can_open (manual_path out)); simpl;
      repeat match goal with
             | |- context [bool_decide ?P] => destruct (bool_decide P); simpl
             end;
      simplify_map_eq; reflexivity.
  - destruct (bool_decide (is_Some (files w !! out))); simpl;
      simplify_map_eq; reflexivity.
Qed.

(** ** How a session of [run] ends *)

(** A session in which the port and the logs open reaches the [try] of
    [run] with every handle set. *)
Lemma run_opened (env : Session) port baud (out : Path) (manual : bool)
    (w : World time) :
  self w = init port baud out manual ->
  port_ok env = true -> can_open env out = true ->
  (manual = true -> can_open env (manual_path out) = true) ->
  exists w3,
    self w3
    = (if manual
       then set_manual_csv (Some (manual_path out))
              (set_csv (Some out)
                 (connected (opened_at env) (init port baud out manual)))
       else set_csv (Some out)
              (connected (opened_at env) (init port baud out manual)))
    /\ run env w
       = try_finally
           (try_except
              (if manual
               then bind (print MsgManualBanner)
                      (fun _ => threads (ticks env) true)
               else simple_loop (polls env))
              (fun e => match e with KeyboardInterrupt => true | _ => false end)
              (fun _ => bind (print MsgStoppedByUser)
                          (fun _ => update_self (set_running false))))
           cleanup w3
    /\ files w3 !! out
       = Some (match files w !! out with
               | Some rows => rows
               | None => [sensor_header]
               end)
    /\ (manual = true ->
        files w3 !! manual_path out
        = Some (match files w !! manual_path out with
                | Some rows => rows
                | None => [manual_header]
                end)).
Proof.
  intros Hs Hp Hc Hmc. destruct w as [s fs tr]. cbn [self] in Hs. subst s.
  unfold run. rewrite Hp. unfold bind at 1. rewrite open_serial_ok.
  cbn [negb self files trace]. unfold bind at 1.
  set (w1 := mkWorld _ fs _).
  destruct (open_csv_ok (can_open env) w1 Hc Hmc) as (w2 & Hopen & Hs2).
  destruct (open_csv_files (can_open env) w1 w2 Hopen) as (Hf2 & _ & Hm2).
  rewrite Hopen. cbn [negb]. unfold bind at 1. unfold get_self at 1.
  unfold bind at 1. unfold print at 1, emit at 1.
  assert (Hman : enable_manual_input (self w2) = manual)
    by (rewrite Hs2; destruct manual; reflexivity).
  rewrite Hman.
  exists (mkWorld (self w2) (files w2)
            (trace w2 ++ [Print (MsgMonitoring manual)])).
  split; [|split; [reflexivity | split; [exact Hf2|]]].
  - cbn [self]. rewrite Hs2. destruct manual; reflexivity.
  - intros ->. exact (proj1 (Hm2 eq_refl)).
Qed.

Lemma manual_iteration_continues (o : Operator) p q (w : World time) :
  manual_csv_writer (self w) = Some p -> manual_csv_file (self w) = Some q ->
  quits o = false -> exists w', manual_iteration o w = Ok true w'.
Proof.
  intros Hp Hq Hn. destruct o as [raw now st|]; [|discriminate].
  cbn [quits] in Hn. rewrite (manual_iteration_typed raw now st w Hn).
  destruct (split_of_nonempty raw Hn) as [p0 H0].
  set (w1 := mkWorld (self w) (files w) _).
  unfold try_except, bind, index, int_of, ret, raise. rewrite H0.
  cbv beta iota.
  destruct (PyStr.int p0) as [hr|] eqn:Hint; cbv beta iota.
  - destruct (log_manual_writes now st hr
                (default "External" (split 2 (strip raw) !! 1%nat))
                (default "" (split 2 (strip raw) !! 2%nat))
                p q w1 Hp Hq) as [tr ->].
    eexists. reflexivity.
  - eexists. reflexivity.
Qed.

(** With both logs open and nobody quitting, the two threads run until
    the operator's input is at its end. *)
Lemma threads_until_eof (ticks : list Tick) (alive : bool) out mp
    (w : World time) :
  logs_open out mp (self w) -> running (self w) = true ->
  forallb (fun t => negb (tick_quits t)) ticks = true ->
  exists w',
    threads ticks alive w = Raised EOFError w' /\ running (self w') = true.
Proof.
  revert alive w.
  induction ticks as [|t ticks IH]; intros alive w Ho Hrun Hq;
    cbn [threads]; unfold bind at 1; unfold get_self at 1.
  - rewrite Hrun. unfold bind, print, emit, raise.
    eexists. split; [reflexivity | exact Hrun].
  - cbn [forallb] in Hq. apply andb_true_iff in Hq as [Ht Hq].
    apply negb_true_iff in Ht.
    pose proof Ho as (Hw & Hf & Hmw & Hmf).
    destruct t as [x|o]; cbn [tick_quits] in Ht; rewrite Hrun.
    + destruct alive; cbn [andb]; [|now apply IH].
      unfold bind at 1.
      destruct (serial_iteration_returns x out out w Hw Hf) as (w' & E & _).
      pose proof (perform_effect (ActDevice x) out mp w Ho eq_refl)
        as [Ho' _].
      pose proof (perform_running (ActDevice x) w) as Hr'.
      cbn [perform stops negb] in Ho', Hr'. rewrite E in Ho', Hr' |- *.
      cbn [world_of] in Ho', Hr'. cbv beta iota.
      apply IH; [exact Ho' | now rewrite Hr', Hrun | exact Hq].
    + unfold bind at 1.
      destruct (manual_iteration_continues o mp mp w Hmw Hmf Ht) as (w' & E).
      pose proof (perform_effect (ActKeyboard o) out mp w Ho eq_refl)
        as [Ho' _].
      pose proof (perform_running (ActKeyboard o) w) as Hr'.
      cbn [perform stops] in Ho', Hr'. rewrite E in Ho', Hr' |- *.
      rewrite Ht in Hr'. cbn [world_of negb] in Ho', Hr'. cbv beta iota.
      apply IH; [exact Ho' | now rewrite Hr', Hrun | exact Hq].
Qed.

(** X16. In manual mode, when the operator's input comes to its end
    without a quit, [input] raises [EOFError], which neither loop nor
    [run] catches: [cleanup] runs and the exception leaves [run], with
    [running] still set. *)
Theorem end_of_input_leaves_run_by_EOFError (env : Session) port baud out
    (w : World time) :
  self w = init port baud out true ->
  port_ok env = true -> can_open env out = true ->
  can_open env (manual_path out) = true ->
  forallb (fun t => negb (tick_quits t)) (ticks env) = true ->
  exists w', run env w = Raised EOFError w' /\ running (self w') = true.
Proof.
  intros Hs Hp Hc Hmc Hq.
  destruct (run_opened env port baud out true w Hs Hp Hc (fun _ => Hmc))
    as (w3 & Hs3 & -> & _ & _).
  cbv iota. unfold try_finally, try_except. unfold bind at 1.
  unfold print at 1, emit at 1.
  set (w4 := mkWorld (self w3) (files w3) _).
  assert (Ho : logs_open out (manual_path out) (self w4))
    by (unfold w4; cbn [self]; rewrite Hs3; repeat split).
  assert (Hrun : running (self w4) = true)
    by (unfold w4; cbn [self]; rewrite Hs3; reflexivity).
  destruct (threads_until_eof (ticks env) true out (manual_path out) w4
              Ho Hrun Hq) as (w5 & -> & Hr).
  rewrite cleanup_effect. eexists. split; [reflexivity | exact Hr].
Qed.

Lemma first_error_cases (polls : list (@Poll time)) (e : Exn) :
  first_error polls = Some e -> e = SerialException \/ e = ValueError.
Proof.
  induction polls as [|x polls IH]; [discriminate|]. cbn [first_error].
  destruct x as [|line now st|]; cbn [poll_error]; [exact IH| |].
  - destruct (oversized line); [|exact IH]. intros [= <-]. now right.
  - intros [= <-]. now left.
Qed.

(** The loop of the simple mode ends by the first exception a poll
    raises, or by the interrupt when none does. *)
Lemma simple_loop_outcome (polls : list Poll) p q (w : World time) :
  csv_writer (self w) = Some p -> csv_file (self w) = Some q ->
  running (self w) = true ->
  exists w',
    simple_loop polls w
    = Raised (default KeyboardInterrupt (first_error polls)) w'
    /\ running (self w') = true.
Proof.
  revert w. induction polls as [|x polls IH]; intros w Hp Hq Hrun;
    cbn [simple_loop first_error]; unfold bind at 1; unfold get_self at 1;
    rewrite Hrun.
  - eexists. split; [reflexivity | exact Hrun].
  - unfold bind at 1.
    destruct x as [|line now st|]; cbn [simple_iteration poll_error].
    + cbv beta iota delta [ret]. now apply IH.
    + destruct (read_line_effect line now st p q w Hp Hq) as [tr ->].
      destruct (oversized line).
      * eexists. split; [reflexivity|]. cbn [self].
        destruct (marker_line line); exact Hrun.
      * apply IH; cbn [self]; destruct (marker_line line); assumption.
    + eexists. split; [reflexivity | exact Hrun].
Qed.

(** X17. In simple mode a session ends by Ctrl-C or by the first
    exception a poll raises, and the two end differently: after Ctrl-C
    [run] returns normally with [running] cleared; a device error, or
    the [ValueError] of [int] on a telemetry line with a field of more
    than 4300 digits, is not caught, so after [cleanup] the exception
    leaves [run] with [running] still set (in manual mode the monitoring
    loop reports it instead). *)
Theorem simple_mode_ends_by_interrupt_or_error (env : Session)
    port baud out (w : World time) :
  self w = init port baud out false ->
  port_ok env = true -> can_open env out = true ->
  exists w',
    run env w = match first_error (polls env) with
                | Some e => Raised e w'
                | None => Ok tt w'
                end
    /\ running (self w') = match first_error (polls env) with
                           | Some _ => true
                           | None => false
                           end.
Proof.
  intros Hs Hp Hc.
  assert (Hmc : false = true -> can_open env (manual_path out) = true)
    by discriminate.
  destruct (run_opened env port baud out false w Hs Hp Hc Hmc)
    as (w3 & Hs3 & -> & _ & _).
  cbv iota.
  assert (Hw : csv_writer (self w3) = Some out) by (rewrite Hs3; reflexivity).
  assert (Hf : csv_file (self w3) = Some out) by (rewrite Hs3; reflexivity).
  assert (Hrun : running (self w3) = true) by (rewrite Hs3; reflexivity).
  destruct (simple_loop_outcome (polls env) out out w3 Hw Hf Hrun)
    as (w4 & E & Hr).
  unfold try_finally, try_except. rewrite E.
  destruct (first_error (polls env)) as [e|] eqn:Ee; cbn [default].
  - destruct (first_error_cases _ _ Ee) as [-> | ->];
      cbv beta iota delta [id]; rewrite cleanup_effect; eexists; (split; [reflexivity | exact Hr]).
  - cbv beta iota. unfold bind, print, emit, update_self.
    rewrite cleanup_effect. eexists. split; reflexivity.
Qed.

(** ** What the loops leave in the sensor log *)

Lemma serial_monitor_loop_logs (polls : list Poll) out q (w : World time)
    (rows : list Row) :
  csv_writer (self w) = Some out -> csv_file (self w) = Some q ->
  running (self w) = true -> files w !! out = Some rows ->
  files (world_of (serial_monitor_loop polls w)) !! out
  = Some (rows ++ poll_rows (polled polls)).
Proof.
  revert w rows.
  induction polls as [|x polls IH]; intros w rows Hw Hf Hrun Hr;
    cbn [serial_monitor_loop]; unfold bind at 1; unfold get_self at 1;
    rewrite Hrun.
  - cbn [world_of ret polled poll_rows]. now rewrite app_nil_r.
  - unfold bind at 1. cbn [polled]. unfold halts.
    destruct x as [|line now st|]; cbn [poll_error].
    + change (serial_iteration NoBytes w)
        with (Ok true (mkWorld (self w) (files w)
                               (trace w ++ [Sleep IdleWait]))).
      cbv beta iota. cbn [poll_rows]. now apply IH.
    + destruct (serial_iteration_bytes line now st out q w Hw Hf) as [tr ->].
      destruct (oversized line) eqn:Ho; cbn [negb]; cbv beta iota.
      * assert (Ht : telemetry_row st line = None).
        { unfold oversized in Ho. unfold telemetry_row.
          destruct (Re.search combined_pattern (strip line))
            as [[|g1 [|g2 [|g3 [|]]]]|]; try reflexivity.
          apply negb_true_iff in Ho. now rewrite Ho. }
        rewrite Ht. cbn [world_of ret files poll_rows].
        now rewrite app_nil_r.
      * cbn [poll_rows]. destruct (telemetry_row st line) as [row|].
        -- rewrite (cons_middle row rows), app_assoc.
           apply IH; cbn [self files];
             try (destruct (marker_line line); assumption).
           rewrite append_row_lookup, Hr. reflexivity.
        -- apply IH; cbn [self files];
             try (destruct (marker_line line); assumption).
    + rewrite (serial_iteration_unplugged w Hrun). cbv beta iota.
      cbn [world_of ret files poll_rows]. now rewrite app_nil_r.
Qed.

Lemma simple_loop_logs (polls : list Poll) out q (w : World time)
    (rows : list Row) :
  csv_writer (self w) = Some out -> csv_file (self w) = Some q ->
  running (self w) = true -> files w !! out = Some rows ->
  files (world_of (simple_loop polls w)) !! out
  = Some (rows ++ poll_rows (polled polls)).
Proof.
  revert w rows.
  induction polls as [|x polls IH]; intros w rows Hw Hf Hrun Hr;
    cbn [simple_loop]; unfold bind at 1; unfold get_self at 1;
    rewrite Hrun.
  - cbn [world_of raise polled poll_rows]. now rewrite app_nil_r.
  - unfold bind at 1. cbn [polled]. unfold halts.
    destruct x as [|line now st|]; cbn [poll_error simple_iteration].
    + cbv beta iota delta [ret]. cbn [poll_rows]. now apply IH.
    + destruct (read_line_effect line now st out q w Hw Hf) as [tr ->].
      destruct (oversized line) eqn:Ho; cbv beta iota.
      * assert (Ht : telemetry_row st line = None).
        { unfold oversized in Ho. unfold telemetry_row.
          destruct (Re.search combined_pattern (strip line))
            as [[|g1 [|g2 [|g3 [|]]]]|]; try reflexivity.
          apply negb_true_iff in Ho. now rewrite Ho. }
        rewrite Ht. cbn [world_of files poll_rows]. now rewrite app_nil_r.
      * cbn [poll_rows]. destruct (telemetry_row st line) as [row|].
        -- rewrite (cons_middle row rows), app_assoc.
           apply IH; cbn [self files];
             try (destruct (marker_line line); assumption).
           rewrite append_row_lookup, Hr. reflexivity.
        -- apply IH; cbn [self files];
             try (destruct (marker_line line); assumption).
    + cbn [world_of raise files poll_rows]. now rewrite app_nil_r.
Qed.

(** X18. With the sensor log open, both polling loops leave the same
    thing in it: the old content followed by one row for every telemetry
    line polled before the first poll that raises (a device error, or a
    telemetry line with a field too long for [int]), in the order polled.
    They differ only in sleeping and in what such a poll does next. *)
Theorem both_loops_log_the_lines_polled (polls : list Poll) out q
    (w : World time) (rows : list Row) :
  csv_writer (self w) = Some out -> csv_file (self w) = Some q ->
  running (self w) = true -> files w !! out = Some rows ->
  files (world_of (serial_monitor_loop polls w)) !! out
  = Some (rows ++ poll_rows (polled polls))
  /\ files (world_of (simple_loop polls w)) !! out
     = Some (rows ++ poll_rows (polled polls)).
Proof.
  intros Hw Hf Hrun Hr. split.
  - exact (serial_monitor_loop_logs polls out q w rows Hw Hf Hrun Hr).
  - exact (simple_loop_logs polls out q w rows Hw Hf Hrun Hr).
Qed.

Lemma files_try_except_interrupt (m : M time unit) (w : World time) :
  files (world_of
           (try_except m
              (fun e => match e with KeyboardInterrupt => true | _ => false end)
              (fun _ => bind (print MsgStoppedByUser)
                          (fun _ => update_self (set_running false)))
              w))
  = files (world_of (m w)).
Proof.
  unfold try_except. destruct (m w) as [a w'|e w']; [reflexivity|].
  destruct e; reflexivity.
Qed.

(** X19. A whole session in simple mode, from a fresh logger, with the
    port and the log opening: when [run] is over (by Ctrl-C, by a device
    error, or by the [ValueError] of a field too long for [int]) the
    sensor log holds what it held before, or the header when it did not
    exist, followed by one row for every telemetry line received before
    the session ended, in order. *)
Theorem simple_session_log (env : Session) port baud out (w : World time) :
  self w = init port baud out false ->
  port_ok env = true -> can_open env out = true ->
  files (world_of (run env w)) !! out
  = Some (match files w !! out with
          | Some rows => rows
          | None => [sensor_header]
          end
          ++ poll_rows (polled (polls env))).
Proof.
  intros Hs Hp Hc.
  assert (Hmc : false = true -> can_open env (manual_path out) = true)
    by discriminate.
  destruct (run_opened env port baud out false w Hs Hp Hc Hmc)
    as (w3 & Hs3 & -> & Hf3 & _).
  cbv iota. rewrite try_finally_cleanup. cbn [files].
  rewrite files_try_except_interrupt.
  apply (simple_loop_logs (polls env) out out w3); try exact Hf3;
    rewrite Hs3; reflexivity.
Qed.

(** ** What a session in manual mode leaves in the two logs *)

Lemma played_opens_no_log (ticks : list Tick) (alive : bool) :
  forallb (fun a : @Action time => negb (opens_csv a)) (played ticks alive)
  = true.
Proof.
  revert alive. induction ticks as [|t ticks IH]; intros alive;
    [reflexivity|].
  destruct t as [x|o]; cbn [played].
  - destruct alive; [cbn [forallb opens_csv negb andb]|]; apply IH.
  - cbn [forallb opens_csv negb andb]. destruct (quits o); [reflexivity|].
    apply IH.
Qed.

(** The two threads do to the logger and to the disk what the iterations
    they get to perform do. *)
Lemma threads_plays (ticks : list Tick) (alive : bool) out mp
    (w : World time) :
  logs_open out mp (self w) -> running (self w) = true ->
  self (world_of (threads ticks alive w))
  = self (after (played ticks alive) w)
  /\ files (world_of (threads ticks alive w))
     = files (after (played ticks alive) w).
Proof.
  revert alive w.
  induction ticks as [|t ticks IH]; intros alive w Ho Hrun.
  - assert (E : threads [] alive w
                = Raised EOFError
                    (mkWorld (self w) (files w) (trace w ++ [Print MsgPrompt]))).
    { cbn [threads]. unfold bind, get_self, print, emit, raise.
      rewrite Hrun. reflexivity. }
    rewrite E. split; reflexivity.
  - pose proof Ho as (Hw & Hf & Hmw & Hmf).
    destruct t as [x|o]; cbn [played].
    + destruct alive.
      * destruct (serial_iteration_returns x out out w Hw Hf)
          as (w' & Ex & _).
        assert (E : threads (Device x :: ticks) true w
                    = threads ticks (negb (halts x)) w').
        { cbn [threads]. unfold bind at 1. unfold get_self at 1.
          rewrite Hrun. cbn [andb]. unfold bind at 1. rewrite Ex.
          reflexivity. }
        rewrite E.
        change (after (ActDevice x :: played ticks (negb (halts x))) w)
          with (after (played ticks (negb (halts x)))
                  (perform (ActDevice x) w)).
        pose proof (perform_effect (ActDevice x) out mp w Ho eq_refl)
          as [Ho' _].
        pose proof (perform_running (ActDevice x) w) as Hr'.
        cbn [perform stops negb] in Ho', Hr' |- *.
        rewrite Ex in Ho', Hr' |- *. cbn [world_of] in Ho', Hr' |- *.
        apply IH; [exact Ho' | now rewrite Hr', Hrun].
      * assert (E : threads (Device x :: ticks) false w
                    = threads ticks false w).
        { cbn [threads]. unfold bind at 1. unfold get_self at 1.
          reflexivity. }
        rewrite E. now apply IH.
    + destruct (quits o) eqn:Hq.
      * assert (E : threads (Keyboard o :: ticks) alive w
                    = Ok tt (world_of (manual_iteration o w))).
        { cbn [threads]. unfold bind at 1. unfold get_self at 1.
          rewrite Hrun. unfold bind at 1.
          rewrite (manual_iteration_quits o w Hq). reflexivity. }
        rewrite E. split; reflexivity.
      * destruct (manual_iteration_continues o mp mp w Hmw Hmf Hq)
          as (w' & Eo).
        assert (E : threads (Keyboard o :: ticks) alive w
                    = threads ticks alive w').
        { cbn [threads]. unfold bind at 1. unfold get_self at 1.
          rewrite Hrun. unfold bind at 1. rewrite Eo. reflexivity. }
        rewrite E.
        change (after (ActKeyboard o :: played ticks alive) w)
          with (after (played ticks alive) (perform (ActKeyboard o) w)).
        pose proof (perform_effect (ActKeyboard o) out mp w Ho eq_refl)
          as [Ho' _].
        pose proof (perform_running (ActKeyboard o) w) as Hr'.
        cbn [perform stops] in Ho', Hr' |- *.
        rewrite Eo in Ho', Hr' |- *. rewrite Hq in Hr'.
        cbn [world_of negb] in Ho', Hr' |- *.
        apply IH; [exact Ho' | now rewrite Hr', Hrun].
Qed.

(** X20. A whole session in manual mode, from a fresh logger, with the
    port and both logs opening. When [run] is over, each log holds what
    it held before (or its header when it did not exist) followed by the
    rows of the session in order: in the sensor log one row per telemetry
    line read before the monitoring loop ends (at a device error or at a
    field too long for [int]) or the operator quits, in the manual log
    one row per accepted reading, its estimate counted from the moment
    the port was opened until a marker line moves the anchor. The
    monitoring thread is taken to make no step after the prompt loop has
    returned. *)
Theorem manual_session_logs (env : Session) port baud out (w : World time) :
  self w = init port baud out true ->
  port_ok env = true -> can_open env out = true ->
  can_open env (manual_path out) = true ->
  files (world_of (run env w)) !! out
  = Some (match files w !! out with
          | Some rows => rows
          | None => [sensor_header]
          end
          ++ sensor_rows (played (ticks env) true))
  /\ files (world_of (run env w)) !! manual_path out
     = Some (match files w !! manual_path out with
             | Some rows => rows
             | None => [manual_header]
             end
             ++ manual_rows (Some (opened_at env))
                  (played (ticks env) true)).
Proof.
  intros Hs Hp Hc Hmc.
  destruct (run_opened env port baud out true w Hs Hp Hc (fun _ => Hmc))
    as (w3 & Hs3 & -> & Hf3 & Hm3).
  specialize (Hm3 eq_refl). cbv iota. rewrite try_finally_cleanup.
  cbn [files]. rewrite files_try_except_interrupt.
  set (w4 := mkWorld (self w3) (files w3)
               (trace w3 ++ [Print MsgManualBanner])).
  change (bind (print MsgManualBanner) (fun _ => threads (ticks env) true) w3)
    with (threads (ticks env) true w4).
  assert (Ho : logs_open out (manual_path out) (self w4))
    by (unfold w4; cbn [self]; rewrite Hs3; repeat split).
  assert (Hrun : running (self w4) = true)
    by (unfold w4; cbn [self]; rewrite Hs3; reflexivity).
  assert (Ha : connection_start_time (self w4) = Some (opened_at env))
    by (unfold w4; cbn [self]; rewrite Hs3; reflexivity).
  destruct (threads_plays (ticks env) true out (manual_path out) w4 Ho Hrun)
    as [_ ->].
  assert (Hne : out <> manual_path out)
    by (intros H; exact (manual_path_differs out (eq_sym H))).
  destruct (after_effect (played (ticks env) true) out (manual_path out) w4
              _ _ Ho Hne (played_opens_no_log (ticks env) true) Hf3 Hm3)
    as (_ & I2 & I3 & _).
  rewrite Ha in I3. split; [exact I2 | exact I3].
Qed.

End Facts.

(** ** The theorems at concrete inputs *)

(** Scenario A of the specification. *)
Lemma telemetry_line_logged_witness :
  Re.search combined_pattern
    (PyStr.strip "TIMESTAMP_MS: 1500 | HR: 72 | SpO2: 98")
  = Some ["1500"; "72"; "98"]
  /\ exists w',
       process_line (inject_Z 100) "2025-01-01 12:00:00.000"
         "TIMESTAMP_MS: 1500 | HR: 72 | SpO2: 98"
         (mkWorld simple_logger empty_disk [])
       = Ok tt w'
       /\ files w'
          = append_row sample_path
              [PStr "2025-01-01 12:00:00.000"; PInt 1500; PInt 72; PInt 98]
              empty_disk.
Proof.
  apply (telemetry_line_logged (inject_Z 100) "2025-01-01 12:00:00.000"
           "TIMESTAMP_MS: 1500 | HR: 72 | SpO2: 98"
           "" " " "1500" " " " " " " "72" " " " " " " "98" ""
           sample_path sample_path (mkWorld simple_logger empty_disk []));
    try reflexivity; try (split; [discriminate | reflexivity]).
  intros [|c a] [|d b] Hab Hb; try discriminate Hab. congruence.
Defined.

(** The field of 4301 digits is a run of digits beyond the limit of
    [int]. *)
Lemma long_field_run : digit_run long_field.
Proof.
  split.
  - change long_field with (String "1" (PyStr.repeat_char 4300 "1")).
    discriminate.
  - now apply repeat_char_all.
Qed.

Lemma long_field_over_limit :
  forallb PyStr.within_limit [long_field; "72"; "98"] = false.
Proof.
  cbn [forallb]. unfold PyStr.within_limit at 1, long_field.
  rewrite digit_count_repeat by reflexivity. reflexivity.
Qed.

Lemma long_telemetry_groups :
  Re.match_here combined_pattern
    (telemetry_text " " long_field " " " " " " "72" " " " " " " "98" +:+ "")
  = Some [long_field; "72"; "98"].
Proof.
  apply match_here_telemetry; try reflexivity;
    first [exact long_field_run | split; [discriminate | reflexivity]].
Qed.

(** C2, the claim as written fails. A line that matches the telemetry
    pattern with a first field of 4301 digits is not logged: [int] raises
    [ValueError] and the sensor log gains no row. *)
Lemma field_of_4301_digits_is_not_logged :
  PyStr.digit_count long_field = 4301%N
  /\ Re.search combined_pattern (PyStr.strip long_telemetry)
     = Some [long_field; "72"; "98"]
  /\ process_line (inject_Z 100) "2025-01-01 12:00:00.000" long_telemetry
       (mkWorld simple_logger empty_disk [])
     = Raised ValueError (mkWorld simple_logger empty_disk []).
Proof.
  assert (Hstrip : PyStr.strip long_telemetry
                   = telemetry_text " " long_field " " " " " " "72" " " " "
                       " " "98" +:+ "")
    by (vm_compute; reflexivity).
  assert (Hs : Re.search combined_pattern (PyStr.strip long_telemetry)
               = Some [long_field; "72"; "98"]).
  { rewrite Hstrip. apply search_found_at_start.
    exact long_telemetry_groups. }
  assert (Hc : Re.search connection_pattern (PyStr.strip long_telemetry)
               = None)
    by (vm_compute; reflexivity).
  split; [unfold long_field; now rewrite digit_count_repeat|].
  split; [exact Hs|].
  unfold process_line. cbv zeta. unfold bind.
  rewrite (check_connection_start_none (inject_Z 100) _ _ Hc).
  apply (match_combined_oversized _ _ long_field "72" "98" _ Hs);
    first [exact long_field_run | exact long_field_over_limit
          | split; [discriminate | reflexivity]].
Qed.

(** Scenario B of the specification. *)
Lemma unrecognised_line_ignored_witness :
  process_line (inject_Z 100) "2025-01-01 12:00:00.000" "garbage noise"
    (mkWorld simple_logger empty_disk [])
  = Ok tt (mkWorld simple_logger empty_disk []).
Proof.
  apply (unrecognised_line_ignored (inject_Z 100) "2025-01-01 12:00:00.000"
           "garbage noise" (mkWorld simple_logger empty_disk []));
    reflexivity.
Defined.

Lemma line_matching_both_shapes_witness :
  exists timestamp hr spo2 w',
    process_line (inject_Z 100) "2025-01-01 12:00:00.000"
      "Connection timestamp set at millis: 5 TIMESTAMP_MS: 7 | HR: 72 | SpO2: 98"
      (mkWorld simple_logger empty_disk [])
    = Ok tt w'
    /\ connection_start_time (self w') = Some (inject_Z 100)
    /\ files w'
       = append_row sample_path
           [PStr "2025-01-01 12:00:00.000"; PInt timestamp; PInt hr;
            PInt spo2] empty_disk.
Proof.
  apply (line_matching_both_shapes (inject_Z 100) "2025-01-01 12:00:00.000"
           "Connection timestamp set at millis: 5 TIMESTAMP_MS: 7 | HR: 72 | SpO2: 98"
           ["5"] ["7"; "72"; "98"] sample_path sample_path
           (mkWorld simple_logger empty_disk []));
    reflexivity.
Defined.

(** C10, the claim as written fails. A line that matches both patterns,
    the telemetry with a first field of 4301 digits, moves the anchor and
    then raises [ValueError]: no row is written. *)
Lemma long_line_matching_both_shapes_is_not_logged :
  marker_line long_marker_telemetry = true
  /\ Re.search combined_pattern (PyStr.strip long_marker_telemetry)
     = Some [long_field; "72"; "98"]
  /\ process_line (inject_Z 100) "2025-01-01 12:00:00.000"
       long_marker_telemetry (mkWorld simple_logger empty_disk [])
     = Raised ValueError
         (mkWorld (set_connection_start_time (Some (inject_Z 100))
                     simple_logger)
                  empty_disk []).
Proof.
  assert (Hstrip : PyStr.strip long_marker_telemetry
                   = "Connection timestamp set at millis: 5 "
                     +:+ (telemetry_text " " long_field " " " " " " "72" " "
                            " " " " "98" +:+ ""))
    by (vm_compute; reflexivity).
  assert (Hs : Re.search combined_pattern (PyStr.strip long_marker_telemetry)
               = Some [long_field; "72"; "98"]).
  { rewrite Hstrip.
    set (rest := telemetry_text " " long_field " " " " " " "72" " " " " " "
                   "98" +:+ "").
    rewrite !app_cons, app_empty_l.
    do 38 (rewrite search_skip by reflexivity).
    apply search_found_at_start. exact long_telemetry_groups. }
  assert (Hc : Re.search connection_pattern
                 (PyStr.strip long_marker_telemetry) = Some ["5"])
    by (vm_compute; reflexivity).
  split; [unfold marker_line; now rewrite Hc|].
  split; [exact Hs|].
  unfold process_line. cbv zeta. unfold bind.
  rewrite (check_connection_start_some (inject_Z 100) _ _ _ Hc).
  apply (match_combined_oversized _ _ long_field "72" "98" _ Hs);
    first [exact long_field_run | exact long_field_over_limit
          | split; [discriminate | reflexivity]].
Qed.

(** C1, the claim as written fails. Before any marker is seen (the anchor
    is the instant the port was opened, second 100), "81 Polar" entered at
    second 105 is logged with the plain integer 5000; the row is the very
    row a session that did see a marker at second 100 writes. *)
Lemma unsynced_row_is_a_plain_integer :
  let entry := ActKeyboard (Typed "81 Polar" (inject_Z 105) "12:00:05.000") in
  let synced :=
    perform (ActLine (inject_Z 100) "12:00:00.000" marker_text) manual_opened in
  connection_start_time (self manual_opened) = Some (inject_Z 100)
  /\ files (perform entry manual_opened) !! manual_path sample_path
     = Some [manual_header;
             [PStr "12:00:05.000"; PInt 5000; PInt 81; PStr "Polar"; PStr ""]]
  /\ files (perform entry synced) !! manual_path sample_path
     = files (perform entry manual_opened) !! manual_path sample_path.
Proof. repeat split; vm_compute; reflexivity. Qed.

Lemma manual_row_timestamp_is_integer_witness :
  estimate_at (inject_Z 105) manual_opened = 5000
  /\ exists w',
       log_manual_heart_rate (inject_Z 105) "12:00:05.000" 81 "Polar" ""
         manual_opened
       = Ok tt w'
       /\ files w'
          = append_row (manual_path sample_path)
              [PStr "12:00:05.000";
               PInt (estimate_at (inject_Z 105) manual_opened); PInt 81;
               PStr "Polar"; PStr ""] (files manual_opened).
Proof.
  split; [vm_compute; reflexivity|].
  apply (manual_row_timestamp_is_integer (inject_Z 105) "12:00:05.000" 81
           "Polar" "" (manual_path sample_path) (manual_path sample_path)
           manual_opened);
    vm_compute; reflexivity.
Defined.

Lemma latest_marker_is_the_anchor_witness :
  elapsed_ms (inject_Z 125) (inject_Z 120) = 5000
  /\ let w' :=
       after [ActLine (inject_Z 122) "12:00:22.000" telemetry_a]
         (perform (ActLine (inject_Z 120) "12:00:20.000" marker_text)
            (after [ActLine (inject_Z 115) "12:00:15.000" "garbage noise"]
               (perform (ActLine (inject_Z 110) "12:00:10.000" marker_text)
                  manual_opened))) in
     connection_start_time (self w') = Some (inject_Z 120)
     /\ estimate_at (inject_Z 125) w'
        = elapsed_ms (inject_Z 125) (inject_Z 120)
     /\ log_manual_heart_rate (inject_Z 125) "12:00:25.000" 81 "Polar" "" w'
        = Ok tt (mkWorld (self w')
                   (append_row (manual_path sample_path)
                      [PStr "12:00:25.000";
                       PInt (elapsed_ms (inject_Z 125) (inject_Z 120));
                       PInt 81; PStr "Polar"; PStr ""] (files w'))
                   (trace w'
                    ++ [Print (MsgManualSaved
                                 (Some (PInt (elapsed_ms (inject_Z 125)
                                                (inject_Z 120))))
                                 81 "Polar")])).
Proof.
  split; [vm_compute; reflexivity|].
  destruct (latest_marker_is_the_anchor (inject_Z 110) (inject_Z 120)
              (inject_Z 125) "12:00:10.000" "12:00:20.000" marker_text
              marker_text
              [ActLine (inject_Z 115) "12:00:15.000" "garbage noise"]
              [ActLine (inject_Z 122) "12:00:22.000" telemetry_a]
              "12:00:25.000" 81 "Polar" "" (manual_path sample_path)
              (manual_path sample_path) manual_opened
              eq_refl eq_refl eq_refl) as (Ha & He & Hw).
  split; [exact Ha|]. split; [exact He|].
  apply Hw; vm_compute; reflexivity.
Defined.

Lemma anchor_set_after_open_serial_witness :
  exists t,
    connection_start_time (self manual_opened) = Some t
    /\ log_manual_heart_rate (inject_Z 105) "12:00:05.000" 81 "Polar" ""
         manual_opened
       = Ok tt (mkWorld (self manual_opened)
                  (append_row (manual_path sample_path)
                     [PStr "12:00:05.000";
                      PInt (elapsed_ms (inject_Z 105) t); PInt 81;
                      PStr "Polar"; PStr ""] (files manual_opened))
                  (trace manual_opened
                   ++ [Print (MsgManualSaved
                                (Some (PInt (elapsed_ms (inject_Z 105) t)))
                                81 "Polar")])).
Proof.
  assert (Hopen : open_serial true (inject_Z 100) manual_start
                  = Ok true (world_of (open_serial true (inject_Z 100)
                                         manual_start)))
    by (vm_compute; reflexivity).
  assert (Hp : manual_csv_writer (self manual_opened)
               = Some (manual_path sample_path))
    by (vm_compute; reflexivity).
  assert (Hq : manual_csv_file (self manual_opened)
               = Some (manual_path sample_path))
    by (vm_compute; reflexivity).
  destruct (anchor_set_after_open_serial true (inject_Z 100) manual_start _
              [ActOpenCsv (fun _ => true)] Hopen) as (t & Ht & _ & Hlog).
  exists t. split; [exact Ht|].
  exact (Hlog eq_refl (inject_Z 105) "12:00:05.000" 81 "Polar" ""
              (manual_path sample_path) (manual_path sample_path) Hp Hq).
Defined.

(** Scenario C of the specification, five seconds after the anchor. *)
Lemma operator_entry_fields_witness :
  let e := TwoFields "81" " " "Polar" in
  (entry_fields e = ["81"; "Polar"] /\ entry_device e = "Polar"
   /\ entry_notes e = "" /\ estimate_at (inject_Z 105) manual_opened = 5000)
  /\ PyStr.split 2 (PyStr.strip "81 Polar") = entry_fields e
  /\ (length (entry_fields e) <= 3)%nat
  /\ exists w',
       manual_iteration (Typed "81 Polar" (inject_Z 105) "12:00:05.000")
         manual_opened
       = Ok true w'
       /\ files w'
          = append_row (manual_path sample_path)
              [PStr "12:00:05.000";
               PInt (estimate_at (inject_Z 105) manual_opened); PInt 81;
               PStr (entry_device e); PStr (entry_notes e)]
              (files manual_opened).
Proof.
  intros e. split; [repeat split; vm_compute; reflexivity|].
  apply (operator_entry_fields e "81 Polar" (inject_Z 105) "12:00:05.000" 81
           (manual_path sample_path) (manual_path sample_path)
           manual_opened);
    vm_compute; reflexivity.
Defined.

Lemma malformed_entry_reprompts_witness :
  let w' := mkWorld (self manual_opened) (files manual_opened)
              ((trace manual_opened ++ [Print MsgPrompt])
               ++ [Print MsgInvalidInput]) in
  manual_iteration (Typed "abc Polar" (inject_Z 105) "12:00:05.000")
    manual_opened
  = Ok true w'
  /\ (running (self manual_opened) = true ->
      manual_turns [Typed "abc Polar" (inject_Z 105) "12:00:05.000"]
        manual_opened
      = manual_turns [] w').
Proof.
  exact (malformed_entry_reprompts "abc Polar" (inject_Z 105) "12:00:05.000"
           "abc" [] manual_opened eq_refl eq_refl eq_refl).
Defined.

(** C3, the claim as written fails. The log exists and holds no data
    when it is opened; no header is written, and the first record becomes
    the first row of the file. *)
Lemma existing_empty_file_gets_no_header :
  files simple_start_on_empty_file !! sample_path = Some []
  /\ open_csv (fun _ => true) simple_start_on_empty_file
     = Ok true (world_of (open_csv (fun _ => true) simple_start_on_empty_file))
  /\ files (world_of (open_csv (fun _ => true) simple_start_on_empty_file))
       !! sample_path
     = Some []
  /\ files (perform (ActLine (inject_Z 100) "12:00:00.000" telemetry_a)
              (world_of (open_csv (fun _ => true)
                           simple_start_on_empty_file)))
       !! sample_path
     = Some [[PStr "12:00:00.000"; PInt 1500; PInt 72; PInt 98]].
Proof. repeat split; vm_compute; reflexivity. Qed.

Lemma header_written_iff_file_is_new_witness :
  files manual_opened !! sample_path = Some [sensor_header]
  /\ files (world_of
              (write_rows (csv_writer (self manual_opened))
                 [[PStr "12:00:00.000"; PInt 1500; PInt 72; PInt 98]]
                 manual_opened))
       !! sample_path
     = Some [sensor_header;
             [PStr "12:00:00.000"; PInt 1500; PInt 72; PInt 98]].
Proof.
  assert (Hopen : open_csv (fun _ => true)
                    (world_of (open_serial true (inject_Z 100) manual_start))
                  = Ok true manual_opened)
    by (vm_compute; reflexivity).
  generalize (header_written_iff_file_is_new (fun _ => true) _ manual_opened
                [[PStr "12:00:00.000"; PInt 1500; PInt 72; PInt 98]] Hopen).
  vm_compute. intros (H1 & H2 & _). split; [exact H1 | exact H2].
Defined.

(** C4, the code at idle polls. A run in simple mode whose three polls
    find no bytes never sleeps the idle delay; the loop of the manual mode
    sleeps it once per such poll. *)
Theorem simple_mode_idle_polls_do_not_sleep :
  idle_polls (polls idle_session) = 3%nat
  /\ idle_sleeps (trace (world_of (run idle_session simple_start))) = 0%nat
  /\ simple_loop (polls idle_session) manual_opened
     = Raised KeyboardInterrupt manual_opened
  /\ idle_sleeps
       (trace (world_of (serial_monitor_loop (polls idle_session)
                           manual_opened)))
     = 3%nat.
Proof. repeat split; vm_compute; reflexivity. Qed.

(** ** Further properties at concrete inputs *)

Lemma process_line_raises_at_oversized_fields_only_witness :
  oversized telemetry_a = false
  /\ exists w',
       process_line (inject_Z 101) "12:00:01.000" telemetry_a manual_opened
       = if oversized telemetry_a then Raised ValueError w' else Ok tt w'.
Proof.
  split; [vm_compute; reflexivity|].
  apply (process_line_raises_at_oversized_fields_only (inject_Z 101)
           "12:00:01.000" telemetry_a sample_path sample_path
           manual_opened);
    vm_compute; reflexivity.
Defined.

Lemma sensor_log_in_arrival_order_witness :
  sensor_rows sample_acts
  = [[PStr "12:00:01.000"; PInt 1500; PInt 72; PInt 98]]
  /\ files (after sample_acts manual_opened) !! sample_path
     = Some ([sensor_header] ++ sensor_rows sample_acts).
Proof.
  split; [vm_compute; reflexivity|].
  apply (sensor_log_in_arrival_order sample_acts sample_path
           (manual_path sample_path) manual_opened [sensor_header]
           [manual_header]).
  - repeat split; vm_compute; reflexivity.
  - intros H. exact (manual_path_differs sample_path (eq_sym H)).
  - vm_compute; reflexivity.
  - vm_compute; reflexivity.
  - vm_compute; reflexivity.
  - vm_compute; reflexivity.
Defined.

Lemma manual_log_in_entry_order_witness :
  manual_rows (connection_start_time (self manual_opened)) sample_acts
  = [[PStr "12:00:05.000"; PInt 5000; PInt 81; PStr "Polar"; PStr ""];
     [PStr "12:00:12.000"; PInt 2000; PInt 90; PStr "Garmin";
      PStr "after run"]]
  /\ files (after sample_acts manual_opened) !! manual_path sample_path
     = Some ([manual_header]
             ++ manual_rows (connection_start_time (self manual_opened))
                  sample_acts).
Proof.
  split; [vm_compute; reflexivity|].
  apply (manual_log_in_entry_order sample_acts sample_path
           (manual_path sample_path) manual_opened [sensor_header]
           [manual_header]).
  - repeat split; vm_compute; reflexivity.
  - intros H. exact (manual_path_differs sample_path (eq_sym H)).
  - vm_compute; reflexivity.
  - vm_compute; reflexivity.
  - vm_compute; reflexivity.
  - vm_compute; reflexivity.
Defined.

Lemma only_the_two_logs_are_written_witness :
  logs_open sample_path (manual_path sample_path)
    (self (after sample_acts manual_opened))
  /\ forall p, p <> sample_path -> p <> manual_path sample_path ->
               files (after sample_acts manual_opened) !! p
               = files manual_opened !! p.
Proof.
  apply (only_the_two_logs_are_written sample_acts sample_path
           (manual_path sample_path) manual_opened [sensor_header]
           [manual_header]).
  - repeat split; vm_compute; reflexivity.
  - intros H. exact (manual_path_differs sample_path (eq_sym H)).
  - vm_compute; reflexivity.
  - vm_compute; reflexivity.
  - vm_compute; reflexivity.
Defined.

Lemma run_without_port_witness :
  run no_port_session simple_start
  = Ok tt (mkWorld (self simple_start) (files simple_start)
             (trace simple_start
              ++ [Print (MsgOpening (port (self simple_start))
                                    (baud (self simple_start)));
                  Print MsgOpenFailed])).
Proof. exact (run_without_port no_port_session simple_start eq_refl). Defined.

Lemma run_without_sensor_log_witness :
  run no_sensor_log_session simple_start
  = Ok tt (mkWorld (connected (opened_at no_sensor_log_session)
                      (self simple_start))
             (files simple_start)
             (trace simple_start ++ opening (self simple_start)
              ++ [Print MsgCsvFailed; CloseSerial])).
Proof.
  exact (run_without_sensor_log no_sensor_log_session simple_start
           eq_refl eq_refl).
Defined.

Lemma run_without_manual_log_witness :
  let out := output_file (self manual_start) in
  exists w',
    run no_manual_log_session manual_start = Ok tt w'
    /\ csv_file (self w') = Some out
    /\ files w' !! out
       = Some (match files manual_start !! out with
               | Some rows => rows
               | None => [sensor_header]
               end)
    /\ (forall p, p <> out -> files w' !! p = files manual_start !! p)
    /\ exists evs,
         trace w' = trace manual_start ++ evs
                    ++ [Print MsgCsvFailed; CloseSerial]
         /\ Forall (fun e => is_close e = false) evs.
Proof.
  exact (run_without_manual_log no_manual_log_session manual_start
           eq_refl eq_refl eq_refl eq_refl).
Defined.

Lemma run_releases_everything_once_witness :
  exists evs,
    trace (world_of (run manual_session manual_start))
    = trace manual_start ++ evs ++ closing sample_path true
    /\ Forall (fun e => is_close e = false) evs.
Proof.
  exact (run_releases_everything_once manual_session "COM3" 115200
           sample_path true manual_start eq_refl eq_refl eq_refl
           (fun _ => eq_refl)).
Defined.

Lemma quit_ends_both_loops_witness :
  let o := Typed "  " (inject_Z 110) "12:00:10.000" in
  let w := mkWorld manual_logger empty_disk [] in
  let w' := mkWorld (set_running false (self w)) (files w)
              (trace w ++ [Print MsgPrompt; Print MsgStopping]) in
  manual_turns [o; Typed "81 Polar" (inject_Z 111) "12:00:11.000"] w
  = Ok tt w'
  /\ threads [Keyboard o; Device NoBytes] true w = Ok tt w'
  /\ serial_monitor_loop sample_polls w' = Ok tt w'.
Proof.
  exact (quit_ends_both_loops (Typed "  " (inject_Z 110) "12:00:10.000")
           [Typed "81 Polar" (inject_Z 111) "12:00:11.000"]
           [Device NoBytes] true sample_polls
           (mkWorld manual_logger empty_disk []) eq_refl eq_refl).
Defined.

Lemma device_error_ends_monitoring_only_witness :
  let w := mkWorld manual_logger empty_disk [] in
  let ticks := [Device NoBytes;
                Keyboard (Typed "" (inject_Z 110) "12:00:10.000")] in
  threads (Device Unplugged :: ticks) true w
  = threads (keyboard_only ticks) false
      (mkWorld (self w) (files w)
         (trace w ++ [Print (MsgSerialError SerialException)])).
Proof.
  exact (device_error_ends_monitoring_only
           [Device NoBytes; Keyboard (Typed "" (inject_Z 110) "12:00:10.000")]
           (mkWorld manual_logger empty_disk []) eq_refl).
Defined.

Lemma monitor_loop_sleeps_once_per_idle_poll_witness :
  let w := mkWorld manual_logger empty_disk [] in
  idle_polls (polled sample_polls) = 2%nat
  /\ idle_sleeps (trace (world_of (serial_monitor_loop sample_polls w)))
     = (idle_sleeps (trace w) + idle_polls (polled sample_polls))%nat.
Proof.
  split; [reflexivity|].
  exact (monitor_loop_sleeps_once_per_idle_poll sample_polls sample_path
           sample_path (mkWorld manual_logger empty_disk [])
           eq_refl eq_refl eq_refl).
Defined.

Lemma simple_loop_never_sleeps_witness :
  let w := mkWorld simple_logger empty_disk [] in
  idle_sleeps (trace (world_of (simple_loop sample_polls w)))
  = idle_sleeps (trace w).
Proof.
  exact (simple_loop_never_sleeps sample_polls
           (mkWorld simple_logger empty_disk []) eq_refl).
Defined.

Lemma open_csv_touches_only_the_logs_witness :
  files (world_of (open_csv (fun _ => true) manual_start))
    !! ("data", "notes.txt")
  = files manual_start !! ("data", "notes.txt").
Proof.
  apply (open_csv_touches_only_the_logs (fun _ => true) manual_start
           ("data", "notes.txt")).
  - vm_compute. discriminate.
  - intros _. vm_compute. discriminate.
Defined.

Lemma end_of_input_leaves_run_by_EOFError_witness :
  exists w',
    run eof_session manual_start = Raised EOFError w'
    /\ running (self w') = true.
Proof.
  exact (end_of_input_leaves_run_by_EOFError eof_session "COM3" 115200
           sample_path manual_start eq_refl eq_refl eq_refl eq_refl eq_refl).
Defined.

Lemma simple_mode_ends_by_interrupt_or_error_witness :
  first_error (polls failing_simple_session) = Some SerialException
  /\ exists w',
       run failing_simple_session simple_start
       = match first_error (polls failing_simple_session) with
         | Some e => Raised e w'
         | None => Ok tt w'
         end
       /\ running (self w')
          = match first_error (polls failing_simple_session) with
            | Some _ => true
            | None => false
            end.
Proof.
  split; [vm_compute; reflexivity|].
  exact (simple_mode_ends_by_interrupt_or_error failing_simple_session
           "COM3" 115200 sample_path simple_start eq_refl eq_refl eq_refl).
Defined.

Lemma both_loops_log_the_lines_polled_witness :
  poll_rows (polled sample_polls)
  = [[PStr "12:00:01.000"; PInt 1500; PInt 72; PInt 98]]
  /\ files (world_of (serial_monitor_loop sample_polls manual_opened))
       !! sample_path
     = Some ([sensor_header] ++ poll_rows (polled sample_polls))
  /\ files (world_of (simple_loop sample_polls manual_opened)) !! sample_path
     = Some ([sensor_header] ++ poll_rows (polled sample_polls)).
Proof.
  split; [vm_compute; reflexivity|].
  apply (both_loops_log_the_lines_polled sample_polls sample_path sample_path
           manual_opened [sensor_header]);
    vm_compute; reflexivity.
Defined.

Lemma simple_session_log_witness :
  poll_rows (polled (polls failing_simple_session))
  = [[PStr "12:00:01.000"; PInt 1500; PInt 72; PInt 98]]
  /\ files (world_of (run failing_simple_session simple_start)) !! sample_path
     = Some (match files simple_start !! sample_path with
             | Some rows => rows
             | None => [sensor_header]
             end
             ++ poll_rows (polled (polls failing_simple_session))).
Proof.
  split; [vm_compute; reflexivity|].
  exact (simple_session_log failing_simple_session "COM3" 115200 sample_path
           simple_start eq_refl eq_refl eq_refl).
Defined.

Lemma manual_session_logs_witness :
  (sensor_rows (played (ticks manual_session) true)
   = [[PStr "12:00:01.000"; PInt 1500; PInt 72; PInt 98]]
   /\ manual_rows (Some (opened_at manual_session))
        (played (ticks manual_session) true)
      = [[PStr "12:00:05.000"; PInt 5000; PInt 81; PStr "Polar"; PStr ""]])
  /\ files (world_of (run manual_session manual_start)) !! sample_path
     = Some (match files manual_start !! sample_path with
             | Some rows => rows
             | None => [sensor_header]
             end
             ++ sensor_rows (played (ticks manual_session) true))
  /\ files (world_of (run manual_session manual_start))
       !! manual_path sample_path
     = Some (match files manual_start !! manual_path sample_path with
             | Some rows => rows
             | None => [manual_header]
             end
             ++ manual_rows (Some (opened_at manual_session))
                  (played (ticks manual_session) true)).
Proof.
  split; [split; vm_compute; reflexivity|].
  exact (manual_session_logs manual_session "COM3" 115200 sample_path
           manual_start eq_refl eq_refl eq_refl eq_refl).
Defined.
